(* ===== verification/_CoqProject ===== *)
-Q . S2P
Prelude.v
Js.v
Http.v
Vsts.v
Retry.v
Config.v
ConfigTheorems.v
ConfigScenarios.v
Base64.v
Base64Spec.v
GithubV1.v
GithubFiles.v
Client.v
Commit.v
Pr.v
Repo.v
