(* ===== verification/Prelude.v ===== *)
(** * A verification development for renovate's GitHub layer

    The program (toptaldev92/renovate, the JavaScript sources under src/)
    automates dependency-update pull requests against the GitHub REST API.
    Its parts, and how they interact:
    - src/app/config/parser.js, the configuration cascade:
      [getGlobalConfig] merges the default, custom and command-line layers
      with [Object.assign], exits when the token or the repository list is
      missing, normalises the repository entries in three [forEach] passes
      and keeps the result in a module-level [config];
      [getCascadedConfig] layers that config, one repository and one package
      file, fills missing templates from the defaults and strips three keys.
    - src/src/github.js, a first GitHub client: [init] fills a module-level
      [config] (token, repository, base branch, owner, base SHA) that every
      other operation ([createBranch], [createPr], [checkForClosedPr],
      [getFile], [getFileContents], [getPr], [writeFile], [updatePr])
      reads; each operation is one [gh-got] request; file contents travel
      base64-encoded through Node's [Buffer].
    - the retry wrapper gh-got-retry, the later client lib/api/github.js
      ([initRepo], [branchExists], [getPr], [getFileContent],
      [getBranchPr], [findPr], [mergePr], [commitFilesToBranch], ...) and
      the VSTS wrapper are exercised by src/test/api/gh-got-retry.spec.js,
      src/test/api/github.spec.js and
      src/test/platform/vsts/vsts-got-wrapper.spec.js but their code is
      not under src/: they are modelled from the specification (sections
      4.1 to 4.4 and 8; the VSTS wrapper, which the spec does not
      describe, from its test) and marked spec_modelled in the manifest.
      Where a test's expectations contradict the specification, the model
      follows the test, which exercises the real code: gh-got-retry also
      retries 500, and [mergePr] makes a single attempt with the merge
      method [initRepo] detected.  The tests' mock answers are modelled as
      concrete environments the models run in.

    Files (_CoqProject lists them in build order):
    - Prelude (this file): string helpers; the request-program monad
      [prog] (a finite tree: [Ret], [Throw], [Call] with a continuation)
      with [bind] and [catch], the models of [await] and [try/catch]; the
      [Responder] class, the interface between a program and its
      environment (jest mocks, a model of GitHub); the interpreter [run]
      returning the completion, the final environment and the trace of
      requests; [run_bind], [run_catch]; [only P p] (every request [p] can
      issue satisfies [P]) with its bind/catch/trace lemmas; [within n p]
      ([p] finishes after at most [n] requests whatever the answers, the
      termination measure of request programs) with its bind/catch lemmas
      and [within_calls]; the tactic [within0]; the hint databases
      [renovate] and [renovate_run].
    - Js: JavaScript values [jval], property reads with the TypeError of
      [undefined.x], [String(v)], truthiness, [typeof], [===],
      [Object.assign] on ordered property lists, [delete]; objects without
      duplicate keys ([wf_obj]) and its preservation; the setoid
      [obj_equiv] of objects with the same reads, with [Proper] instances
      for [obj_get], [obj_set], [obj_del], [set_all] and [assign].
    - Http: requests ([method], URL, options), outcomes, the program type
      [js], and the jest mock queues of gh-got ([mocks], one queue per
      method, an exhausted queue answering [undefined]) as a [Responder].
    - Retry (spec section 4.1): [retryable] (502 and 500, or 403 from the
      rate limiter or abuse detection; 500 because the test "should give up
      after 5 retries" retries it), [retry_loop] with [max_retries] = 5,
      app-mode [decorate]; a characterisation over any [Responder] and the
      claims on the tests' mock queues (retry then success, at most six
      requests, permanent errors propagate after one request, app-mode
      accept header); the five tests of the file replayed.
    - Config, Module [Parser] (parser.js line by line; the state holds the
      logger level, [config] and the objects [require] caches for the
      defaults and the custom configuration; the [forEach] passes as
      [pass], which keeps the writes made before an exception, and their
      writes reach the cached layer that provided [config.repositories]
      ([share_repositories]), as [Object.assign] copies references; the
      [process.exit] calls as an [Exit] outcome) and Module [ParserFacts]
      (the step lemmas of the passes).
    - ConfigTheorems, Module [ParserTheorems]: the
      returned config is well formed with normalised repositories (the
      invariant of the three passes), layering key by key, the fatal exits,
      bare names and command-line repositories, the template fallback and
      stripped keys of [getCascadedConfig], the normalised list written
      back into the custom configuration module, and two checks as the
      code writes them: a [null] token passes the [typeof] test, and a
      package-file list given as one name makes [getGlobalConfig] throw.
    - ConfigScenarios, Module [ParserScenarios]: the fixture config of
      src/test/_fixtures/config/file.js run through the parser, and the
      witnesses of ConfigTheorems.
    - Base64: Node's base64 encoder (bit operations on 24-bit groups with
      [Z.shiftl], [Z.lor], [Z.land]) and its lenient decoder; decoding
      inverts encoding on every byte list, also after GitHub's 60-column
      line breaks.
    - Base64Spec: the textbook encoder [ref_encode] (the bytes as one
      stream of bits, six at a time, zero bits completing the last group,
      then '=' to a multiple of four) as the reference of [b64_encode]:
      the two are equal on every byte list; the encoder's output is
      characters of the alphabet followed by [(3 - n mod 3) mod 3] '='.
    - GithubV1: github.js with the module-level [config] threaded as an
      explicit state; [init]'s [baseSHA] is the last matching ref, [init]
      never rejects and keeps a stale [baseSHA], [checkForClosedPr],
      [getFile], [getPr].
    - GithubFiles: Node 8's [new Buffer(v, encoding)] ([buffer_from]:
      strings decoded, numbers allocated or, with an encoding, an error,
      arrays and array-like objects copied modulo 256); [getFileContents]
      and [writeFile] over Base64, with the [JsonParse] class as the
      interface of [JSON.parse] and a model of GitHub's contents store as a
      [Responder]: writing a text then reading it gives [JSON.parse] of
      that text; on any host that rejects the read, [getFileContents]
      rejects with that error (a missing file is a 404, not [null]); every
      operation of github.js settles after exactly one request (none when
      [new Buffer] throws in [writeFile]; the model makes that synchronous
      throw a rejection, which is what an [await]ing caller sees).
    - Client (spec sections 4.2, 4.4 and 8, and the tests): [initRepo]
      (token from a non-empty argument or [GITHUB_TOKEN]; [mergeMethod],
      the first strategy whose flag is truthy), [deleteBranch], and the
      negotiation [mergePr]: one PUT with the detected method, or rebase,
      squash and merge in turn ([try_strategies]) when none was detected.
      The state machine [mstep] of section 4.4 runs over the context's
      strategies [attempts]; [sim] matches a run of it with the host's
      answers, and [mergePr_refines_machine] shows that every run of
      [mergePr], on every host, is such a matched run to a terminal state,
      request for request, followed by the DELETE exactly when the machine
      ends merged.  [within_mergePr] bounds its requests by
      [(attempts + 1) * (max_retries + 1)].
    - Commit (spec sections 4.2 and 4.3): [branchExists] and
      [commitFilesToBranch] (blob, tree, commit, then the ref); atomicity:
      steps 1 to 4 never touch a ref, a failure there aborts before any ref
      request, and the ref update is last and carries the new commit SHA;
      the tests' traces.
    - Pr (spec section 4.2): [getPr], with the author de-duplication of
      [reduce]/[indexOf]; a PR with several commits is rebaseable iff it
      has at least one commit and all commits have the first author.
    - Repo (spec section 4.2): [getFile], [getFileContent] and
      [getFileJson] ([null] on 404, other errors propagated, the base64
      round trip of Base64 on the content), [getBranchPr], [findPr],
      [checkForClosedPr]; the tests' scenarios.
    - Vsts: the VSTS wrapper [gitApi] (two environment guards, then an
      opaque connection), from its test.

    Bounds and fuel.  All recursion is structural: a [prog] is a finite
    tree, so [run] terminates on every program and every theorem about a
    result is a statement about a total function.  The retry loop is
    recursive on its budget ([max_retries] = 5, so at most six requests,
    [within_retry_loop]).  [sextets_of_bits] in Base64Spec takes the
    number of bits as fuel; one bit per step would be enough, and
    [sextets_fuel] shows that any fuel at least the length gives the same
    result.
    [wrap_lines] takes the string length as fuel, which is enough since
    every step consumes at least one character.  Integers are [Z]: bytes
    are kept in [0, 256) by the [is_byte] hypothesis, and 24-bit groups
    below 2^24.

    Tests replayed.  Retry, Client, Commit and Pr end with Examples that
    run the model on the mock answers of the tests and check the tests'
    expectations (calls made, results); they validate the spec-modelled
    definitions against the code the tests exercise.

    Not modelled: the winston logger and [logger.verbose]/[logger.error]
    output (only the log level is kept); [require] of the defaults and the
    custom file (taken as arguments); the promise scheduler (a program's
    requests are sequential, as every [await] in the sources is);
    [JSON.parse] beyond its interface; Node's [Buffer] beyond
    [buffer_from] (typed arrays, [ArrayBuffer]s, objects with their own
    [valueOf] or [Symbol.toPrimitive], lengths beyond [kMaxLength]); the
    [GITHUB_ENDPOINT] written by [initRepo] is the argument as given; the
    [vso-node-api] connection
    beyond the endpoint and token it records; the parts of
    lib/api/github.js the spec lists without describing their requests
    (the app-installation calls, [getRepos], [findFilePaths],
    [getBranchStatus], and the direct mutations [createPr], [updatePr],
    [addLabels], [addAssignees], [addReviewers]).
*)

From Stdlib Require Import String List ZArith Lia Bool.
Import ListNotations.

Create HintDb renovate discriminated.
Create Rewrite HintDb renovate_run.

Declare Scope prog_scope.
Delimit Scope prog_scope with prog.

(** ** Strings *)

Local Open Scope string_scope.

(** [s.startsWith(p)] *)
Definition starts_with (p s : string) : bool := String.prefix p s.

(** [hay.indexOf(needle) !== -1] *)
Fixpoint contains (needle hay : string) : bool :=
  match hay with
  | EmptyString => String.prefix needle EmptyString
  | String c rest => String.prefix needle hay || contains needle rest
  end.

(** [s.split(sep)[0]]: the part of [s] before the first [sep]. *)
Fixpoint split_before (sep : Ascii.ascii) (s : string) : string :=
  match s with
  | EmptyString => EmptyString
  | String c rest =>
      if Ascii.eqb c sep then EmptyString else String c (split_before sep rest)
  end.

Lemma string_app_assoc (a b c : string) : ((a ++ b) ++ c)%string = (a ++ (b ++ c))%string.
Proof. induction a as [|x a IH]; simpl; [reflexivity|now rewrite IH]. Qed.

Lemma string_app_nil_r (a : string) : (a ++ "")%string = a.
Proof. induction a as [|x a IH]; simpl; [reflexivity|now rewrite IH]. Qed.

Lemma prefix_app (p s : string) : String.prefix p (p ++ s) = true.
Proof.
  induction p as [|c p IH]; simpl; [destruct s; reflexivity|].
  destruct (Ascii.ascii_dec c c); [exact IH | congruence].
Qed.

Lemma prefix_spec (p s : string) :
  String.prefix p s = true <-> exists t, s = p ++ t.
Proof.
  split.
  - revert s; induction p as [|c p IH]; intros s H; [now exists s|].
    destruct s as [|d s]; simpl in H; [discriminate|].
    destruct (Ascii.ascii_dec c d) as [->|]; [|discriminate].
    destruct (IH s H) as [t ->]. now exists t.
  - intros [t ->]. apply prefix_app.
Qed.

Lemma contains_spec (n h : string) :
  contains n h = true <-> exists a b, h = a ++ n ++ b.
Proof.
  split.
  - induction h as [|c h IH]; cbn [contains]; intros H.
    + apply prefix_spec in H as [t Ht]. exists "", t. exact Ht.
    + apply orb_true_iff in H as [H|H].
      * apply prefix_spec in H as [t Ht]. exists "", t. exact Ht.
      * destruct (IH H) as (a & b & ->). exists (String c a), b. reflexivity.
  - intros (a & b & ->). induction a as [|c a IH]; cbn [append contains].
    + destruct (n ++ b) as [|c s] eqn:E; cbn [contains]; rewrite <- E;
        [apply prefix_app|].
      apply orb_true_iff; left. apply prefix_app.
    + rewrite IH. apply orb_true_r.
Qed.

Lemma contains_app_l (n a b : string) : contains n (a ++ n ++ b) = true.
Proof. apply contains_spec. eauto. Qed.

#[export] Hint Resolve prefix_app contains_app_l : renovate.

Local Close Scope string_scope.

(** ** Lists *)

Lemma repeat_snoc {A} (x : A) n : repeat x n ++ [x] = repeat x (S n).
Proof. induction n as [|n IH]; simpl; [reflexivity | now rewrite IH]. Qed.

#[export] Hint Rewrite @repeat_snoc : renovate_run.

(** ** Request programs

    A [prog Q R X A] is an asynchronous JavaScript computation seen from the
    outside: it either returns an [A], throws an [X] (a rejected promise), or
    issues a request [q : Q] and continues with the answer [r : R].  The tree
    is finite, so every interpreter below is structural. *)

Section Prog.
Context {Q R X : Type}.

Inductive prog (A : Type) : Type :=
| Ret (a : A)
| Throw (e : X)
| Call (q : Q) (k : R -> prog A).

Arguments Ret {A} a.
Arguments Throw {A} e.
Arguments Call {A} q k.

(** [await p] followed by [f] *)
Fixpoint bind {A B} (p : prog A) (f : A -> prog B) : prog B :=
  match p with
  | Ret a => f a
  | Throw e => Throw e
  | Call q k => Call q (fun r => bind (k r) f)
  end.

(** [try { p } catch (e) { h(e) }] *)
Fixpoint catch {A} (p : prog A) (h : X -> prog A) : prog A :=
  match p with
  | Ret a => Ret a
  | Throw e => h e
  | Call q k => Call q (fun r => catch (k r) h)
  end.

Definition fmap {A B} (f : A -> B) (p : prog A) : prog B :=
  bind p (fun a => Ret (f a)).

(** The outcome of a finished program. *)
Inductive completion (A : Type) : Type :=
| Done (a : A)
| Threw (e : X).

Arguments Done {A} a.
Arguments Threw {A} e.

(** The interface between a program and its environment: an environment
    state [E] answers each request and moves to a new state.  The jest
    mock queues of the tests and the model of the GitHub host are both
    instances. *)
Class Responder (E : Type) := respond : Q -> E -> R * E.

Context {E : Type} `{Responder E}.

(** Run a program to completion; return the completion, the final
    environment and the requests issued, in order. *)
Fixpoint run {A} (p : prog A) (e : E) : completion A * E * list Q :=
  match p with
  | Ret a => (Done a, e, [])
  | Throw x => (Threw x, e, [])
  | Call q k =>
      let '(r, e1) := respond q e in
      let '(c, e2, t) := run (k r) e1 in
      (c, e2, q :: t)
  end.

Definition result_of {A} (p : prog A) (e : E) : completion A :=
  fst (fst (run p e)).

Definition trace_of {A} (p : prog A) (e : E) : list Q := snd (run p e).

Lemma run_bind {A B} (p : prog A) (f : A -> prog B) (e : E) :
  run (bind p f) e =
    let '(c, e1, t1) := run p e in
    match c with
    | Done a => let '(c2, e2, t2) := run (f a) e1 in (c2, e2, t1 ++ t2)
    | Threw x => (Threw x, e1, t1)
    end.
Proof.
  revert e; induction p as [a|x|q k IH]; intros e; simpl.
  - destruct (run (f a) e) as [[c2 e2] t2]; reflexivity.
  - reflexivity.
  - destruct (respond q e) as [r e1]. rewrite IH.
    destruct (run (k r) e1) as [[[a|x] e2] t1]; simpl; [|reflexivity].
    destruct (run (f a) e2) as [[c3 e3] t3]; reflexivity.
Qed.

Lemma run_catch {A} (p : prog A) (h : X -> prog A) (e : E) :
  run (catch p h) e =
    let '(c, e1, t1) := run p e in
    match c with
    | Done a => (Done a, e1, t1)
    | Threw x => let '(c2, e2, t2) := run (h x) e1 in (c2, e2, t1 ++ t2)
    end.
Proof.
  revert e; induction p as [a|x|q k IH]; intros e; simpl.
  - reflexivity.
  - destruct (run (h x) e) as [[c2 e2] t2]; reflexivity.
  - destruct (respond q e) as [r e1]. rewrite IH.
    destruct (run (k r) e1) as [[[a|x] e2] t1]; simpl; [reflexivity|].
    destruct (run (h x) e2) as [[c3 e3] t3]; reflexivity.
Qed.

Lemma run_fmap {A B} (f : A -> B) (p : prog A) (e : E) :
  run (fmap f p) e =
    let '(c, e1, t1) := run p e in
    match c with
    | Done a => (Done (f a), e1, t1)
    | Threw x => (Threw x, e1, t1)
    end.
Proof.
  unfold fmap. rewrite run_bind.
  destruct (run p e) as [[[a|x] e1] t1]; simpl; rewrite ?app_nil_r; reflexivity.
Qed.

(** The number of requests a program issues is the length of its trace. *)
Definition calls {A} (p : prog A) (e : E) : nat := length (trace_of p e).

(** [only P p]: every request [p] can issue satisfies [P], whatever the
    answers.  A property of the program text, independent of the
    environment. *)
Inductive only (P : Q -> Prop) {A} : prog A -> Prop :=
| only_ret a : only P (Ret a)
| only_throw x : only P (Throw x)
| only_call q k : P q -> (forall r, only P (k r)) -> only P (Call q k).

Lemma only_bind P {A B} (p : prog A) (f : A -> prog B) :
  only P p -> (forall a, only P (f a)) -> only P (bind p f).
Proof. intros Hp Hf. induction Hp; simpl; [apply Hf|constructor|constructor; auto]. Qed.

Lemma only_catch P {A} (p : prog A) (h : X -> prog A) :
  only P p -> (forall x, only P (h x)) -> only P (catch p h).
Proof. intros Hp Hh. induction Hp; simpl; [constructor|apply Hh|constructor; auto]. Qed.

Lemma only_trace P {A} (p : prog A) (e : E) : only P p -> Forall P (trace_of p e).
Proof.
  unfold trace_of. intros Hp. revert e. induction Hp as [a|x|q k Hq Hk IH]; intros e; simpl; auto.
  destruct (respond q e) as [r e1]. specialize (IH r e1).
  destruct (run (k r) e1) as [[c e2] t]. simpl in *. constructor; auto.
Qed.

(** [within n p]: whatever the answers, [p] finishes after at most [n]
    requests.  The measure of termination of request programs: a loop that
    re-issues requests is shown to stop by a bound of this kind. *)
Inductive within {A} : nat -> prog A -> Prop :=
| within_ret n a : within n (Ret a)
| within_throw n x : within n (Throw x)
| within_call n q k : (forall r, within n (k r)) -> within (S n) (Call q k).

Lemma within_mono {A} n m (p : prog A) : within n p -> (n <= m)%nat -> within m p.
Proof.
  intros Hp. revert m. induction Hp as [| |n q k _ IH]; intros m Hm; try constructor.
  destruct m as [|m]; [lia|]. constructor. intros r. apply IH. lia.
Qed.

Lemma within_bind {A B} n m (p : prog A) (f : A -> prog B) :
  within n p -> (forall a, within m (f a)) -> within (n + m) (bind p f).
Proof.
  intros Hp Hf. induction Hp as [n a|n x|n q k _ IH]; simpl.
  - apply within_mono with m; [apply Hf|lia].
  - constructor.
  - constructor. exact IH.
Qed.

Lemma within_catch {A} n m (p : prog A) (h : X -> prog A) :
  within n p -> (forall x, within m (h x)) -> within (n + m) (catch p h).
Proof.
  intros Hp Hh. induction Hp as [n a|n x|n q k _ IH]; simpl.
  - constructor.
  - apply within_mono with m; [apply Hh|lia].
  - constructor. exact IH.
Qed.

Lemma within_calls {A} n (p : prog A) (e : E) : within n p -> (calls p e <= n)%nat.
Proof.
  unfold calls, trace_of. intros Hp. revert e.
  induction Hp as [| |n q k _ IH]; intros e; simpl; try lia.
  destruct (respond q e) as [r e1]. specialize (IH r e1).
  destruct (run (k r) e1) as [[c e2] t]. simpl in *. lia.
Qed.

(** A program that starts with a request and finishes within one makes
    exactly one. *)
Lemma calls_one {A} q (k : R -> prog A) (e : E) :
  (forall r, within 0 (k r)) -> calls (Call q k) e = 1%nat.
Proof.
  intros Hk. unfold calls, trace_of. simpl. destruct (respond q e) as [r e1].
  pose proof (within_calls 0 (k r) e1 (Hk r)) as H0. unfold calls, trace_of in H0.
  destruct (run (k r) e1) as [[c e2] t]. simpl in *. destruct t; [reflexivity|simpl in H0; lia].
Qed.

End Prog.

Arguments prog : clear implicits.
Arguments Ret {Q R X A} a.
Arguments Throw {Q R X A} e.
Arguments Call {Q R X A} q k.
Arguments completion : clear implicits.
Arguments Done {X A} a.
Arguments Threw {X A} e.

Notation "x <- c ;; k" := (bind c (fun x => k))
  (at level 61, c at next level, right associativity) : prog_scope.
Notation "' pat <- c ;; k" := (bind c (fun x => match x with pat => k end))
  (at level 61, pat pattern, c at next level, right associativity) : prog_scope.
Notation "c ;;; k" := (bind c (fun _ => k))
  (at level 61, right associativity) : prog_scope.

#[export] Hint Rewrite @run_bind @run_catch @run_fmap : renovate_run.
#[export] Hint Constructors only : renovate.
#[export] Hint Resolve only_bind only_catch : renovate.
#[export] Hint Constructors within : renovate.

(** Unfold one interpreter step on a concrete request. *)
Ltac run_step :=
  repeat (rewrite ?run_bind, ?run_catch, ?run_fmap; cbn [run bind catch fmap]).

(** Case on every [if] and [match] scrutinee in the goal. *)
Ltac case_goal :=
  repeat match goal with
         | |- context [if ?b then _ else _] => destruct b eqn:?
         | |- context [match ?x with _ => _ end] =>
             lazymatch x with
             | context [match _ with _ => _ end] => fail
             | _ => destruct x eqn:?
             end
         end.

(** Show that a program makes no request: every [bind], [catch], [match]
    and [if] is split, and the leaves are closed by the [renovate] hints. *)
Ltac within0 :=
  repeat match goal with
         | |- within 0 (bind _ _) => apply (within_bind 0 0); [|intros ?]
         | |- within 0 (catch _ _) => apply (within_catch 0 0); [|intros ?]
         | |- within _ (match ?x with _ => _ end) => destruct x
         | |- within _ (if ?b then _ else _) => destruct b
         | |- within _ _ => solve [auto with renovate]
         end.
