(* ===== verification/Js.v ===== *)
(** * JavaScript values as the source manipulates them

    [jval] is the JSON-like value space the sources work in (request bodies,
    responses, configuration objects), with [JRef] for native objects the
    code stores but never inspects (the winston logger).  Objects are
    ordered property lists, as JavaScript keeps insertion order; [obj_set]
    updates a property in place or appends it, [obj_del] is [delete],
    [assign] is [Object.assign].  Reads go through [get_prop] and
    [get_index], which throw the [TypeError] of [undefined.x] / [null.x].
    The invariant [wf_obj] (no duplicate keys) is preserved by every
    operation.  [obj_equiv] (the same answer to every property read) is
    the equivalence coarser than equality under which key order is
    forgotten; every operation is [Proper] for it, and writes to distinct
    keys commute up to it. *)

From Stdlib Require Import String List ZArith Lia Bool DecimalString Setoid Morphisms.
From S2P Require Import Prelude.
Import ListNotations.

Local Set Warnings "-register-all".

Inductive jval : Type :=
| JUndef
| JNull
| JBool (b : bool)
| JNum (n : Z)
| JStr (s : string)
| JArr (xs : list jval)
| JObj (ps : list (string * jval))
| JRef (tag : string).

Definition obj := list (string * jval).

Local Open Scope string_scope.

(** ** Errors the runtime throws *)

(** [new Error(msg)] *)
Definition error_obj (msg : string) : jval := JObj [("message", JStr msg)].

(** [new TypeError(msg)] *)
Definition type_error (msg : string) : jval :=
  JObj [("name", JStr "TypeError"); ("message", JStr msg)].

(** ** Conversions *)

Definition string_of_nat (n : nat) : string :=
  NilEmpty.string_of_uint (Nat.to_uint n).

Definition string_of_Z (n : Z) : string :=
  NilZero.string_of_int (Z.to_int n).

(** [String(v)], as a template literal [`${v}`] uses it. *)
Fixpoint to_string (v : jval) : string :=
  match v with
  | JUndef => "undefined"
  | JNull => "null"
  | JBool b => if b then "true" else "false"
  | JNum n => string_of_Z n
  | JStr s => s
  | JArr xs =>
      (fix join (xs : list jval) : string :=
         match xs with
         | [] => ""
         | [x] => match x with JUndef | JNull => "" | _ => to_string x end
         | x :: rest =>
             match x with JUndef | JNull => "" | _ => to_string x end
               ++ "," ++ join rest
         end) xs
  | JObj _ | JRef _ => "[object Object]"
  end.

(** JavaScript truthiness ([NaN] is not a value of the model). *)
Definition truthy (v : jval) : bool :=
  match v with
  | JUndef | JNull => false
  | JBool b => b
  | JNum n => negb (Z.eqb n 0)
  | JStr s => negb (String.eqb s "")
  | JArr _ | JObj _ | JRef _ => true
  end.

Definition typeof (v : jval) : string :=
  match v with
  | JUndef => "undefined"
  | JNull | JArr _ | JObj _ | JRef _ => "object"
  | JBool _ => "boolean"
  | JNum _ => "number"
  | JStr _ => "string"
  end.

(** [a === b] on primitives; two object operands are taken to be distinct
    references (the sources compare only strings with [===]). *)
Definition strict_eq (a b : jval) : bool :=
  match a, b with
  | JUndef, JUndef | JNull, JNull => true
  | JBool x, JBool y => Bool.eqb x y
  | JNum x, JNum y => Z.eqb x y
  | JStr x, JStr y => String.eqb x y
  | _, _ => false
  end.

(** ** Ordered objects *)

Fixpoint obj_get (o : obj) (k : string) : option jval :=
  match o with
  | [] => None
  | (k', v) :: rest => if String.eqb k' k then Some v else obj_get rest k
  end.

(** [o[k] = v]: replace the property in place, or append it. *)
Fixpoint obj_set (o : obj) (k : string) (v : jval) : obj :=
  match o with
  | [] => [(k, v)]
  | (k', v') :: rest =>
      if String.eqb k' k then (k', v) :: rest else (k', v') :: obj_set rest k v
  end.

(** [delete o[k]] *)
Definition obj_del (o : obj) (k : string) : obj :=
  filter (fun p => negb (String.eqb (fst p) k)) o.

Definition keys (o : obj) : list string := map fst o.

(** The well-formedness invariant of an object: no key twice. *)
Definition wf_obj (o : obj) : Prop := NoDup (keys o).

(** [o.k] on an object, [undefined] when absent. *)
Definition prop_or_undef (o : obj) (k : string) : jval :=
  match obj_get o k with Some v => v | None => JUndef end.

(** The own enumerable properties [Object.assign] copies from a source:
    an object's properties, an array's or a string's indexed elements, and
    nothing for [undefined], [null], booleans, numbers and native objects. *)
Fixpoint indexed {A} (f : A -> jval) (n : nat) (xs : list A) : obj :=
  match xs with
  | [] => []
  | x :: rest => (string_of_nat n, f x) :: indexed f (S n) rest
  end.

Fixpoint chars (s : string) : list string :=
  match s with
  | EmptyString => []
  | String c rest => String c EmptyString :: chars rest
  end.

Definition own_props (v : jval) : obj :=
  match v with
  | JObj ps => ps
  | JArr xs => indexed (fun x => x) 0 xs
  | JStr s => indexed JStr 0 (chars s)
  | _ => []
  end.

Definition set_all (o : obj) (ps : obj) : obj :=
  fold_left (fun acc p => obj_set acc (fst p) (snd p)) ps o.

(** [Object.assign(target, ...srcs)] *)
Definition assign (target : obj) (srcs : list jval) : obj :=
  fold_left (fun acc s => set_all acc (own_props s)) srcs target.

(** [v.k], with the TypeError a read on [undefined] or [null] throws.
    Arrays and strings answer [length]; other primitives have no own
    properties the sources read. *)
Definition get_prop (v : jval) (k : string) : jval + jval :=
  match v with
  | JUndef => inr (type_error ("Cannot read property '" ++ k ++ "' of undefined"))
  | JNull => inr (type_error ("Cannot read property '" ++ k ++ "' of null"))
  | JObj ps => inl (prop_or_undef ps k)
  | JArr xs =>
      inl (if String.eqb k "length" then JNum (Z.of_nat (length xs))
           else prop_or_undef (own_props v) k)
  | JStr s =>
      inl (if String.eqb k "length" then JNum (Z.of_nat (String.length s))
           else prop_or_undef (own_props v) k)
  | _ => inl JUndef
  end.

(** [v[i]] *)
Definition get_index (v : jval) (i : nat) : jval + jval :=
  get_prop v (string_of_nat i).

(** ** Lemmas on objects *)

Lemma obj_get_set_eq (o : obj) k v : obj_get (obj_set o k v) k = Some v.
Proof.
  induction o as [|[k' v'] o IH]; simpl; [now rewrite String.eqb_refl|].
  destruct (String.eqb_spec k' k) as [->|]; simpl.
  - now rewrite String.eqb_refl.
  - apply String.eqb_neq in n. now rewrite n.
Qed.

Lemma obj_get_set_ne (o : obj) k k' v :
  k <> k' -> obj_get (obj_set o k v) k' = obj_get o k'.
Proof.
  intros Hne. induction o as [|[j w] o IH]; simpl.
  - apply String.eqb_neq in Hne. now rewrite Hne.
  - destruct (String.eqb_spec j k) as [->|Hjk]; simpl.
    + apply String.eqb_neq in Hne. now rewrite Hne.
    + now rewrite IH.
Qed.

Lemma obj_get_set (o : obj) k k' v :
  obj_get (obj_set o k v) k' = if String.eqb k k' then Some v else obj_get o k'.
Proof.
  destruct (String.eqb_spec k k') as [->|Hne].
  - apply obj_get_set_eq.
  - now apply obj_get_set_ne.
Qed.

Lemma keys_obj_set (o : obj) k v :
  keys (obj_set o k v) = if existsb (String.eqb k) (keys o) then keys o
                         else (keys o ++ [k])%list.
Proof.
  induction o as [|[j w] o IH]; simpl; [reflexivity|].
  destruct (String.eqb_spec j k) as [->|Hne]; simpl.
  - now rewrite String.eqb_refl.
  - assert (Hkj : String.eqb k j = false) by (apply String.eqb_neq; congruence).
    rewrite Hkj, IH; simpl. now destruct (existsb (String.eqb k) (keys o)).
Qed.

Lemma obj_set_wf (o : obj) k v : wf_obj o -> wf_obj (obj_set o k v).
Proof.
  unfold wf_obj. intros Hwf. rewrite keys_obj_set.
  destruct (existsb (String.eqb k) (keys o)) eqn:E; [exact Hwf|].
  apply NoDup_app; [exact Hwf | constructor; [intros []|constructor] |].
  intros x Hx [Hxk|[]]. rewrite <- Hxk in Hx.
  assert (existsb (String.eqb k) (keys o) = true) as Hin.
  { apply existsb_exists. exists k. split; [exact Hx | apply String.eqb_refl]. }
  congruence.
Qed.

Lemma obj_set_set (o : obj) k v w : obj_set (obj_set o k v) k w = obj_set o k w.
Proof.
  induction o as [|[j x] o IH]; simpl; [now rewrite String.eqb_refl|].
  destruct (String.eqb j k) eqn:E; simpl; rewrite ?E; [reflexivity | now rewrite IH].
Qed.

Lemma obj_get_del_eq (o : obj) k : obj_get (obj_del o k) k = None.
Proof.
  induction o as [|[j w] o IH]; simpl; [reflexivity|].
  destruct (String.eqb_spec j k) as [->|Hne]; simpl; [exact IH|].
  apply String.eqb_neq in Hne. now rewrite Hne.
Qed.

Lemma obj_get_del_ne (o : obj) k k' :
  k <> k' -> obj_get (obj_del o k) k' = obj_get o k'.
Proof.
  intros Hne. induction o as [|[j w] o IH]; simpl; [reflexivity|].
  destruct (String.eqb_spec j k) as [->|Hjk]; simpl.
  - apply String.eqb_neq in Hne. now rewrite Hne.
  - now rewrite IH.
Qed.

Lemma obj_del_wf (o : obj) k : wf_obj o -> wf_obj (obj_del o k).
Proof.
  unfold wf_obj, obj_del, keys. induction o as [|[j w] o IH]; simpl; [auto|].
  intros Hnd. inversion Hnd as [|? ? Hnin Hnd']; subst.
  destruct (negb (String.eqb j k)); simpl; [|auto].
  constructor; [|auto].
  intros Hin. apply Hnin. apply in_map_iff in Hin as ([j' w'] & Hj & Hin).
  apply filter_In in Hin as [Hin _]. simpl in Hj; subst.
  now apply (in_map fst) in Hin.
Qed.

Lemma set_all_wf (o ps : obj) : wf_obj o -> wf_obj (set_all o ps).
Proof.
  unfold set_all. revert o. induction ps as [|[k v] ps IH]; simpl; [auto|].
  intros o Ho. apply IH. now apply obj_set_wf.
Qed.

Lemma assign_wf (o : obj) srcs : wf_obj o -> wf_obj (assign o srcs).
Proof.
  unfold assign. revert o. induction srcs as [|s srcs IH]; simpl; [auto|].
  intros o Ho. apply IH. now apply set_all_wf.
Qed.

#[export] Hint Resolve obj_set_wf obj_del_wf set_all_wf assign_wf : renovate.

(** A binding appended at the end is read only when no other has the key. *)
Lemma obj_get_snoc (l : obj) j w k :
  obj_get (l ++ [(j, w)])%list k =
  match obj_get l k with Some v => Some v | None => if String.eqb j k then Some w else None end.
Proof.
  induction l as [|[a b] l IHl]; simpl; [reflexivity|].
  destruct (String.eqb a k); [reflexivity | exact IHl].
Qed.

(** Reading after [set_all]: the last binding of [ps] wins, then [o]. *)
Lemma obj_get_set_all (o ps : obj) k :
  obj_get (set_all o ps) k =
    match obj_get (rev ps) k with Some v => Some v | None => obj_get o k end.
Proof.
  unfold set_all. revert o. induction ps as [|[j w] ps IH]; intros o; simpl; [reflexivity|].
  rewrite IH, obj_get_set.
  rewrite obj_get_snoc. destruct (obj_get (rev ps) k); [reflexivity|].
  destruct (String.eqb j k); reflexivity.
Qed.

(** Reading after [Object.assign]: the last source that has the key wins. *)
Fixpoint layered_get (srcs : list jval) (k : string) : option jval :=
  match srcs with
  | [] => None
  | s :: rest =>
      match layered_get rest k with
      | Some v => Some v
      | None => obj_get (rev (own_props s)) k
      end
  end.

Lemma obj_get_assign (o : obj) srcs k :
  obj_get (assign o srcs) k =
    match layered_get srcs k with Some v => Some v | None => obj_get o k end.
Proof.
  unfold assign. revert o. induction srcs as [|s srcs IH]; intros o; simpl; [reflexivity|].
  rewrite IH. fold (set_all o (own_props s)). rewrite obj_get_set_all.
  destruct (layered_get srcs k); reflexivity.
Qed.

(** On a well-formed object, the last binding is the only one. *)
Lemma obj_get_rev_wf (o : obj) k : wf_obj o -> obj_get (rev o) k = obj_get o k.
Proof.
  unfold wf_obj, keys. induction o as [|[j w] o IH]; simpl; [reflexivity|].
  intros Hnd. inversion Hnd as [|? ? Hnin Hnd']; subst.
  rewrite obj_get_snoc, IH by exact Hnd'.
  destruct (String.eqb_spec j k) as [->|]; [|now destruct (obj_get o k)].
  destruct (obj_get o k) eqn:E; [|reflexivity].
  exfalso. apply Hnin. clear -E. induction o as [|[a b] o IHo]; simpl in *; [discriminate|].
  destruct (String.eqb_spec a k) as [->|]; [now left | right; auto].
Qed.

(** ** Objects up to the order of their keys

    Two objects are equivalent when every property read answers the same.
    The order of the keys, which [Object.keys] and [JSON.stringify]
    observe, may differ; every operation above respects the equivalence,
    so a proof about reads can rewrite an object by an equivalent one. *)

Definition obj_equiv (o1 o2 : obj) : Prop := forall k, obj_get o1 k = obj_get o2 k.

#[export] Instance obj_equiv_Equivalence : Equivalence obj_equiv.
Proof.
  split; [intros o k; reflexivity | intros o1 o2 H k; now rewrite H |
          intros o1 o2 o3 H1 H2 k; now rewrite H1, H2].
Qed.

#[export] Instance obj_get_Proper : Proper (obj_equiv ==> eq ==> eq) obj_get.
Proof. intros o1 o2 Ho k ? <-. apply Ho. Qed.

#[export] Instance prop_or_undef_Proper : Proper (obj_equiv ==> eq ==> eq) prop_or_undef.
Proof. intros o1 o2 Ho k ? <-. unfold prop_or_undef. now rewrite Ho. Qed.

#[export] Instance obj_set_Proper : Proper (obj_equiv ==> eq ==> eq ==> obj_equiv) obj_set.
Proof. intros o1 o2 Ho k ? <- v ? <- k'. now rewrite !obj_get_set, Ho. Qed.

Lemma obj_get_del (o : obj) k k' :
  obj_get (obj_del o k) k' = if String.eqb k k' then None else obj_get o k'.
Proof.
  destruct (String.eqb_spec k k') as [<-|Hne]; [apply obj_get_del_eq|now apply obj_get_del_ne].
Qed.

#[export] Instance obj_del_Proper : Proper (obj_equiv ==> eq ==> obj_equiv) obj_del.
Proof. intros o1 o2 Ho k ? <- k'. now rewrite !obj_get_del, Ho. Qed.

#[export] Instance set_all_Proper : Proper (obj_equiv ==> eq ==> obj_equiv) set_all.
Proof. intros o1 o2 Ho ps ? <- k. now rewrite !obj_get_set_all, Ho. Qed.

#[export] Instance assign_Proper : Proper (obj_equiv ==> eq ==> obj_equiv) assign.
Proof. intros o1 o2 Ho srcs ? <- k. now rewrite !obj_get_assign, Ho. Qed.

(** Writes to different keys commute, up to the order of the keys. *)
Lemma obj_set_comm (o : obj) k v k' v' :
  k <> k' -> obj_equiv (obj_set (obj_set o k v) k' v') (obj_set (obj_set o k' v') k v).
Proof.
  intros Hne j. rewrite !obj_get_set.
  destruct (String.eqb_spec k j) as [<-|], (String.eqb_spec k' k) as [->|]; congruence.
Qed.

(** A well-formed object read backwards is the same object. *)
Lemma rev_obj_equiv (o : obj) : wf_obj o -> obj_equiv (rev o) o.
Proof. intros Hwf k. now apply obj_get_rev_wf. Qed.

(** Writing a key, then writing it again after other keys, is writing the
    last value: a setoid rewrite through [obj_set]. *)
Lemma obj_set_shadow (o : obj) k v k' v' w :
  k <> k' -> obj_equiv (obj_set (obj_set (obj_set o k v) k' v') k w) (obj_set (obj_set o k' v') k w).
Proof.
  intros Hne. rewrite (obj_set_comm o k v k' v' Hne). now rewrite obj_set_set.
Qed.

#[export] Hint Rewrite obj_get_set_eq obj_get_del_eq obj_get_assign : renovate_run.
