(* ===== verification/Http.v ===== *)
(** * HTTP requests through gh-got, and the jest mock queues

    A request is what the sources pass to [ghGot] / [ghGot.post] / ...: a
    method, a URL relative to the API root, and an options object (token,
    body, headers).  A request settles as a resolved response or a rejected
    error, both JavaScript values.  [js A] is an asynchronous computation of
    the sources: a [prog] over these requests that throws JavaScript values.

    [mocks] models the jest mocks of [gh-got] that the tests install: one
    queue of [mockImplementationOnce] results per method; an exhausted queue
    answers [undefined], as an automock does. *)

From Stdlib Require Import String List ZArith Lia Bool.
From S2P Require Import Prelude Js.
Import ListNotations.
Local Open Scope string_scope.
Local Open Scope list_scope.

Inductive method : Type := GET | POST | PUT | PATCH | DELETE.

Definition method_eqb (a b : method) : bool :=
  match a, b with
  | GET, GET | POST, POST | PUT, PUT | PATCH, PATCH | DELETE, DELETE => true
  | _, _ => false
  end.

Lemma method_eqb_spec a b : reflect (a = b) (method_eqb a b).
Proof. destruct a, b; constructor; congruence. Qed.

Record request : Type := mkReq {
  req_method : method;
  req_url : string;
  req_opts : jval
}.

Inductive outcome : Type :=
| Resolved (v : jval)
| Rejected (e : jval).

Abbreviation js := (prog request outcome jval).

(** [await ghGot.<m>(url, opts)] *)
Definition gh_got (m : method) (url : string) (opts : jval) : js jval :=
  Call (mkReq m url opts)
       (fun o => match o with Resolved v => Ret v | Rejected e => Throw e end).

(** A runtime step that may throw (a property read). *)
Definition lift (r : jval + jval) : js jval :=
  match r with inl v => Ret v | inr e => Throw e end.

(** [v.k] inside an async function. *)
Definition prop (v : jval) (k : string) : js jval := lift (get_prop v k).

Lemma within_lift r : within 0 (lift r).
Proof. destruct r; constructor. Qed.

Lemma within_prop v k : within 0 (prop v k).
Proof. apply within_lift. Qed.

#[export] Hint Resolve within_lift within_prop : renovate.

(** ** The jest mocks of gh-got *)

Record mocks : Type := mkMocks {
  q_get : list outcome;
  q_post : list outcome;
  q_put : list outcome;
  q_patch : list outcome;
  q_delete : list outcome
}.

Definition no_mocks : mocks := mkMocks [] [] [] [] [].

Definition pop (q : list outcome) : outcome * list outcome :=
  match q with
  | [] => (Resolved JUndef, [])
  | o :: rest => (o, rest)
  end.

Definition mock_respond (r : request) (m : mocks) : outcome * mocks :=
  let '(mkMocks g po pu pa d) := m in
  match req_method r with
  | GET => let '(o, g') := pop g in (o, mkMocks g' po pu pa d)
  | POST => let '(o, po') := pop po in (o, mkMocks g po' pu pa d)
  | PUT => let '(o, pu') := pop pu in (o, mkMocks g po pu' pa d)
  | PATCH => let '(o, pa') := pop pa in (o, mkMocks g po pu pa' d)
  | DELETE => let '(o, d') := pop d in (o, mkMocks g po pu pa d')
  end.

#[export] Instance mocks_responder : Responder mocks := mock_respond.

Definition get_queue (os : list outcome) : mocks := mkMocks os [] [] [] [].
Definition post_queue (os : list outcome) : mocks := mkMocks [] os [] [] [].

(** Requests of a trace with a given method ([ghGot.put.mock.calls]). *)
Definition calls_with (m : method) (t : list request) : list request :=
  filter (fun r => method_eqb (req_method r) m) t.

(** The response object of the mocks, [{ statusCode, body }]. *)
Definition response (status : Z) (body : jval) : jval :=
  JObj [("statusCode", JNum status); ("body", body)].

Definition body_only (body : jval) : jval := JObj [("body", body)].

(** A rejection with a status code and an optional message. *)
Definition http_error (status : Z) (msg : option string) : jval :=
  JObj (("statusCode", JNum status)
          :: match msg with Some m => [("message", JStr m)] | None => [] end).

Lemma run_gh_got {E} `{Responder request outcome E} m url opts (e : E) :
  run (gh_got m url opts) e =
    let '(o, e1) := respond (mkReq m url opts) e in
    match o with
    | Resolved v => (Done v, e1, [mkReq m url opts])
    | Rejected x => (Threw x, e1, [mkReq m url opts])
    end.
Proof. simpl. destruct (respond _ e) as [[v|x] e1]; reflexivity. Qed.
