(* ===== verification/Vsts.v ===== *)
(** * The VSTS API wrapper (lib/platform/vsts/vsts-got-wrapper.js)

    [gitApi()] reads [VSTS_TOKEN] and [VSTS_ENDPOINT] from the environment,
    throws when either is missing or empty, and otherwise returns the Git
    API of a [vso-node-api] connection to the endpoint, authenticated with
    a personal access token.  Only the test
    src/test/platform/vsts/vsts-got-wrapper.spec.js is in the repository,
    and the spec does not describe the wrapper: the definitions follow what
    that test requires.  The connection is an opaque value recording the
    endpoint and the token; [process.env] is threaded as a record. *)

From Stdlib Require Import String List.
From S2P Require Import Js.
Import ListNotations.
Local Open Scope string_scope.

Module Vsts.

Record vsts_env : Type := mkVstsEnv {
  VSTS_TOKEN : option string;
  VSTS_ENDPOINT : option string
}.

(** [!process.env.X]: unset or empty. *)
Definition env_missing (v : option string) : bool :=
  match v with None => true | Some s => String.eqb s "" end.

Definition no_token_message : string := "No token found for vsts".

Definition no_endpoint_message : string :=
  "You need an endpoint with vsts. Something like this: https://{instance}.VisualStudio.com/{collection} (https://fabrikam.visualstudio.com/DefaultCollection)".

(** [new vsts.WebApi(endpoint, getPersonalAccessTokenHandler(token)).getGitApi()] *)
Definition git_api (endpoint token : string) : jval :=
  JObj [("serverUrl", JStr endpoint); ("authHandler", JObj [("token", JStr token)])].

(** [if (!process.env.VSTS_TOKEN) throw ...; if (!process.env.VSTS_ENDPOINT)
    throw ...; return connect.getGitApi()] *)
Definition gitApi (env : vsts_env) : (jval + jval) * vsts_env :=
  if env_missing (VSTS_TOKEN env) then (inr (error_obj no_token_message), env)
  else if env_missing (VSTS_ENDPOINT env) then (inr (error_obj no_endpoint_message), env)
  else (inl (git_api (match VSTS_ENDPOINT env with Some ep => ep | None => "" end)
                     (match VSTS_TOKEN env with Some t => t | None => "" end)), env).

(** The environments of the three tests: the [beforeEach] deletes both
    variables, then each test sets some of them. *)
Definition test_envs : list vsts_env :=
  [mkVstsEnv None None; mkVstsEnv (Some "myToken") None;
   mkVstsEnv (Some "myToken") (Some "myEndpoint")].

End Vsts.

Module VstsTheorems.
Import Vsts.

(** The three tests of the wrapper: with neither variable set it
    throws "No token found for vsts"; with the token only it throws the
    endpoint message; with both it returns the Git API of a connection to
    "myEndpoint" authenticated with "myToken"; in every case the
    environment is left as it was. *)
Theorem gitApi_tests :
  map gitApi test_envs =
    [(inr (error_obj no_token_message), mkVstsEnv None None);
     (inr (error_obj no_endpoint_message), mkVstsEnv (Some "myToken") None);
     (inl (git_api "myEndpoint" "myToken"), mkVstsEnv (Some "myToken") (Some "myEndpoint"))].
Proof. reflexivity. Qed.

End VstsTheorems.
