(* ===== verification/Retry.v ===== *)
(** * gh-got-retry: the resilient request layer

    The wrapper's code ([lib/api/gh-got-retry.js]) is not under src/; it is
    modelled from the specification (section 4.1) and checked against the
    mock sequences of [src/test/api/gh-got-retry.spec.js].

    - [decorate]: app mode prepends the preview media type to the caller's
      [accept] header.
    - [retryable]: a rejection is retried when its status is 502 or 500,
      or 403 with a rate-limit or abuse-detection message.  Section 4.1 of
      the specification names only 502 and the two 403 messages; the test
      "should give up after 5 retries" answers 502, 502, 500, 500, 502, 403
      and expects the final 403, so the wrapper also retries 500.
    - [retry_loop n q]: issue [q]; on a retryable rejection and [n > 0],
      issue the identical request again with [n - 1]; otherwise settle with
      the outcome.  [gh_got_retry] starts it with [max_retries = 5], so at
      most six requests are made.

    The main theorem, [retry_loop_characterisation], describes the run on any
    environment: the wrapper issues [q] exactly [i + 1] times, where the
    first [i] answers are retryable rejections, and settles with answer [i]
    unchanged. *)

From Stdlib Require Import String List ZArith Lia Bool.
From S2P Require Import Prelude Js Http.
Import ListNotations.
Local Open Scope list_scope.
Local Open Scope string_scope.

Definition app_accept : string := "application/vnd.github.machine-man-preview+json".

(** The options object's [headers], with [accept] prefixed in app mode. *)
Definition decorate (app_mode : bool) (opts : jval) : jval :=
  if app_mode then
    let headers := prop_or_undef (own_props opts) "headers" in
    let accept := prop_or_undef (own_props headers) "accept" in
    let accept' := if truthy accept then app_accept ++ ", " ++ to_string accept
                   else app_accept in
    JObj (obj_set (own_props opts) "headers"
            (JObj (obj_set (own_props headers) "accept" (JStr accept'))))
  else opts.

Definition status_of (e : jval) : option Z :=
  match e with
  | JObj ps => match obj_get ps "statusCode" with Some (JNum n) => Some n | _ => None end
  | _ => None
  end.

Definition message_of (e : jval) : string :=
  match e with
  | JObj ps => match obj_get ps "message" with Some (JStr m) => m | _ => "" end
  | _ => ""
  end.

Definition rate_limit_text : string := "API rate limit exceeded".
Definition abuse_text : string := "abuse detection mechanism".

(** Transient failures: 502 and 500, and 403 from the rate limiter. *)
Definition retryable (e : jval) : bool :=
  match status_of e with
  | Some s =>
      Z.eqb s 502 || Z.eqb s 500 ||
      (Z.eqb s 403 && (contains rate_limit_text (message_of e)
                       || contains abuse_text (message_of e)))
  | None => false
  end.

Fixpoint retry_loop (retries : nat) (q : request) : js jval :=
  Call q (fun o =>
    match o with
    | Resolved v => Ret v
    | Rejected e =>
        match retries with
        | O => Throw e
        | S n => if retryable e then retry_loop n q else Throw e
        end
    end).

Definition max_retries : nat := 5.

(** [get(url, opts)], [get.post(url, opts)], ... with the process-wide app
    mode flag passed explicitly. *)
Definition gh_got_retry (app_mode : bool) (m : method) (url : string) (opts : jval)
  : js jval :=
  retry_loop max_retries (mkReq m url (decorate app_mode opts)).

(** ** The environment's answers to one request repeated *)

Section Answers.
Context {E : Type} `{Responder request outcome E}.

Fixpoint answers (q : request) (e : E) (n : nat) : list outcome :=
  match n with
  | O => []
  | S n' => let '(r, e1) := respond q e in r :: answers q e1 n'
  end.

(** [e] answers [q] with [os], in order, and ends in [e']. *)
Fixpoint answers_then (q : request) (e : E) (os : list outcome) (e' : E) : Prop :=
  match os with
  | [] => e = e'
  | o :: rest => let '(r, e1) := respond q e in r = o /\ answers_then q e1 rest e'
  end.

Lemma answers_S q (e : E) n :
  answers q e (S n) = let '(r, e1) := respond q e in r :: answers q e1 n.
Proof. reflexivity. Qed.

Lemma run_retry_loop n q (e : E) :
  run (retry_loop n q) e =
    let '(o, e1) := respond q e in
    match o with
    | Resolved v => (Done v, e1, [q])
    | Rejected x =>
        match n with
        | O => (Threw x, e1, [q])
        | S n' =>
            if retryable x then
              let '(c, e2, t) := run (retry_loop n' q) e1 in (c, e2, q :: t)
            else (Threw x, e1, [q])
        end
    end.
Proof.
  destruct n; simpl; destruct (respond q e) as [[v|x] e1]; try reflexivity.
  destruct (retryable x); [|reflexivity].
  destruct (run (retry_loop n q) e1) as [[c e2] t]; reflexivity.
Qed.

(** A retryable prefix of answers is absorbed: the wrapper re-issues the
    identical request once per rejection and continues with fewer
    retries. *)
Lemma retry_loop_skip n q (e e' : E) errs :
  length errs <= n ->
  Forall (fun x => retryable x = true) errs ->
  answers_then q e (map Rejected errs) e' ->
  run (retry_loop n q) e =
    let '(c, e2, t) := run (retry_loop (n - length errs) q) e' in
    (c, e2, (repeat q (length errs) ++ t)%list).
Proof.
  revert n e. induction errs as [|x errs IH]; intros n e Hlen Hall Hans.
  - simpl in Hans |- *. subst e'. rewrite Nat.sub_0_r.
    destruct (run (retry_loop n q) e) as [[c e2] t]; reflexivity.
  - inversion Hall as [|? ? Hx Hall']; subst.
    simpl in Hans. destruct (respond q e) as [r e1] eqn:Hr.
    destruct Hans as [-> Hans].
    destruct n as [|n]; [simpl in Hlen; lia|].
    rewrite run_retry_loop, Hr, Hx, (IH n e1) by (simpl in Hlen; lia || auto).
    simpl. destruct (run (retry_loop (n - length errs) q) e') as [[c e2] t].
    reflexivity.
Qed.
End Answers.

(** ** Mock queues for one method *)

Lemma answers_then_get_queue url opts os rest :
  answers_then (mkReq GET url opts) (get_queue (os ++ rest)%list) os (get_queue rest).
Proof.
  induction os as [|o os IH]; simpl; [reflexivity|]. split; [reflexivity | exact IH].
Qed.

Definition err502 : outcome := Rejected (http_error 502 None).

(** ** Theorems *)

Section RetryTheorems.
Context {E : Type} `{Responder request outcome E}.

(** The behaviour of the retry loop on any environment.  For the
    answers [os] the environment gives to [q] repeated, there is an index
    [i <= n] such that the first [i] answers are retryable rejections, the
    wrapper issued [q] exactly [i + 1] times, and it settled with answer
    [i] unchanged: the response, or the rejection itself when that is not
    retryable or the retries are used up. *)
Lemma retry_loop_characterisation n q (e : E) :
  exists i, i <= n /\
    (forall j, j < i -> exists x,
        nth j (answers q e (S n)) (Resolved JUndef) = Rejected x /\ retryable x = true) /\
    trace_of (retry_loop n q) e = repeat q (S i) /\
    match nth i (answers q e (S n)) (Resolved JUndef) with
    | Resolved v => result_of (retry_loop n q) e = Done v
    | Rejected x => result_of (retry_loop n q) e = Threw x /\ (retryable x = false \/ i = n)
    end.
Proof.
  unfold result_of, trace_of. revert e. induction n as [|n IH]; intros e;
    rewrite run_retry_loop; rewrite answers_S; destruct (respond q e) as [[v|x] e1] eqn:Hr.
  - exists 0. repeat split; [lia | intros; lia].
  - exists 0. repeat split; [lia | intros; lia | right; reflexivity].
  - exists 0. repeat split; [lia | intros; lia].
  - destruct (retryable x) eqn:Hx.
    + destruct (IH e1) as (i & Hi & Hpre & Htr & Hres).
      destruct (run (retry_loop n q) e1) as [[c e2] t] eqn:Hrun; cbn [fst snd] in *.
      exists (S i). split; [lia|]. split; [|split].
      * intros [|j] Hj; [exists x; split; [reflexivity | exact Hx]|].
        apply Hpre. lia.
      * now rewrite Htr.
      * cbn [nth]. destruct (nth i (answers q e1 (S n)) (Resolved JUndef)); [exact Hres|].
        destruct Hres as [Hres [Hno|Heq]]; split; auto.
    + exists 0. repeat split; [lia | intros; lia | left; exact Hx].
Qed.

(** Transient failures are invisible: after [k <= 5] retryable
    rejections the wrapper returns the next response, having made
    [k + 1] identical requests. *)
Lemma retry_after_transient app m url opts (e e' e'' : E) errs v :
  length errs <= max_retries ->
  Forall (fun x => retryable x = true) errs ->
  answers_then (mkReq m url (decorate app opts)) e (map Rejected errs) e' ->
  respond (mkReq m url (decorate app opts)) e' = (Resolved v, e'') ->
  run (gh_got_retry app m url opts) e =
    (Done v, e'', repeat (mkReq m url (decorate app opts)) (S (length errs))).
Proof.
  intros Hlen Hall Hans Hr. unfold gh_got_retry.
  rewrite (retry_loop_skip _ _ e e' errs Hlen Hall Hans), run_retry_loop, Hr.
  cbv iota beta. now rewrite repeat_snoc.
Qed.

(** Retries are bounded: after six consecutive retryable rejections
    the wrapper throws the sixth one, as is, and makes no seventh
    request. *)
Lemma retry_gives_up app m url opts (e e' e'' : E) errs x :
  length errs = max_retries ->
  Forall (fun y => retryable y = true) errs ->
  answers_then (mkReq m url (decorate app opts)) e (map Rejected errs) e' ->
  respond (mkReq m url (decorate app opts)) e' = (Rejected x, e'') ->
  run (gh_got_retry app m url opts) e =
    (Threw x, e'', repeat (mkReq m url (decorate app opts)) (S max_retries)).
Proof.
  intros Hlen Hall Hans Hr. unfold gh_got_retry.
  rewrite (retry_loop_skip _ _ e e' errs (Nat.eq_le_incl _ _ Hlen) Hall Hans).
  rewrite Hlen, Nat.sub_diag, run_retry_loop, Hr.
  cbv iota beta. now rewrite repeat_snoc.
Qed.

(** A rejection that is not retryable (404, 422, a 403 with another
    message, an error without status) propagates immediately and
    unchanged, after one request. *)
Lemma retry_propagates_permanent app m url opts (e e1 : E) x :
  retryable x = false ->
  respond (mkReq m url (decorate app opts)) e = (Rejected x, e1) ->
  run (gh_got_retry app m url opts) e =
    (Threw x, e1, [mkReq m url (decorate app opts)]).
Proof.
  intros Hx Hr. unfold gh_got_retry. rewrite run_retry_loop, Hr.
  simpl. now rewrite Hx.
Qed.

(** The number of requests of one call is between 1 and [max_retries + 1],
    whatever the environment answers. *)
Corollary retry_calls_bounded app m url opts (e : E) :
  1 <= calls (gh_got_retry app m url opts) e <= S max_retries.
Proof.
  unfold calls, gh_got_retry.
  destruct (retry_loop_characterisation max_retries
              (mkReq m url (decorate app opts)) e) as (i & Hi & _ & Htr & _).
  rewrite Htr, repeat_length. lia.
Qed.
(** The retry loop stops: whatever the answers, [retries + 1] requests at
    most. *)
Lemma within_retry_loop n q : within (S n) (retry_loop n q).
Proof.
  induction n as [|n IH]; cbn [retry_loop]; constructor; intros [v|x]; try constructor.
  destruct (retryable x); [exact IH|constructor].
Qed.

Lemma within_gh_got_retry app m url opts : within (S max_retries) (gh_got_retry app m url opts).
Proof. apply within_retry_loop. Qed.

(** Every request of one call is the call's own request, so it has the
    call's method and URL. *)
Lemma retry_trace_requests app m url opts (e : E) :
  Forall (fun q => q = mkReq m url (decorate app opts)) (trace_of (gh_got_retry app m url opts) e).
Proof.
  unfold gh_got_retry.
  destruct (retry_loop_characterisation max_retries (mkReq m url (decorate app opts)) e)
    as (i & _ & _ & Htr & _).
  rewrite Htr. apply Forall_forall. intros q Hq. now apply repeat_spec in Hq.
Qed.
End RetryTheorems.

(** The [accept] header of an options object. *)
Definition accept_header (opts : jval) : option jval :=
  obj_get (own_props (prop_or_undef (own_props opts) "headers")) "accept".

Lemma decorate_accept ps hs a :
  obj_get ps "headers" = Some (JObj hs) ->
  obj_get hs "accept" = Some (JStr a) -> a <> "" ->
  accept_header (decorate true (JObj ps)) = Some (JStr (app_accept ++ ", " ++ a)).
Proof.
  intros Hh Ha Hne. unfold accept_header, decorate. cbn [own_props].
  unfold prop_or_undef. rewrite Hh. cbn [own_props]. rewrite Ha.
  assert (Ht : truthy (JStr a) = true)
    by (simpl; apply negb_true_iff, String.eqb_neq; exact Hne).
  rewrite Ht, obj_get_set_eq. cbn [own_props]. now rewrite obj_get_set_eq.
Qed.

Section AppMode.
Context {E : Type} `{Responder request outcome E}.

(** App mode on any environment and options with an [accept] header. *)
Lemma app_mode_decoration m url ps hs a (e : E) :
  obj_get ps "headers" = Some (JObj hs) ->
  obj_get hs "accept" = Some (JStr a) -> a <> "" ->
  Forall (fun r => accept_header (req_opts r) = Some (JStr (app_accept ++ ", " ++ a)))
         (trace_of (gh_got_retry true m url (JObj ps)) e) /\
  Forall (fun r => req_opts r = JObj ps) (trace_of (gh_got_retry false m url (JObj ps)) e).
Proof.
  intros Hh Ha Hne. unfold gh_got_retry.
  destruct (retry_loop_characterisation max_retries
              (mkReq m url (decorate true (JObj ps))) e) as (i & _ & _ & Htr1 & _).
  destruct (retry_loop_characterisation max_retries
              (mkReq m url (decorate false (JObj ps))) e) as (j & _ & _ & Htr2 & _).
  rewrite Htr1, Htr2. split; apply Forall_forall; intros r Hr;
    apply repeat_spec in Hr; subst r; simpl; [|reflexivity].
  now apply (decorate_accept ps hs a).
Qed.
End AppMode.

(** ** The scenarios of src/test/api/gh-got-retry.spec.js *)

Definition test_body : jval := JArr [JStr "a"; JStr "b"].

Definition rate_limit_403 : outcome :=
  Rejected (http_error 403 (Some "API rate limit exceeded for x.")).

Definition abuse_403 : outcome :=
  Rejected (http_error 403 (Some ("You have triggered an abuse detection mechanism. "
                                  ++ "Please wait a few minutes before you try again."))).

(** "should retry 502s" *)
Definition test_retry_502 : mocks :=
  get_queue [err502; Resolved (body_only test_body)].

(** "should retry 502s until success" *)
Definition test_retry_502_until_success : mocks :=
  get_queue [err502; err502; Resolved (body_only test_body)].

(** "should retry until failure" *)
Definition test_retry_until_failure : mocks :=
  get_queue [err502; rate_limit_403; abuse_403; Rejected (http_error 404 None)].

(** "should give up after 5 retries" *)
Definition test_give_up : mocks :=
  get_queue [err502; err502; Rejected (http_error 500 None); Rejected (http_error 500 None);
             err502; rate_limit_403].

(** "should retry posts" *)
Definition test_retry_posts : mocks :=
  post_queue [err502; Resolved (body_only test_body)].

(** "supports app mode": the options of the test. *)
Definition test_app_opts : jval :=
  JObj [("headers", JObj [("accept", JStr "some-accept")])].

(** The expectations of the tests that the specified wrapper meets. *)
Example retry_tests_pass :
  result_of (gh_got_retry false GET "some-url" JUndef) test_retry_502
    = Done (body_only test_body) /\
  result_of (gh_got_retry false GET "some-url" JUndef) test_retry_502_until_success
    = Done (body_only test_body) /\
  calls (gh_got_retry false GET "some-url" JUndef) test_retry_502_until_success = 3 /\
  status_of (match result_of (gh_got_retry false GET "some-url" JUndef)
                              test_retry_until_failure with
             | Threw x => x | Done _ => JUndef end) = Some 404%Z /\
  result_of (gh_got_retry false GET "some-url" JUndef) test_give_up =
    Threw (http_error 403 (Some "API rate limit exceeded for x.")) /\
  calls (gh_got_retry false GET "some-url" JUndef) test_give_up = 6 /\
  result_of (gh_got_retry false POST "some-url" JUndef) test_retry_posts
    = Done (body_only test_body).
Proof. vm_compute. repeat split; reflexivity. Qed.

(** ** Properties of the wrapper on the tests' mock queues *)

(** The failures the tests use as transient: [{statusCode: 502}],
    [{statusCode: 500}], and the two 403 messages of the rate limiter. *)
Definition transient_failures : list outcome :=
  [err502; Rejected (http_error 500 None); rate_limit_403; abuse_403].

Lemma transient_rejections os :
  Forall (fun o => In o transient_failures) os ->
  exists ys, os = map Rejected ys /\ Forall (fun y => retryable y = true) ys.
Proof.
  induction 1 as [|o os Ho _ (ys & -> & Hys)]; [exists []; split; constructor|].
  destruct Ho as [<-|[<-|[<-|[<-|[]]]]];
    eexists (_ :: ys); split; try reflexivity; constructor; auto.
Qed.

Section MockProperties.
Variables (url : string) (opts : jval).

(** C2: up to five consecutive 502 responses followed by a response: the
    wrapper returns that response, after [k + 1] identical requests, and
    leaves the rest of the mock queue untouched. *)
Theorem retry_502s_then_success k v rest :
  k <= max_retries ->
  run (gh_got_retry false GET url opts) (get_queue (repeat err502 k ++ Resolved v :: rest)%list) =
    (Done v, get_queue rest, repeat (mkReq GET url opts) (S k)).
Proof.
  intros Hk. unfold err502. rewrite <- map_repeat.
  rewrite (retry_after_transient false GET url opts _ (get_queue (Resolved v :: rest))
             (get_queue rest) (repeat (http_error 502 None) k) v);
    rewrite ?repeat_length; try reflexivity; try exact Hk.
  - apply Forall_forall. intros x Hx. apply repeat_spec in Hx. now subst.
  - apply answers_then_get_queue.
Qed.

(** C6: retries are bounded: five transient failures (502, 500 or a
    rate-limit 403, in any mix) followed by a sixth make the wrapper throw the sixth
    failure as is, after exactly six requests; no seventh request is made. *)
Theorem retry_six_transient_failures os x rest :
  length os = max_retries ->
  Forall (fun o => In o transient_failures) os ->
  In (Rejected x) transient_failures ->
  run (gh_got_retry false GET url opts) (get_queue (os ++ Rejected x :: rest)%list) =
    (Threw x, get_queue rest, repeat (mkReq GET url opts) 6).
Proof.
  intros Hlen Hos _. destruct (transient_rejections os Hos) as (ys & -> & Hys).
  rewrite length_map in Hlen.
  apply (retry_gives_up false GET url opts _ (get_queue (Rejected x :: rest))
           (get_queue rest) ys x Hlen Hys); [|reflexivity].
  apply answers_then_get_queue.
Qed.

(** C10: a failure that is not transient (any status but 502 and 500, or
    a 403 whose message mentions neither the rate limit nor abuse
    detection) propagates unchanged after a single request. *)
Theorem retry_permanent_error status msg rest :
  Z.eqb status 502 = false -> Z.eqb status 500 = false ->
  (status = 403%Z -> forall m, msg = Some m ->
     contains rate_limit_text m = false /\ contains abuse_text m = false) ->
  run (gh_got_retry false GET url opts)
      (get_queue (Rejected (http_error status msg) :: rest)) =
    (Threw (http_error status msg), get_queue rest, [mkReq GET url opts]).
Proof.
  intros H502 H500 H403.
  apply retry_propagates_permanent; [|reflexivity].
  unfold retryable, http_error, status_of, message_of. simpl.
  rewrite H502, H500. simpl. destruct (Z.eqb_spec status 403) as [->|]; [|reflexivity].
  destruct msg as [m|]; simpl; [|reflexivity].
  destruct (H403 eq_refl m eq_refl) as [-> ->]. reflexivity.
Qed.
End MockProperties.

Section AppModeTest.
Context {E : Type} `{Responder request outcome E}.

(** App mode, on the options of the test "supports app mode" and
    whatever the host answers: with app mode on, every request the
    wrapper issues has the accept header
    "application/vnd.github.machine-man-preview+json, some-accept"; with
    app mode off, every request carries the caller's options unchanged. *)
Theorem app_mode_test_accept (e : E) :
  Forall (fun r => accept_header (req_opts r) =
                   Some (JStr (app_accept ++ ", " ++ "some-accept")))
         (trace_of (gh_got_retry true GET "some-url" test_app_opts) e) /\
  Forall (fun r => req_opts r = test_app_opts)
         (trace_of (gh_got_retry false GET "some-url" test_app_opts) e).
Proof.
  apply (app_mode_decoration GET "some-url" _ [("accept", JStr "some-accept")]);
    [reflexivity | reflexivity | discriminate].
Qed.
End AppModeTest.

(** ** Witnesses *)

Lemma retry_502s_then_success_witness :
  run (gh_got_retry false GET "some-url" JUndef) test_retry_502_until_success =
    (Done (body_only test_body), get_queue [], repeat (mkReq GET "some-url" JUndef) 3).
Proof.
  apply (retry_502s_then_success "some-url" JUndef 2 (body_only test_body) []).
  unfold max_retries. lia.
Defined.

Lemma retry_six_transient_failures_witness :
  run (gh_got_retry false GET "u" JUndef)
      (get_queue [err502; err502; rate_limit_403; abuse_403; err502; err502; err502]) =
    (Threw (http_error 502 None), get_queue [err502], repeat (mkReq GET "u" JUndef) 6).
Proof.
  apply (retry_six_transient_failures "u" JUndef
           [err502; err502; rate_limit_403; abuse_403; err502] (http_error 502 None) [err502]).
  - reflexivity.
  - repeat constructor; simpl; tauto.
  - simpl; tauto.
Defined.

Lemma retry_permanent_error_witness :
  run (gh_got_retry false GET "some-url" JUndef)
      (get_queue [Rejected (http_error 403 (Some "Not allowed"))]) =
    (Threw (http_error 403 (Some "Not allowed")), get_queue [], [mkReq GET "some-url" JUndef]).
Proof.
  apply (retry_permanent_error "some-url" JUndef 403 (Some "Not allowed") []).
  - reflexivity.
  - reflexivity.
  - intros _ m Hm. injection Hm as <-. split; reflexivity.
Defined.
