(* ===== verification/Config.v ===== *)
(** * The configuration cascade: src/app/config/parser.js

    The module's state is the winston logger's level, the module-level
    [config] (null until [getGlobalConfig] runs) and the two objects
    [require] returns, cached across calls: the default configuration
    ([./defaults]) and the custom configuration ([../../config], absent
    when [require] throws).  Its other inputs are the environment variables
    [LOG_LEVEL] and [RENOVATE_TOKEN] and [process.argv].

    [Object.assign] copies references, so [config.repositories] is the
    array of the layer that provided it; the writes of the three passes
    ([share_repositories]) therefore land in the cached module that
    provided the list, which [global_config_shares_repositories] of
    ConfigTheorems shows.  This file holds the model and the step lemmas
    ([ParserFacts]); the theorems and the scenarios are in ConfigTheorems
    and ConfigScenarios.

    [getGlobalConfig] is modelled step by step as the source writes it:
    the command-line layer [cli_config], the merge by [Object.assign], the
    two fatal checks ([process.exit(1)] is the [Exit] outcome), and the three
    [forEach] passes over the repository list, each of which may throw a
    [TypeError] part-way, leaving the entries before the failing one
    updated.  [getCascadedConfig] merges the stored config with one
    repository and one package file.

    Not modelled: the log output itself (only the level is state), the
    [JSON.stringify] of the verbose log line, a repository entry that is
    itself an array (JavaScript would hang a named [packageFiles] property on
    the array; arrays of the model have no named properties), and objects
    shared between two layers or twice in one list (the model keeps one
    copy of each entry). *)

From Stdlib Require Import String Ascii List ZArith Lia Bool.
From S2P Require Import Prelude Js.
Import ListNotations.
Local Open Scope list_scope.
Local Open Scope string_scope.

Module Parser.

(** [process.env] and [process.argv] *)
Record environment : Type := mkEnv {
  LOG_LEVEL : option string;
  RENOVATE_TOKEN : option string
}.

(** The module's state: the logger level, the module-level [config], and
    the objects [require] returns for [./defaults] and [../../config]
    ([None] when that [require] throws).  [require] caches a module, so
    every call of [getGlobalConfig] gets the same two objects, and a write
    into them persists from one call to the next. *)
Record state : Type := mkState {
  logger_level : jval;
  config : jval;
  defaults_module : obj;
  custom_module : option jval
}.

(** The outcome of [getGlobalConfig]: the returned config, a fatal exit
    with the logged message, or an exception. *)
Inductive outcome : Type :=
| Ok (cfg : jval)
| Exit (code : Z) (message : string)
| Raise (e : jval).

(** [process.env.X] is a string or [undefined]. *)
Definition env_val (v : option string) : jval :=
  match v with Some s => JStr s | None => JUndef end.

Definition argv_val (argv : list string) (i : nat) : jval :=
  match nth_error argv i with Some s => JStr s | None => JUndef end.

(** [a || b] *)
Definition js_or (a b : jval) : jval := if truthy a then a else b.

(** The native logger object [new (winston.Logger)(...)] that getGlobalConfig
    stores in the config. *)
Definition logger_ref : jval := JRef "winston.Logger".

(** Module load: [logger.level = process.env.LOG_LEVEL || 'info'] and
    [let config = null], with the two configuration modules as they are
    on disk. *)
Definition load (defaults : obj) (custom : option jval) (env : environment) : state :=
  mkState (js_or (env_val (LOG_LEVEL env)) (JStr "info")) JNull defaults custom.

(** [config = ...]: the module-level variable. *)
Definition set_config (st : state) (c : jval) : state :=
  mkState (logger_level st) c (defaults_module st) (custom_module st).

(** [cliConfig] *)
Definition cli_config (env : environment) (argv : list string) : obj :=
  let c := [] in
  let c := if truthy (env_val (LOG_LEVEL env))
           then obj_set c "logLevel" (env_val (LOG_LEVEL env)) else c in
  let c := if truthy (env_val (RENOVATE_TOKEN env))
           then obj_set c "token" (env_val (RENOVATE_TOKEN env)) else c in
  if truthy (argv_val argv 2)
  then obj_set c "repositories"
         (JArr [JObj [("repository", argv_val argv 2);
                      ("packageFiles",
                        JArr [js_or (argv_val argv 3) (JStr "package.json")])]])
  else c.

(** [customConfig]: the required module, or [{}] when [require] throws. *)
Definition custom_layer (custom : option jval) : jval :=
  match custom with Some c => c | None => JObj [] end.

(** [v.k = x] in sloppy mode: a write to a primitive is silently
    dropped. *)
Definition set_prop (v : jval) (k : string) (x : jval) : jval :=
  match v with JObj ps => JObj (obj_set ps k x) | _ => v end.

(** One [forEach] pass whose body may throw: the elements before the
    failing one are updated, the others are left as they were. *)
Fixpoint pass (f : jval -> jval + jval) (xs : list jval) : list jval * option jval :=
  match xs with
  | [] => ([], None)
  | x :: rest =>
      match f x with
      | inl y => let '(ys, err) := pass f rest in (y :: ys, err)
      | inr e => (x :: rest, Some e)
      end
  end.

(** First pass: a bare repository name becomes [{ repository: name }]. *)
Definition repo_of_string (repo : jval) : jval :=
  match repo with JStr s => JObj [("repository", JStr s)] | _ => repo end.

(** Second pass: [packageFiles] defaults to [['package.json']] when it is
    falsy or has a falsy length. *)
Definition package_files_missing (pf : jval) : bool :=
  negb (truthy pf) ||
  match get_prop pf "length" with inl len => negb (truthy len) | inr _ => false end.

Definition default_package_files (repo : jval) : jval + jval :=
  match get_prop repo "packageFiles" with
  | inr e => inr e
  | inl pf =>
      inl (if package_files_missing pf
           then set_prop repo "packageFiles" (JArr [JStr "package.json"])
           else repo)
  end.

(** Third pass: each bare package-file name becomes [{ fileName: name }];
    [packageFiles.map] throws unless [packageFiles] is an array. *)
Definition package_file_of_string (pf : jval) : jval :=
  match pf with JStr s => JObj [("fileName", JStr s)] | _ => pf end.

Definition expand_package_files (repo : jval) : jval + jval :=
  match get_prop repo "packageFiles" with
  | inr e => inr e
  | inl (JArr pfs) => inl (set_prop repo "packageFiles" (JArr (map package_file_of_string pfs)))
  | inl pf =>
      match get_prop pf "map" with
      | inr e => inr e
      | inl _ => inr (type_error "repo.packageFiles.map is not a function")
      end
  end.

(** [Object.assign] copies references: [config.repositories] is the very
    array of the last layer that has the key, so the passes' writes
    [config.repositories[index] = ...] and
    [config.repositories[index].packageFiles = ...] land in that layer.
    The command-line layer is built afresh by every call; a layer that is
    a required module keeps the writes. *)
Definition has_repositories (ps : obj) : bool :=
  match obj_get ps "repositories" with Some _ => true | None => false end.

Definition share_repositories (cli : obj) (xs : list jval) (st : state) : state :=
  let write ps := obj_set ps "repositories" (JArr xs) in
  let custom := match custom_module st with Some (JObj ps) => ps | _ => [] end in
  if has_repositories cli then st
  else if has_repositories custom
  then mkState (logger_level st) (config st) (defaults_module st) (Some (JObj (write custom)))
  else if has_repositories (defaults_module st)
  then mkState (logger_level st) (config st) (write (defaults_module st)) (custom_module st)
  else st.

Definition token_message : string := "Error: A GitHub token must be configured".
Definition repositories_message : string :=
  "Error: At least one repository must be configured".

(** [!config.repositories || config.repositories.length === 0] *)
Definition no_repositories (repos : jval) : bool :=
  negb (truthy repos) ||
  match get_prop repos "length" with inl len => strict_eq len (JNum 0) | inr _ => false end.

(** [Object.assign({}, defaultConfig, customConfig, cliConfig)] *)
Definition merged (defaults : obj) (custom : option jval) (cli : obj) : obj :=
  assign [] [JObj defaults; custom_layer custom; JObj cli].

Definition getGlobalConfig (env : environment) (argv : list string) (st : state) : outcome * state :=
  let defaults := defaults_module st in
  let cli := cli_config env argv in
  let cfg := merged defaults (custom_module st) cli in
  let st := mkState (prop_or_undef cfg "logLevel") (JObj cfg) defaults (custom_module st) in
  if String.eqb (typeof (prop_or_undef cfg "token")) "undefined"
  then (Exit 1 token_message, st)
  else
  let repos := prop_or_undef cfg "repositories" in
  if no_repositories repos then (Exit 1 repositories_message, st)
  else
  match repos with
  | JArr xs =>
      let xs1 := map repo_of_string xs in
      let '(xs2, err2) := pass default_package_files xs1 in
      match err2 with
      | Some e => (Raise e, share_repositories cli xs2 (set_config st (JObj (obj_set cfg "repositories" (JArr xs2)))))
      | None =>
        let '(xs3, err3) := pass expand_package_files xs2 in
        match err3 with
        | Some e => (Raise e, share_repositories cli xs3 (set_config st (JObj (obj_set cfg "repositories" (JArr xs3)))))
        | None =>
          let cfg := obj_set cfg "repositories" (JArr xs3) in
          let cfg := obj_set cfg "logger" logger_ref in
          let cfg := obj_set cfg "defaultTemplates" (prop_or_undef defaults "templates") in
          (Ok (JObj cfg), share_repositories cli xs3 (set_config st (JObj cfg)))
        end
      end
  | _ => (Raise (type_error "config.repositories.forEach is not a function"), st)
  end.

Definition getCascadedConfig (repo packageFile : jval) (st : state) : jval + jval :=
  let cascaded := assign [] [config st; repo; packageFile] in
  match get_prop (config st) "defaultTemplates" with
  | inr e => inr e
  | inl defaultTemplates =>
      let templates := assign [] [defaultTemplates; prop_or_undef cascaded "templates"] in
      let cascaded := obj_set cascaded "templates" (JObj templates) in
      inl (JObj (obj_del (obj_del (obj_del cascaded "repositories") "repository") "fileName"))
  end.

End Parser.

(** ** Lemmas *)

Module ParserFacts.
Import Parser.

Lemma pass_ok f xs ys :
  pass f xs = (ys, None) -> Forall2 (fun x y => f x = inl y) xs ys.
Proof.
  revert ys; induction xs as [|x xs IH]; simpl; intros ys H.
  - injection H as <-. constructor.
  - destruct (f x) as [y|e] eqn:Hf; [|discriminate].
    destruct (pass f xs) as [ys' [e|]] eqn:Hp; [discriminate|].
    injection H as <-. constructor; auto.
Qed.

Lemma pass_all_ok f xs ys :
  Forall2 (fun x y => f x = inl y) xs ys -> pass f xs = (ys, None).
Proof. induction 1 as [|x y xs ys Hf _ IH]; simpl; [reflexivity|]. now rewrite Hf, IH. Qed.

(** Writing the repository list back into its layer changes neither the
    logger level nor [config]. *)
Lemma share_logger_level cli xs st : logger_level (share_repositories cli xs st) = logger_level st.
Proof. unfold share_repositories. cbv zeta. now repeat match goal with |- context [if ?b then _ else _] => destruct b end. Qed.

Lemma share_config cli xs st : config (share_repositories cli xs st) = config st.
Proof. unfold share_repositories. cbv zeta. now repeat match goal with |- context [if ?b then _ else _] => destruct b end. Qed.

(** The successful path of [getGlobalConfig], step by step. *)
Lemma getGlobalConfig_Ok env argv st c st' :
  getGlobalConfig env argv st = (Ok c, st') ->
  let cli := cli_config env argv in
  let m := merged (defaults_module st) (custom_module st) cli in
  exists xs xs2 xs3,
    prop_or_undef m "repositories" = JArr xs /\
    typeof (prop_or_undef m "token") <> "undefined" /\
    no_repositories (JArr xs) = false /\
    pass default_package_files (map repo_of_string xs) = (xs2, None) /\
    pass expand_package_files xs2 = (xs3, None) /\
    c = JObj (obj_set (obj_set (obj_set m "repositories" (JArr xs3)) "logger" logger_ref)
                "defaultTemplates" (prop_or_undef (defaults_module st) "templates")) /\
    st' = share_repositories cli xs3
            (mkState (prop_or_undef m "logLevel") c (defaults_module st) (custom_module st)).
Proof.
  unfold getGlobalConfig. cbv zeta.
  set (m := merged (defaults_module st) (custom_module st) (cli_config env argv)). intros H.
  destruct (String.eqb_spec (typeof (prop_or_undef m "token")) "undefined") as [|Htok];
    [discriminate|].
  destruct (no_repositories (prop_or_undef m "repositories")) eqn:Hno; [discriminate|].
  destruct (prop_or_undef m "repositories") as [| | | | |xs| |] eqn:Hrepos; try discriminate.
  destruct (pass default_package_files (map repo_of_string xs)) as [xs2 [e|]] eqn:H2;
    [discriminate|].
  destruct (pass expand_package_files xs2) as [xs3 [e|]] eqn:H3; [discriminate|].
  injection H as <- <-. exists xs, xs2, xs3. repeat split; auto.
Qed.

(** A normalised repository entry: an object whose [packageFiles] is a
    non-empty array without bare strings. *)
Definition wf_repo (r : jval) : Prop :=
  exists ps pfs, r = JObj ps /\ obj_get ps "packageFiles" = Some (JArr pfs) /\
    pfs <> [] /\ Forall (fun p => typeof p <> "string") pfs.

Lemma expand_wf ps pfs :
  pfs <> [] ->
  wf_repo (set_prop (JObj ps) "packageFiles" (JArr (map package_file_of_string pfs))).
Proof.
  intros Hne. eexists _, _. split; [reflexivity|]. rewrite obj_get_set_eq.
  split; [reflexivity|]. split.
  - now destruct pfs.
  - apply Forall_map, Forall_forall. intros [] _; discriminate.
Qed.

(** The second and third passes turn an object into a normalised entry. *)
Lemma normalised_obj ps y z :
  default_package_files (JObj ps) = inl y -> expand_package_files y = inl z -> wf_repo z.
Proof.
  unfold default_package_files. cbn [get_prop]. intros Hd He. injection Hd as <-.
  destruct (package_files_missing (prop_or_undef ps "packageFiles")) eqn:Hm.
  - unfold expand_package_files in He. cbn [set_prop get_prop] in He.
    unfold prop_or_undef at 1 in He. rewrite obj_get_set_eq in He.
    injection He as <-. cbn [set_prop]. rewrite obj_set_set.
    apply (expand_wf ps [JStr "package.json"]). discriminate.
  - unfold expand_package_files in He. cbn [get_prop] in He.
    destruct (prop_or_undef ps "packageFiles") as [| | | | |pfs| |]; try discriminate.
    injection He as <-. apply expand_wf. now destruct pfs.
Qed.

(** A read on an array for a key that is not a number. *)
Lemma indexed_get_p {A} (f : A -> jval) n xs s :
  obj_get (indexed f n xs) (String "p"%char s) = None.
Proof.
  revert n. induction xs as [|x xs IH]; intros n; simpl; [reflexivity|].
  unfold string_of_nat. destruct (Nat.to_uint n); simpl; apply IH.
Qed.

(** Every entry the three passes accept becomes a normalised entry:
    names and objects do; numbers, booleans and arrays are rejected by
    the third pass. *)
Lemma normalised_entry x y z :
  default_package_files (repo_of_string x) = inl y -> expand_package_files y = inl z ->
  wf_repo z.
Proof.
  destruct x as [| | b | n | s | xs | ps | t]; cbn [repo_of_string];
    try apply normalised_obj; unfold default_package_files; intros Hd He;
    cbn [get_prop] in Hd; try discriminate.
  all: injection Hd as <-.
  all: cbn in He; try discriminate.
  unfold prop_or_undef in He. rewrite indexed_get_p in He.
  destruct (package_files_missing JUndef); cbn in He; unfold prop_or_undef in He;
    rewrite indexed_get_p in He; discriminate.
Qed.

Lemma pass_map f g xs :
  Forall (fun x => f x = inl (g x)) xs -> pass f xs = (map g xs, None).
Proof. induction 1 as [|x xs Hx _ IH]; simpl; [reflexivity|]. now rewrite Hx, IH. Qed.

Lemma cli_config_wf env argv : wf_obj (cli_config env argv).
Proof.
  unfold cli_config.
  repeat match goal with |- context [if ?b then _ else _] => destruct b end;
    repeat apply obj_set_wf; constructor.
Qed.

Lemma cli_config_token env argv t :
  RENOVATE_TOKEN env = Some t -> t <> "" ->
  obj_get (cli_config env argv) "token" = Some (JStr t).
Proof.
  intros Ht Hne. unfold cli_config. rewrite Ht. cbn [env_val].
  assert (Htr : truthy (JStr t) = true) by (simpl; now apply negb_true_iff, String.eqb_neq).
  rewrite Htr. destruct (truthy (argv_val argv 2)); [rewrite obj_get_set_ne by discriminate|];
    apply obj_get_set_eq.
Qed.

Lemma cli_config_repositories env argv r :
  nth_error argv 2 = Some r -> r <> "" ->
  obj_get (cli_config env argv) "repositories" =
    Some (JArr [JObj [("repository", JStr r);
                      ("packageFiles", JArr [js_or (argv_val argv 3) (JStr "package.json")])]]).
Proof.
  intros Hr Hne. unfold cli_config. unfold argv_val at 1 2. rewrite Hr.
  cbv beta iota.
  assert (Htr : truthy (JStr r) = true) by (simpl; now apply negb_true_iff, String.eqb_neq).
  rewrite Htr. apply obj_get_set_eq.
Qed.

(** The last layer that is a well-formed object and has the key wins. *)
Lemma layered_get_last a b o k v :
  wf_obj o -> obj_get o k = Some v -> layered_get [a; b; JObj o] k = Some v.
Proof. intros Hwf Hk. simpl. now rewrite obj_get_rev_wf, Hk. Qed.

Lemma normalised_entries xs ys zs :
  Forall2 (fun x y => default_package_files x = inl y) (map repo_of_string xs) ys ->
  Forall2 (fun y z => expand_package_files y = inl z) ys zs ->
  Forall wf_repo zs /\ length zs = length xs.
Proof.
  revert ys zs. induction xs as [|x xs IH]; intros ys zs H1 H2.
  - inversion H1; subst. inversion H2; subst. split; constructor.
  - inversion H1 as [|? y ? ys' Hy H1']; subst. inversion H2 as [|? z ? zs' Hz H2']; subst.
    destruct (IH ys' zs' H1' H2') as [Hall Hlen].
    split; [constructor; [eapply normalised_entry; eauto | exact Hall] | simpl; lia].
Qed.
End ParserFacts.
