(* ===== verification/ConfigTheorems.v ===== *)
(** * Theorems of the configuration cascade (src/app/config/parser.js)

    [ParserTheorems] states what [getGlobalConfig] and [getCascadedConfig]
    of [Config] do: the invariant of the returned config (normalised
    repositories), layering key by key, the fatal exits, bare names and
    command-line repositories, the list written back into the custom
    configuration module, the token and package-file checks as the code
    writes them, and the template fallback and stripped keys of the
    cascade.  The proofs go through
    the step lemmas of [Config.ParserFacts]. *)

From Stdlib Require Import String Ascii List ZArith Lia Bool.
From S2P Require Import Prelude Js Config.
Import ListNotations.
Local Open Scope list_scope.
Local Open Scope string_scope.

(** An element of the left list of [Forall2] has a partner on the right. *)
Lemma Forall2_in_l {A B} (R : A -> B -> Prop) xs ys x :
  Forall2 R xs ys -> In x xs -> exists y, In y ys /\ R x y.
Proof.
  induction 1 as [|a b xs ys Hab _ IH]; [intros []|].
  intros [->|Hin]; [exists b; split; [left|]; auto|].
  destruct (IH Hin) as (y & Hy & Hr). exists y. split; [right|]; auto.
Qed.

Module ParserTheorems.
Import Parser ParserFacts.

Section Global.
Variables (env : environment) (argv : list string) (st : state).
Local Abbreviation defaults := (defaults_module st).
Local Abbreviation custom := (custom_module st).

Let layers := [JObj defaults; custom_layer custom; JObj (cli_config env argv)].

(** C5: the layers override key by key in the order default, custom,
    command line: every key of the returned config other than the three
    the function rewrites is the value of the last layer that has it. *)
Theorem global_config_layers c st' k :
  getGlobalConfig env argv st = (Ok (JObj c), st') ->
  k <> "repositories" -> k <> "logger" -> k <> "defaultTemplates" ->
  obj_get c k = layered_get layers k /\ config st' = JObj c.
Proof.
  intros H Hr Hl Hd.
  destruct (getGlobalConfig_Ok _ _ _ _ _ H) as (xs & xs2 & xs3 & _ & _ & _ & _ & _ & Hc & Hst).
  injection Hc as ->. split; [|now rewrite Hst, share_config].
  rewrite !obj_get_set_ne by congruence.
  unfold merged, layers. rewrite obj_get_assign.
  now destruct (layered_get _ k).
Qed.

Lemma prop_merged k :
  prop_or_undef (merged defaults custom (cli_config env argv)) k =
    match layered_get layers k with Some v => v | None => JUndef end.
Proof.
  unfold prop_or_undef, merged, layers. rewrite obj_get_assign.
  now destruct (layered_get _ k).
Qed.

(** C15: without a token (no layer sets [token], or sets it to
    [undefined]) the process exits with status 1 and the token
    message. *)
Theorem global_config_requires_token :
  (forall v, layered_get layers "token" = Some v -> v = JUndef) ->
  fst (getGlobalConfig env argv st) = Exit 1 token_message.
Proof.
  intros Htok. unfold getGlobalConfig. cbv zeta. rewrite prop_merged.
  destruct (layered_get layers "token") as [v|] eqn:E; [rewrite (Htok v eq_refl)|];
    reflexivity.
Qed.

(** C16: with a token but with the repository list absent, [null] or
    empty, the process exits with status 1 and the repository
    message. *)
Theorem global_config_requires_repositories :
  typeof (prop_or_undef (merged defaults custom (cli_config env argv)) "token") <> "undefined" ->
  (let r := prop_or_undef (merged defaults custom (cli_config env argv)) "repositories" in
   r = JUndef \/ r = JNull \/ r = JArr []) ->
  fst (getGlobalConfig env argv st) = Exit 1 repositories_message.
Proof.
  intros Htok Hr. unfold getGlobalConfig. cbv zeta.
  destruct (String.eqb_spec (typeof (prop_or_undef (merged defaults custom (cli_config env argv)) "token"))
              "undefined") as [|_]; [contradiction|].
  simpl in Hr. destruct Hr as [Hr | [Hr | Hr]]; rewrite Hr; reflexivity.
Qed.
(** C1: whenever [getGlobalConfig] returns, the config is a well-formed
    object whose repository list is a non-empty array of normalised
    entries: objects whose [packageFiles] is a non-empty array without
    bare strings. *)
Theorem global_config_repositories_normalised c st' :
  getGlobalConfig env argv st = (Ok (JObj c), st') ->
  wf_obj c /\
  exists rs, obj_get c "repositories" = Some (JArr rs) /\ rs <> [] /\ Forall wf_repo rs.
Proof.
  intros H.
  destruct (getGlobalConfig_Ok _ _ _ _ _ H)
    as (xs & xs2 & xs3 & _ & _ & Hno & H2 & H3 & Hc & _).
  injection Hc as ->.
  destruct (normalised_entries xs xs2 xs3 (pass_ok _ _ _ H2) (pass_ok _ _ _ H3))
    as [Hall Hlen].
  split.
  - repeat apply obj_set_wf. apply assign_wf. constructor.
  - exists xs3. rewrite !obj_get_set_ne, obj_get_set_eq by discriminate.
    split; [reflexivity|]. split; [|exact Hall].
    intros Heq. subst xs3. destruct xs; [discriminate Hno | discriminate Hlen].
Qed.

(** C21: bare repository names are normalised to
    [{ repository: name, packageFiles: [{ fileName: 'package.json' }] }]
    (the package file becomes a descriptor object, not the string
    ['package.json']). *)
Theorem global_config_bare_names names :
  layered_get layers "repositories" = Some (JArr (map JStr names)) -> names <> [] ->
  typeof (prop_or_undef (merged defaults custom (cli_config env argv)) "token") <> "undefined" ->
  exists c st', getGlobalConfig env argv st = (Ok (JObj c), st') /\
    obj_get c "repositories" =
      Some (JArr (map (fun n => JObj [("repository", JStr n);
                                      ("packageFiles",
                                        JArr [JObj [("fileName", JStr "package.json")]])])
                      names)).
Proof.
  intros Hr Hne Htok. unfold getGlobalConfig. cbv zeta.
  destruct (String.eqb_spec (typeof (prop_or_undef (merged defaults custom (cli_config env argv)) "token"))
              "undefined") as [|_]; [contradiction|].
  rewrite prop_merged. fold layers. rewrite Hr.
  destruct names as [|n names]; [congruence|]. cbv beta iota zeta.
  cbn [no_repositories get_prop String.eqb truthy strict_eq negb orb].
  rewrite map_map.
  rewrite (pass_map _ (fun x => set_prop x "packageFiles" (JArr [JStr "package.json"])))
    by (apply Forall_forall; intros x Hx; apply in_map_iff in Hx as (m & <- & _);
        reflexivity).
  rewrite (pass_map _ (fun y => set_prop y "packageFiles"
                                (JArr [JObj [("fileName", JStr "package.json")]])))
    by (apply Forall_forall; intros y Hy; apply in_map_iff in Hy as (x & <- & Hx);
        apply in_map_iff in Hx as (m & <- & _); reflexivity).
  eexists _, _. split; [reflexivity|].
  rewrite !obj_get_set_ne, obj_get_set_eq by discriminate.
  rewrite !map_map. reflexivity.
Qed.

(** C22: a repository named on the command line replaces the configured
    list: with a token from [RENOVATE_TOKEN] and [argv[2]] set, the
    config holds exactly that repository, with the package file
    [argv[3]] (or 'package.json') as its only descriptor, and the
    command-line token. *)
Theorem global_config_cli_repository token r :
  RENOVATE_TOKEN env = Some token -> token <> "" ->
  nth_error argv 2 = Some r -> r <> "" ->
  exists c st', getGlobalConfig env argv st = (Ok (JObj c), st') /\
    obj_get c "token" = Some (JStr token) /\
    obj_get c "repositories" =
      Some (JArr [JObj [("repository", JStr r);
                        ("packageFiles",
                          JArr [JObj [("fileName",
                                       js_or (argv_val argv 3) (JStr "package.json"))]])]]).
Proof.
  intros Ht Htne Hr Hrne.
  assert (Htok : prop_or_undef (merged defaults custom (cli_config env argv)) "token" = JStr token).
  { rewrite prop_merged. unfold layers.
    now rewrite (layered_get_last _ _ _ _ _ (cli_config_wf env argv)
                   (cli_config_token env argv token Ht Htne)). }
  assert (Hrep : prop_or_undef (merged defaults custom (cli_config env argv)) "repositories" =
    JArr [JObj [("repository", JStr r);
                ("packageFiles", JArr [js_or (argv_val argv 3) (JStr "package.json")])]]).
  { rewrite prop_merged. unfold layers.
    now rewrite (layered_get_last _ _ _ _ _ (cli_config_wf env argv)
                   (cli_config_repositories env argv r Hr Hrne)). }
  assert (Hpf : package_file_of_string (js_or (argv_val argv 3) (JStr "package.json")) =
                JObj [("fileName", js_or (argv_val argv 3) (JStr "package.json"))]).
  { unfold argv_val, js_or. destruct (nth_error argv 3); [destruct (truthy _)|]; reflexivity. }
  unfold getGlobalConfig. cbv zeta.
  rewrite Htok, Hrep. cbn -[obj_set package_file_of_string js_or argv_val].
  rewrite Hpf. eexists _, _. split; [reflexivity|].
  rewrite !obj_get_set_ne, obj_get_set_eq by discriminate.
  split; [|reflexivity]. unfold merged, layers in Htok. unfold prop_or_undef in Htok.
  destruct (obj_get _ "token"); [now subst | discriminate].
Qed.
(** C14: the repository list is shared with the module it came from.
    [Object.assign] copies the reference to the custom configuration's
    [repositories] array, and the three passes write into that array and
    its entries: after [getGlobalConfig] returns, the object
    [require('../../config')] returns (the same object for every later
    [require]) holds the normalised list the returned config holds, and the
    defaults module is untouched.  This needs the custom module to provide
    the list and no repository on the command line. *)
Theorem global_config_shares_repositories c st' ps :
  getGlobalConfig env argv st = (Ok (JObj c), st') ->
  custom = Some (JObj ps) -> has_repositories ps = true ->
  has_repositories (cli_config env argv) = false ->
  custom_module st' = Some (JObj (obj_set ps "repositories" (prop_or_undef c "repositories"))) /\
  defaults_module st' = defaults /\ config st' = JObj c.
Proof.
  intros H Hc Hps Hcli.
  destruct (getGlobalConfig_Ok _ _ _ _ _ H) as (xs & xs2 & xs3 & _ & _ & _ & _ & _ & Hc' & Hst).
  injection Hc' as ->. subst st'. unfold share_repositories. cbv zeta.
  cbn [custom_module defaults_module config logger_level]. rewrite Hcli, Hc. cbv iota.
  rewrite Hps. cbn [custom_module defaults_module config].
  unfold prop_or_undef. rewrite !obj_get_set_ne, obj_get_set_eq by discriminate.
  repeat split.
Qed.
(** The token exit happens only when [typeof config.token] is
    ["undefined"]. *)
Lemma getGlobalConfig_token_exit :
  fst (getGlobalConfig env argv st) = Exit 1 token_message ->
  typeof (prop_or_undef (merged defaults custom (cli_config env argv)) "token") = "undefined".
Proof.
  unfold getGlobalConfig. cbv zeta.
  destruct (String.eqb_spec (typeof (prop_or_undef (merged defaults custom (cli_config env argv)) "token"))
              "undefined") as [|_]; [auto|].
  destruct (no_repositories _); [discriminate|].
  destruct (prop_or_undef _ "repositories") as [| | | | |xs| |]; try discriminate.
  destruct (pass default_package_files (map repo_of_string xs)) as [xs2 [e|]]; [discriminate|].
  destruct (pass expand_package_files xs2) as [xs3 [e|]]; discriminate.
Qed.

(** C30: the token check is [typeof config.token === 'undefined'], not a
    test that a token is present: a token the layers set to [null] passes
    it (the process does not exit with the token message), and whenever
    [getGlobalConfig] returns, the config's token is [null]. *)
Theorem null_token_accepted :
  layered_get layers "token" = Some JNull ->
  fst (getGlobalConfig env argv st) <> Exit 1 token_message /\
  forall c st', getGlobalConfig env argv st = (Ok (JObj c), st') -> obj_get c "token" = Some JNull.
Proof.
  intros Hnull. split.
  - intros Hexit. apply getGlobalConfig_token_exit in Hexit.
    rewrite prop_merged, Hnull in Hexit. discriminate.
  - intros c st' H.
    destruct (getGlobalConfig_Ok _ _ _ _ _ H) as (xs & xs2 & xs3 & _ & _ & _ & _ & _ & Hc & _).
    injection Hc as ->. rewrite !obj_get_set_ne by discriminate.
    unfold merged. rewrite obj_get_assign. unfold layers in Hnull. now rewrite Hnull.
Qed.

(** A package-file list given as a non-empty string survives the second
    pass and makes the third throw. *)
Lemma string_package_files_rejected ps s y :
  prop_or_undef ps "packageFiles" = JStr s -> s <> "" ->
  default_package_files (JObj ps) = inl y -> exists e, expand_package_files y = inr e.
Proof.
  intros Hpf Hs Hd. destruct s as [|a s']; [congruence|].
  unfold default_package_files in Hd. cbn [get_prop] in Hd. rewrite Hpf in Hd.
  cbn in Hd. injection Hd as <-.
  unfold expand_package_files. cbn [get_prop]. rewrite Hpf. cbn. eauto.
Qed.

(** C31: a repository whose [packageFiles] is a single name instead of a
    list passes the emptiness check (a string has a length) and makes the
    third pass throw, since strings have no [map]: with a token and any
    repository list holding such an entry, [getGlobalConfig] raises an
    error instead of returning a config or exiting. *)
Theorem string_package_files_throw xs :
  typeof (prop_or_undef (merged defaults custom (cli_config env argv)) "token") <> "undefined" ->
  prop_or_undef (merged defaults custom (cli_config env argv)) "repositories" = JArr xs ->
  Exists (fun x => exists ps s, x = JObj ps /\ prop_or_undef ps "packageFiles" = JStr s /\ s <> "")
         xs ->
  exists e, fst (getGlobalConfig env argv st) = Raise e.
Proof.
  intros Htok Hrep Hex.
  assert (Hno : no_repositories (JArr xs) = false) by (destruct xs; [inversion Hex | reflexivity]).
  unfold getGlobalConfig. cbv zeta.
  destruct (String.eqb_spec (typeof (prop_or_undef (merged defaults custom (cli_config env argv)) "token"))
              "undefined") as [|_]; [contradiction|].
  rewrite Hrep, Hno.
  destruct (pass default_package_files (map repo_of_string xs)) as [xs2 [e2|]] eqn:H2;
    [now exists e2|].
  destruct (pass expand_package_files xs2) as [xs3 [e3|]] eqn:H3; [now exists e3|exfalso].
  apply Exists_exists in Hex as (x & Hin & ps & s & -> & Hpf & Hs).
  destruct (Forall2_in_l _ _ _ (JObj ps) (pass_ok _ _ _ H2) (in_map repo_of_string _ _ Hin))
    as (y & Hy & Hd).
  destruct (Forall2_in_l _ _ _ y (pass_ok _ _ _ H3) Hy) as (z & _ & He).
  destruct (string_package_files_rejected ps s y Hpf Hs Hd) as [e He']. congruence.
Qed.
End Global.

Section Cascade.
Variables (repo packageFile : jval).

Lemma getCascadedConfig_obj st c :
  config st = JObj c ->
  getCascadedConfig repo packageFile st =
    let cascaded := assign [] [JObj c; repo; packageFile] in
    inl (JObj (obj_del (obj_del (obj_del
      (obj_set cascaded "templates"
         (JObj (assign [] [prop_or_undef c "defaultTemplates";
                           prop_or_undef cascaded "templates"])))
      "repositories") "repository") "fileName")).
Proof. intros Hc. unfold getCascadedConfig. now rewrite Hc. Qed.

(** C23: after [getGlobalConfig] has returned, [getCascadedConfig]
    returns an object whose templates are merged key by key: a template
    the repository or package-file layers (or the global config) name
    wins, and every other template comes from the default
    configuration's templates. *)
Theorem cascaded_templates_fall_back env argv st c st' :
  getGlobalConfig env argv st = (Ok (JObj c), st') ->
  exists out tps,
    getCascadedConfig repo packageFile st' = inl (JObj out) /\
    obj_get out "templates" = Some (JObj tps) /\
    forall k, obj_get tps k =
      layered_get [prop_or_undef (defaults_module st) "templates";
                   prop_or_undef (assign [] [JObj c; repo; packageFile]) "templates"] k.
Proof.
  intros H.
  destruct (getGlobalConfig_Ok _ _ _ _ _ H) as (xs & xs2 & xs3 & _ & _ & _ & _ & _ & Hc & Hst).
  injection Hc as Hc'. rewrite (getCascadedConfig_obj st' c) by (now rewrite Hst, share_config).
  eexists _, _. split; [reflexivity|]. split.
  - rewrite !obj_get_del_ne, obj_get_set_eq by discriminate. reflexivity.
  - intros k. rewrite obj_get_assign. unfold prop_or_undef at 1. rewrite Hc' at 1.
    rewrite obj_get_set_eq.
    now destruct (layered_get _ k).
Qed.

(** C24: [getCascadedConfig] strips the repository list, the selected
    repository and the package-file name, and every other key except
    [templates] is the value of the last of the global config, the
    repository and the package file that has it. *)
Theorem cascaded_strips_and_layers st c :
  config st = JObj c ->
  exists out, getCascadedConfig repo packageFile st = inl (JObj out) /\
    obj_get out "repositories" = None /\ obj_get out "repository" = None /\
    obj_get out "fileName" = None /\
    forall k, k <> "templates" -> k <> "repositories" -> k <> "repository" ->
      k <> "fileName" -> obj_get out k = layered_get [JObj c; repo; packageFile] k.
Proof.
  intros Hc. rewrite (getCascadedConfig_obj st c Hc). eexists. split; [reflexivity|].
  split; [|split; [|split]].
  - rewrite !obj_get_del_ne by discriminate. apply obj_get_del_eq.
  - rewrite obj_get_del_ne by discriminate. apply obj_get_del_eq.
  - apply obj_get_del_eq.
  - intros k Ht Hrs Hr Hf.
    rewrite !obj_get_del_ne, obj_get_set_ne, obj_get_assign by congruence.
    now destruct (layered_get _ k).
Qed.

End Cascade.
End ParserTheorems.
