(* ===== verification/ConfigScenarios.v ===== *)
(** * Scenarios of the configuration cascade

    The custom configuration of src/test/_fixtures/config/file.js run
    through [getGlobalConfig], the error cases of the parser on concrete
    inputs, and the witnesses of the theorems of [ConfigTheorems]. *)

From Stdlib Require Import String Ascii List ZArith Lia Bool.
From S2P Require Import Prelude Js Config ConfigTheorems.
Import ListNotations.
Local Open Scope list_scope.
Local Open Scope string_scope.

(** ** Scenarios and witnesses *)

Module ParserScenarios.
Import Parser ParserFacts ParserTheorems.

(** The custom configuration of src/test/_fixtures/config/file.js. *)
Definition fixture_config : jval :=
  JObj [("token", JStr "abcdefg"); ("logLevel", JStr "error");
        ("repositories",
          JArr [JStr "singapore/lint-condo";
                JObj [("repository", JStr "singapore/renovate");
                      ("packageFiles", JArr [JStr "package2.json"])];
                JObj [("repository", JStr "singapore/renovate");
                      ("packageFiles",
                        JArr [JObj [("fileName", JStr "package.json");
                                    ("labels", JArr [JStr "a"])]])]])].

(** A default configuration (the defaults module is not part of the
    sources): a log level and two templates. *)
Definition sample_defaults : obj :=
  [("logLevel", JStr "info");
   ("templates", JObj [("prTitle", JStr "Update {{depName}}"); ("prBody", JStr "Body")])].

Definition no_env : environment := mkEnv None None.
Definition argv0 : list string := ["node"; "renovate"].

Definition fixture_run : outcome * state :=
  Eval vm_compute in getGlobalConfig no_env argv0
    (load sample_defaults (Some fixture_config) no_env).

Definition fixture_out : obj :=
  Eval vm_compute in match fst fixture_run with Ok (JObj c) => c | _ => [] end.

Definition fixture_state : state := Eval vm_compute in snd fixture_run.

Lemma fixture_run_ok : fixture_run = (Ok (JObj fixture_out), fixture_state).
Proof. reflexivity. Qed.

(** The fixture normalises as the spec describes, with descriptor objects
    for the package files. *)
Example fixture_repositories :
  obj_get fixture_out "repositories" =
    Some (JArr [JObj [("repository", JStr "singapore/lint-condo");
                      ("packageFiles", JArr [JObj [("fileName", JStr "package.json")]])];
                JObj [("repository", JStr "singapore/renovate");
                      ("packageFiles", JArr [JObj [("fileName", JStr "package2.json")]])];
                JObj [("repository", JStr "singapore/renovate");
                      ("packageFiles",
                        JArr [JObj [("fileName", JStr "package.json");
                                    ("labels", JArr [JStr "a"])]])]]).
Proof. reflexivity. Qed.

(** A custom configuration with a [null] token. *)
Definition null_token_state : state :=
  load sample_defaults (Some (JObj [("token", JNull); ("repositories", JArr [JStr "a/b"])])) no_env.

(** A repository whose package files are given as one name. *)
Definition string_pf_repos : list jval :=
  [JObj [("repository", JStr "a/b"); ("packageFiles", JStr "package.json")]].

Definition string_pf_state : state :=
  load sample_defaults (Some (JObj [("token", JStr "t"); ("repositories", JArr string_pf_repos)]))
       no_env.

(** Witnesses. *)

Lemma global_config_layers_witness :
  obj_get fixture_out "token" =
    layered_get [JObj sample_defaults; custom_layer (Some fixture_config);
                 JObj (cli_config no_env argv0)] "token" /\
  config fixture_state = JObj fixture_out.
Proof.
  apply (global_config_layers no_env argv0 (load sample_defaults (Some fixture_config) no_env)
           fixture_out fixture_state "token").
  - vm_compute. reflexivity.
  - discriminate.
  - discriminate.
  - discriminate.
Defined.

Lemma global_config_requires_token_witness :
  fst (getGlobalConfig no_env argv0
    (load sample_defaults None no_env)) = Exit 1 token_message.
Proof.
  apply global_config_requires_token. vm_compute. intros v Hv. discriminate.
Defined.

Lemma global_config_requires_repositories_witness :
  fst (getGlobalConfig no_env argv0
    (load sample_defaults (Some (JObj [("token", JStr "t"); ("repositories", JArr [])])) no_env)) = Exit 1 repositories_message.
Proof.
  apply global_config_requires_repositories.
  - vm_compute. discriminate.
  - vm_compute. right. right. reflexivity.
Defined.

Lemma global_config_repositories_normalised_witness :
  wf_obj fixture_out /\
  exists rs, obj_get fixture_out "repositories" = Some (JArr rs) /\ rs <> [] /\
             Forall wf_repo rs.
Proof.
  apply (global_config_repositories_normalised no_env
           argv0 (load sample_defaults (Some fixture_config) no_env) fixture_out fixture_state).
  vm_compute. reflexivity.
Defined.

Lemma global_config_bare_names_witness :
  exists c st', getGlobalConfig no_env argv0
    (load sample_defaults (Some (JObj [("token", JStr "t"); ("repositories", JArr [JStr "a/b"; JStr "c/d"])])) no_env) = (Ok (JObj c), st') /\
    obj_get c "repositories" =
      Some (JArr (map (fun n => JObj [("repository", JStr n);
                                      ("packageFiles",
                                        JArr [JObj [("fileName", JStr "package.json")]])])
                      ["a/b"; "c/d"])).
Proof.
  apply global_config_bare_names.
  - reflexivity.
  - discriminate.
  - vm_compute. discriminate.
Defined.

Lemma global_config_cli_repository_witness :
  exists c st', getGlobalConfig (mkEnv None (Some "tok")) ["node"; "renovate"; "x/y"; "app/package.json"]
                  (load sample_defaults (Some fixture_config) no_env) = (Ok (JObj c), st') /\
    obj_get c "token" = Some (JStr "tok") /\
    obj_get c "repositories" =
      Some (JArr [JObj [("repository", JStr "x/y");
                        ("packageFiles",
                          JArr [JObj [("fileName",
                                       js_or (argv_val ["node"; "renovate"; "x/y"; "app/package.json"] 3)
                                             (JStr "package.json"))]])]]).
Proof.
  apply global_config_cli_repository.
  - reflexivity.
  - discriminate.
  - reflexivity.
  - discriminate.
Defined.

Lemma cascaded_templates_fall_back_witness :
  exists out tps,
    getCascadedConfig (JObj [("repository", JStr "a/b");
                             ("templates", JObj [("prTitle", JStr "Custom")])])
                      (JObj [("fileName", JStr "package.json")]) fixture_state = inl (JObj out) /\
    obj_get out "templates" = Some (JObj tps) /\
    forall k, obj_get tps k =
      layered_get [prop_or_undef sample_defaults "templates";
                   prop_or_undef (assign [] [JObj fixture_out;
                                            JObj [("repository", JStr "a/b");
                                                  ("templates", JObj [("prTitle", JStr "Custom")])];
                                            JObj [("fileName", JStr "package.json")]])
                                 "templates"] k.
Proof.
  apply (cascaded_templates_fall_back _ _ no_env argv0
           (load sample_defaults (Some fixture_config) no_env)).
  vm_compute. reflexivity.
Defined.

Lemma cascaded_strips_and_layers_witness :
  exists out, getCascadedConfig (JObj [("repository", JStr "a/b")])
                                (JObj [("fileName", JStr "package.json")]) fixture_state
              = inl (JObj out) /\
    obj_get out "repositories" = None /\ obj_get out "repository" = None /\
    obj_get out "fileName" = None /\
    forall k, k <> "templates" -> k <> "repositories" -> k <> "repository" ->
      k <> "fileName" ->
      obj_get out k = layered_get [JObj fixture_out; JObj [("repository", JStr "a/b")];
                                   JObj [("fileName", JStr "package.json")]] k.
Proof.
  apply cascaded_strips_and_layers. reflexivity.
Defined.
Lemma global_config_shares_repositories_witness :
  exists ps, custom_module (load sample_defaults (Some fixture_config) no_env) = Some (JObj ps) /\
    custom_module fixture_state =
      Some (JObj (obj_set ps "repositories" (prop_or_undef fixture_out "repositories"))) /\
    defaults_module fixture_state = sample_defaults /\ config fixture_state = JObj fixture_out.
Proof.
  eexists. split; [reflexivity|].
  apply (global_config_shares_repositories no_env argv0 (load sample_defaults (Some fixture_config) no_env) fixture_out fixture_state);
    vm_compute; reflexivity.
Defined.
Lemma null_token_accepted_witness :
  fst (getGlobalConfig no_env argv0 null_token_state) <> Exit 1 token_message /\
  (forall c st', getGlobalConfig no_env argv0 null_token_state = (Ok (JObj c), st') ->
                 obj_get c "token" = Some JNull).
Proof. apply (null_token_accepted no_env argv0 null_token_state). reflexivity. Defined.

Lemma string_package_files_throw_witness :
  exists e, fst (getGlobalConfig no_env argv0 string_pf_state) = Raise e.
Proof.
  apply (string_package_files_throw no_env argv0 string_pf_state string_pf_repos).
  - vm_compute. discriminate.
  - reflexivity.
  - apply Exists_cons_hd. eexists _, _. split; [reflexivity|]. split; [reflexivity|discriminate].
Defined.

End ParserScenarios.
