(* ===== verification/Base64.v ===== *)
(** * The base64 transport of file contents

    [src/src/github.js] writes a file with
    [new Buffer(fileContents).toString('base64')] and reads one with
    [new Buffer(res.body.content, 'base64').toString()].  This file models
    the two conversions of Node's [Buffer]: a JavaScript string is a byte
    string (one byte per character; the UTF-8 encoding of an ASCII text),
    a buffer is a list of bytes (integers in [0, 256)).

    - [b64_encode] is the standard encoder: groups of three bytes packed
      into 24 bits with shifts and ors, cut into four 6-bit indices of the
      alphabet, the last group padded with '='.
    - [b64_decode] is Node's lenient decoder: characters outside the
      alphabet (newlines, spaces) are skipped, the URL-safe '-' and '_' are
      accepted, the first '=' stops decoding, and a trailing group of two
      or three characters yields one or two bytes.

    The theorems: decoding inverts encoding on every byte list; decoding
    ignores the line breaks GitHub inserts in the content it returns; the
    encoding of [n] bytes has [4 * ceil(n / 3)] characters; the decoder
    produces only bytes, whatever its input. *)

From Stdlib Require Import String Ascii List ZArith Lia Bool.
From S2P Require Import Prelude.
Import ListNotations.
Local Open Scope list_scope.
Local Open Scope Z_scope.

Module Base64.

Definition is_byte (b : Z) : Prop := 0 <= b < 256.

(** [Buffer.from(string)] on a byte string, and [buf.toString()]. *)
Definition bytes_of_string (s : string) : list Z :=
  map (fun c => Z.of_nat (nat_of_ascii c)) (list_ascii_of_string s).

Definition string_of_bytes (bs : list Z) : string :=
  string_of_list_ascii (map (fun b => ascii_of_nat (Z.to_nat b)) bs).

Definition alphabet : string :=
  "ABCDEFGHIJKLMNOPQRSTUVWXYZabcdefghijklmnopqrstuvwxyz0123456789+/".

(** The character of a 6-bit index. *)
Definition b64_char (k : Z) : ascii :=
  match String.get (Z.to_nat k) alphabet with Some c => c | None => "="%char end.

(** [unbase64]: the index of a character of the alphabet (standard or
  URL-safe), [None] for any other character. *)
Definition unbase64 (c : ascii) : option Z :=
  let n := Z.of_nat (nat_of_ascii c) in
  if (65 <=? n) && (n <=? 90) then Some (n - 65)
  else if (97 <=? n) && (n <=? 122) then Some (n - 71)
  else if (48 <=? n) && (n <=? 57) then Some (n + 4)
  else if (n =? 43) || (n =? 45) then Some 62
  else if (n =? 47) || (n =? 95) then Some 63
  else None.

Definition pad : ascii := "="%char.

(** Three bytes as one 24-bit group. *)
Definition group3 (b0 b1 b2 : Z) : Z :=
  Z.lor (Z.shiftl b0 16) (Z.lor (Z.shiftl b1 8) b2).

Definition sextet (n : Z) (k : Z) : ascii := b64_char (Z.land (Z.shiftr n k) 63).

Fixpoint b64_encode (bs : list Z) : string :=
  match bs with
  | b0 :: b1 :: b2 :: rest =>
      let n := group3 b0 b1 b2 in
      String (sextet n 18) (String (sextet n 12) (String (sextet n 6) (String (sextet n 0)
        (b64_encode rest))))
  | [b0; b1] =>
      let n := group3 b0 b1 0 in
      String (sextet n 18) (String (sextet n 12) (String (sextet n 6) (String pad EmptyString)))
  | [b0] =>
      let n := group3 b0 0 0 in
      String (sextet n 18) (String (sextet n 12) (String pad (String pad EmptyString)))
  | [] => EmptyString
  end.

(** The indices the decoder reads: skipped characters dropped, stopping
  at the first '='. *)
Fixpoint sextets (s : string) : list Z :=
  match s with
  | EmptyString => []
  | String c rest =>
      if Ascii.eqb c pad then []
      else match unbase64 c with
           | Some v => v :: sextets rest
           | None => sextets rest
           end
  end.

(** Four indices as one 24-bit group. *)
Definition group4 (v0 v1 v2 v3 : Z) : Z :=
  Z.lor (Z.shiftl v0 18) (Z.lor (Z.shiftl v1 12) (Z.lor (Z.shiftl v2 6) v3)).

Definition byte_at (n : Z) (k : Z) : Z := Z.land (Z.shiftr n k) 255.

Fixpoint assemble (vs : list Z) : list Z :=
  match vs with
  | v0 :: v1 :: v2 :: v3 :: rest =>
      let n := group4 v0 v1 v2 v3 in byte_at n 16 :: byte_at n 8 :: byte_at n 0 :: assemble rest
  | [v0; v1; v2] => let n := group4 v0 v1 v2 0 in [byte_at n 16; byte_at n 8]
  | [v0; v1] => [byte_at (group4 v0 v1 0 0) 16]
  | _ => []
  end.

Definition b64_decode (s : string) : list Z := assemble (sextets s).

(** GitHub's transport form: a newline after every [w] characters. *)
Fixpoint wrap_lines (w : nat) (fuel : nat) (s : string) : string :=
  match fuel with
  | O => s
  | S fuel' =>
      if Nat.leb (String.length s) w then s
      else (substring 0 w s ++ String "010"%char (wrap_lines w fuel' (substring w (String.length s - w) s)))%string
  end.

Definition github_wrap (s : string) : string := wrap_lines 60 (String.length s) s.

End Base64.

Module Base64Facts.
Import Base64.

(** ** Bit operations as arithmetic *)

Lemma shiftl_mul a k : 0 <= k -> Z.shiftl a k = a * 2 ^ k.
Proof. intros; now rewrite Z.shiftl_mul_pow2. Qed.

Lemma land_shiftr_mod n k m : 0 <= k -> 0 <= m -> Z.land (Z.shiftr n k) (Z.ones m) = (n / 2 ^ k) mod 2 ^ m.
Proof. intros; now rewrite Z.land_ones, Z.shiftr_div_pow2. Qed.

(** A shifted value and a value below the shift have no common bit. *)
Lemma land_shiftl_low a b k : 0 <= k -> 0 <= b < 2 ^ k -> Z.land (Z.shiftl a k) b = 0.
Proof.
  intros Hk Hb. apply Z.bits_inj'. intros i Hi. rewrite Z.land_spec, Z.bits_0.
  destruct (Z.lt_ge_cases i k) as [Hlt|Hge].
  - rewrite Z.shiftl_spec_low; auto.
  - destruct (Z.eq_dec b 0) as [->|Hb0]; [rewrite Z.bits_0; apply andb_false_r|].
    rewrite (Z.bits_above_log2 b i); [apply andb_false_r|lia|].
    apply Z.lt_le_trans with k; [apply Z.log2_lt_pow2|]; lia.
Qed.

(** An or of a shifted value and a value below the shift is their sum. *)
Lemma lor_shiftl_add a b k :
  0 <= k -> 0 <= b < 2 ^ k -> Z.lor (Z.shiftl a k) b = a * 2 ^ k + b.
Proof.
  intros Hk Hb. pose proof (land_shiftl_low a b k Hk Hb) as Hd.
  rewrite <- (Z.lxor_lor _ _ Hd), <- (Z.add_nocarry_lxor _ _ Hd).
  now rewrite Z.shiftl_mul_pow2.
Qed.

Lemma group3_arith b0 b1 b2 :
  is_byte b1 -> is_byte b2 -> group3 b0 b1 b2 = b0 * 65536 + b1 * 256 + b2.
Proof.
  unfold is_byte, group3. intros H1 H2.
  rewrite (lor_shiftl_add b1 b2 8), (lor_shiftl_add b0 _ 16); cbn -[Z.mul Z.add]; lia.
Qed.

Lemma group4_arith v0 v1 v2 v3 :
  0 <= v1 < 64 -> 0 <= v2 < 64 -> 0 <= v3 < 64 ->
  group4 v0 v1 v2 v3 = v0 * 262144 + v1 * 4096 + v2 * 64 + v3.
Proof.
  unfold group4. intros H1 H2 H3.
  rewrite (lor_shiftl_add v2 v3 6), (lor_shiftl_add v1 _ 12), (lor_shiftl_add v0 _ 18);
    cbn -[Z.mul Z.add]; lia.
Qed.

Lemma index_arith n k : 0 <= k -> Z.land (Z.shiftr n k) 63 = (n / 2 ^ k) mod 64.
Proof. intros. exact (land_shiftr_mod n k 6 H ltac:(lia)). Qed.

Lemma byte_at_arith n k : 0 <= k -> byte_at n k = (n / 2 ^ k) mod 256.
Proof. intros. exact (land_shiftr_mod n k 8 H ltac:(lia)). Qed.

(** ** The alphabet *)

Definition char_ok (k : Z) : bool :=
  negb (Ascii.eqb (b64_char k) pad) &&
  match unbase64 (b64_char k) with Some v => v =? k | None => false end.

Lemma char_ok_all : forallb char_ok (map Z.of_nat (seq 0 64)) = true.
Proof. vm_compute. reflexivity. Qed.

Lemma char_ok_range k : 0 <= k < 64 -> char_ok k = true.
Proof.
  intros Hk. pose proof char_ok_all as Hall. rewrite forallb_forall in Hall.
  apply Hall. apply in_map_iff. exists (Z.to_nat k). split; [lia|].
  apply in_seq. lia.
Qed.

(** A character of the alphabet is read back as its index. *)
Lemma sextets_char k s : 0 <= k < 64 -> sextets (String (b64_char k) s) = k :: sextets s.
Proof.
  intros Hk. pose proof (char_ok_range k Hk) as Hok. unfold char_ok in Hok.
  apply andb_prop in Hok as [Hp Hv]. apply negb_true_iff in Hp.
  cbn [sextets]. rewrite Hp.
  destruct (unbase64 (b64_char k)) as [v|]; [|discriminate].
  apply Z.eqb_eq in Hv. now subst.
Qed.

Lemma sextets_sextet n k s : 0 <= k -> sextets (String (sextet n k) s) = (n / 2 ^ k) mod 64 :: sextets s.
Proof.
  intros Hk. unfold sextet. rewrite sextets_char, index_arith; auto.
  rewrite index_arith by lia. apply Z.mod_pos_bound; lia.
Qed.

(** ** Round trips *)

(** Powers of two as literals, for [lia]. *)
Ltac pow_literals :=
  repeat match goal with
         | |- context [2 ^ ?k] =>
             let v := eval vm_compute in (2 ^ k) in change (2 ^ k) with v
         end.

(** The four indices of a 24-bit group put back together give the group. *)
Lemma regroup n v2 v3 :
  0 <= n < 16777216 -> v2 = (n / 64) mod 64 -> v3 = n mod 64 ->
  group4 ((n / 262144) mod 64) ((n / 4096) mod 64) v2 v3 = n.
Proof.
  intros Hn -> ->.
  replace (n / 4096) with (n / 64 / 64) by (rewrite Z.div_div; reflexivity || lia).
  replace (n / 262144) with (n / 64 / 64 / 64) by (rewrite !Z.div_div; reflexivity || lia).
  assert (Hq : forall a, 0 <= a -> a = 64 * (a / 64) + a mod 64 /\ 0 <= a mod 64 < 64 /\ 0 <= a / 64)
    by (intros a Ha; split; [apply Z.div_mod; lia|split; [apply Z.mod_pos_bound; lia|apply Z.div_pos; lia]]).
  rewrite group4_arith by (apply Z.mod_pos_bound; lia).
  destruct (Hq n) as (E1 & B1 & P1); [lia|].
  destruct (Hq (n / 64)) as (E2 & B2 & P2); [lia|].
  destruct (Hq (n / 64 / 64)) as (E3 & B3 & P3); [lia|].
  remember (n / 64 / 64 / 64) as q3. remember (n / 64 / 64) as q2. remember (n / 64) as q1.
  rewrite (Z.mod_small q3 64); lia.
Qed.

(** A byte-wide digit of a number. *)
Lemma digit_of hi d lo k :
  0 < k -> 0 <= lo < k -> 0 <= d < 256 -> (((hi * 256 + d) * k + lo) / k) mod 256 = d.
Proof.
  intros Hk Hlo Hd. rewrite Z.div_add_l, (Z.div_small lo k), Z.add_0_r by lia.
  rewrite Z.add_comm, Z.mod_add, Z.mod_small; lia.
Qed.

(** The bytes of a group of three bytes. *)
Lemma group_bytes b0 b1 b2 :
  is_byte b0 -> is_byte b1 -> is_byte b2 ->
  let n := b0 * 65536 + b1 * 256 + b2 in
  (n / 65536) mod 256 = b0 /\ (n / 256) mod 256 = b1 /\ (n / 1) mod 256 = b2.
Proof.
  intros H0 H1 H2; cbv zeta; unfold is_byte in *. split; [|split].
  - replace (b0 * 65536 + b1 * 256 + b2) with ((0 * 256 + b0) * 65536 + (b1 * 256 + b2)) by lia.
    apply digit_of; lia.
  - replace (b0 * 65536 + b1 * 256 + b2) with ((b0 * 256 + b1) * 256 + b2) by lia.
    apply digit_of; lia.
  - replace (b0 * 65536 + b1 * 256 + b2) with (((b0 * 256 + b1) * 256 + b2) * 1 + 0) by lia.
    apply digit_of; lia.
Qed.

Lemma sextets_pad s : sextets (String pad s) = [].
Proof. reflexivity. Qed.

Lemma assemble_group b0 b1 b2 rest :
  is_byte b0 -> is_byte b1 -> is_byte b2 ->
  let n := b0 * 65536 + b1 * 256 + b2 in
  assemble ((n / 262144) mod 64 :: (n / 4096) mod 64 :: (n / 64) mod 64 :: n mod 64 :: rest) =
    b0 :: b1 :: b2 :: assemble rest.
Proof.
  intros H0 H1 H2 n. pose proof (group_bytes b0 b1 b2 H0 H1 H2) as Hb.
  unfold is_byte in *. cbn [assemble]. rewrite regroup by (unfold n; lia).
  rewrite !byte_at_arith by lia. pow_literals. fold n in Hb. f_equal; [|f_equal; [|f_equal]]; lia.
Qed.

(** The low indices of a group padded with zero bytes are zero. *)
Lemma low_index_zero2 b0 b1 : (b0 * 65536 + b1 * 256 + 0) mod 64 = 0.
Proof.
  replace (b0 * 65536 + b1 * 256 + 0) with ((b0 * 1024 + b1 * 4) * 64) by lia.
  apply Z.mod_mul. lia.
Qed.

Lemma low_index_zero1 b0 : ((b0 * 65536 + 0 * 256 + 0) / 64) mod 64 = 0.
Proof.
  replace (b0 * 65536 + 0 * 256 + 0) with (b0 * 16 * 64 * 64) by lia.
  rewrite Z.div_mul, Z.mod_mul; lia.
Qed.

Lemma decode_encode_le k bs :
  (length bs <= k)%nat -> Forall is_byte bs -> b64_decode (b64_encode bs) = bs.
Proof.
  revert bs. induction k as [|k IH]; intros bs Hlen Hb.
  - destruct bs; [reflexivity|simpl in Hlen; lia].
  - unfold b64_decode.
    destruct bs as [|b0 [|b1 [|b2 rest]]]; inversion Hb as [|? ? H0 Hb1]; subst; cbn [b64_encode].
    + reflexivity.
    + rewrite !sextets_sextet, sextets_pad by lia.
      rewrite group3_arith by (unfold is_byte in *; lia). pow_literals. cbn [assemble].
      destruct (group_bytes b0 0 0 H0) as [Hb0 _]; try (unfold is_byte; lia).
      rewrite regroup; [|unfold is_byte in *; lia|symmetry; apply low_index_zero1|
                        symmetry; rewrite ?Z.div_1_r; apply (low_index_zero2 b0 0)].
      rewrite byte_at_arith by lia. pow_literals. now rewrite Hb0.
    + inversion Hb1 as [|? ? H1 Hb2]; subst.
      rewrite !sextets_sextet, sextets_pad by lia.
      rewrite group3_arith by (unfold is_byte in *; lia). pow_literals. cbn [assemble].
      destruct (group_bytes b0 b1 0 H0 H1) as [Hb0 [Hb1' _]]; try (unfold is_byte; lia).
      rewrite regroup; [|unfold is_byte in *; lia|reflexivity|
                        symmetry; apply low_index_zero2].
      rewrite !byte_at_arith by lia. pow_literals. now rewrite Hb0, Hb1'.
    + inversion Hb1 as [|? ? H1 Hb2]; subst. inversion Hb2 as [|? ? H2 Hb3]; subst.
      rewrite !sextets_sextet by lia. rewrite group3_arith by assumption. pow_literals.
      rewrite Z.div_1_r.
      rewrite assemble_group by assumption. do 3 f_equal.
      apply IH; [simpl in Hlen; lia|assumption].
Qed.

Lemma decode_encode bs : Forall is_byte bs -> b64_decode (b64_encode bs) = bs.
Proof. apply decode_encode_le with (k := length bs). lia. Qed.

(** ** Skipped characters *)

Lemma sextets_app_cong a x y :
  sextets x = sextets y -> sextets (a ++ x)%string = sextets (a ++ y)%string.
Proof.
  intros Hxy. induction a as [|c a IH]; [exact Hxy|].
  cbn [String.append sextets]. rewrite IH. reflexivity.
Qed.

Lemma substring_0_length s : substring 0 (String.length s) s = s.
Proof. induction s as [|c s IH]; [reflexivity|]. cbn. now rewrite IH. Qed.

Lemma substring_split w s :
  (w <= String.length s)%nat ->
  (substring 0 w s ++ substring w (String.length s - w) s)%string = s.
Proof.
  revert s. induction w as [|w IH]; intros s Hw.
  - rewrite Nat.sub_0_r, substring_0_length. destruct s; reflexivity.
  - destruct s as [|c s]; [cbn in Hw; lia|].
    cbn -[Nat.sub]. rewrite Nat.sub_succ. rewrite IH; [reflexivity|cbn in Hw; lia].
Qed.

Lemma sextets_wrap w fuel s : sextets (wrap_lines w fuel s) = sextets s.
Proof.
  revert s. induction fuel as [|fuel IH]; intros s; [reflexivity|].
  cbn [wrap_lines]. destruct (Nat.leb_spec (String.length s) w); [reflexivity|].
  transitivity (sextets (substring 0 w s ++ substring w (String.length s - w) s)).
  - apply sextets_app_cong. apply IH.
  - rewrite substring_split by lia. reflexivity.
Qed.

Lemma decode_github_wrap s : b64_decode (github_wrap s) = b64_decode s.
Proof. unfold b64_decode, github_wrap. now rewrite sextets_wrap. Qed.

(** ** Strings as bytes *)

Lemma bytes_of_string_bytes s : Forall is_byte (bytes_of_string s).
Proof.
  unfold bytes_of_string, is_byte. apply Forall_forall. intros b Hb.
  apply in_map_iff in Hb as [c [<- _]]. pose proof (nat_ascii_bounded c). lia.
Qed.

Lemma string_of_bytes_of_string s : string_of_bytes (bytes_of_string s) = s.
Proof.
  unfold string_of_bytes, bytes_of_string. rewrite map_map.
  rewrite (map_ext _ (fun c => c)) by (intros c; now rewrite Nat2Z.id, ascii_nat_embedding).
  now rewrite map_id, string_of_list_ascii_of_string.
Qed.

(** ** Bounds *)

(** The encoding has four characters per started group of three bytes. *)
Lemma b64_encode_length_le k bs :
  (length bs <= k)%nat -> String.length (b64_encode bs) = (4 * ((length bs + 2) / 3))%nat.
Proof.
  revert bs. induction k as [|k IH]; intros bs Hk.
  - destruct bs; [reflexivity|simpl in Hk; lia].
  - destruct bs as [|b0 [|b1 [|b2 rest]]]; try reflexivity.
    cbn [b64_encode String.length length]. rewrite IH by (simpl in Hk; lia).
    replace (S (S (S (length rest))) + 2)%nat with (length rest + 2 + 1 * 3)%nat by lia.
    rewrite Nat.div_add by lia. lia.
Qed.

Lemma b64_encode_length bs : String.length (b64_encode bs) = (4 * ((length bs + 2) / 3))%nat.
Proof. now apply b64_encode_length_le with (k := length bs). Qed.

Lemma byte_at_byte n k : 0 <= k -> is_byte (byte_at n k).
Proof. intros Hk. rewrite byte_at_arith by exact Hk. unfold is_byte. apply Z.mod_pos_bound. lia. Qed.

(** Whatever the input, the decoder only produces bytes. *)
Lemma assemble_bytes_le k vs : (length vs <= k)%nat -> Forall is_byte (assemble vs).
Proof.
  revert vs. induction k as [|k IH]; intros vs Hk.
  - destruct vs; [constructor|simpl in Hk; lia].
  - destruct vs as [|v0 [|v1 [|v2 [|v3 rest]]]]; simpl;
      repeat constructor; try (apply byte_at_byte; lia).
    apply IH. simpl in Hk. lia.
Qed.

Lemma assemble_bytes vs : Forall is_byte (assemble vs).
Proof. now apply assemble_bytes_le with (k := length vs). Qed.

Lemma b64_decode_bytes s : Forall is_byte (b64_decode s).
Proof. apply assemble_bytes. Qed.

(** The text written is decoded back from GitHub's transport form. *)
Lemma transport_text txt :
  string_of_bytes (b64_decode (github_wrap (b64_encode (bytes_of_string txt)))) = txt.
Proof.
  rewrite decode_github_wrap, decode_encode by apply bytes_of_string_bytes.
  apply string_of_bytes_of_string.
Qed.

(** C20: the base64 round trip.  Decoding inverts encoding on every list of
  bytes, also after GitHub has broken the encoding into lines of 60
  characters. *)
Theorem base64_roundtrip bs :
  Forall is_byte bs ->
  b64_decode (b64_encode bs) = bs /\ b64_decode (github_wrap (b64_encode bs)) = bs.
Proof. intros Hb. rewrite decode_github_wrap. split; apply decode_encode, Hb. Qed.

End Base64Facts.

Module Base64Witnesses.
Import Base64 Base64Facts.

Lemma base64_roundtrip_witness :
  Forall is_byte [104; 101; 108; 108; 111] /\
  b64_decode (b64_encode [104; 101; 108; 108; 111]) = [104; 101; 108; 108; 111] /\
  b64_decode (github_wrap (b64_encode [104; 101; 108; 108; 111])) = [104; 101; 108; 108; 111].
Proof.
  assert (Hb : Forall is_byte [104; 101; 108; 108; 111])
    by (repeat constructor; unfold is_byte; lia).
  split; [exact Hb | apply (base64_roundtrip _ Hb)].
Defined.

End Base64Witnesses.
