(* ===== verification/Base64Spec.v ===== *)
(** * Base64: a reference encoder and the form of the output

    [Base64.b64_encode] (the conversion [new Buffer(text).toString('base64')]
    of src/src/github.js, line 82) packs three bytes into a 24-bit group
    with shifts and ors and cuts it with shifts and masks.  This file gives
    the textbook definition as a reference: the bytes as one stream of
    bits, most significant first, padded with zero bits to a multiple of
    six, read six bits at a time, then '=' up to a multiple of four
    characters; and proves the two encoders equal on every list of bytes.

    It also shows the form of the encoder's output: [4 * ceil(n / 3)]
    characters of the standard alphabet, then [(3 - n mod 3) mod 3] '='. *)

From Stdlib Require Import String Ascii List ZArith Lia Bool.
From S2P Require Import Prelude Base64.
Import ListNotations.
Local Open Scope list_scope.
Local Open Scope Z_scope.

Module Base64Spec.
Import Base64.

(** The [n] low bits of [b], most significant first. *)
Fixpoint bits_n (n : nat) (b : Z) : list bool :=
  match n with
  | O => []
  | S n' => Z.testbit b (Z.of_nat n') :: bits_n n' b
  end.

Definition bits8 (b : Z) : list bool := bits_n 8 b.

(** The number a list of bits denotes, most significant first. *)
Fixpoint bits_value (bs : list bool) : Z :=
  match bs with
  | [] => 0
  | b :: rest => Z.b2z b * 2 ^ Z.of_nat (length rest) + bits_value rest
  end.

(** Six bits at a time; the last group is completed with zero bits. *)
Fixpoint sextets_of_bits (fuel : nat) (bs : list bool) : list Z :=
  match fuel, bs with
  | O, _ | _, [] => []
  | S f, _ => bits_value (firstn 6 (bs ++ repeat false 5)) :: sextets_of_bits f (skipn 6 bs)
  end.

(** The '=' that complete the output to a multiple of four characters. *)
Definition padding (n : nat) : nat :=
  match (n mod 3)%nat with 1%nat => 2 | 2%nat => 1 | _ => 0 end.

(** The reference encoder. *)
Definition ref_encode (bytes : list Z) : string :=
  let bits := flat_map bits8 bytes in
  string_of_list_ascii (map b64_char (sextets_of_bits (length bits) bits) ++
                        repeat pad (padding (length bytes))).

(** A string of the alphabet followed by at most two '='. *)
Definition in_alphabet (c : ascii) : bool :=
  match unbase64 c with Some _ => negb (Ascii.eqb c "-"%char || Ascii.eqb c "_"%char) | None => false end.

(** Every index of the alphabet has a character of the alphabet. *)
Definition alphabet_ok : bool := forallb (fun k => in_alphabet (b64_char k)) (map Z.of_nat (seq 0 64)).

End Base64Spec.

Module Base64SpecFacts.
Import Base64 Base64Facts Base64Spec.

(** ** Bit lists *)

Lemma bits_n_length n b : length (bits_n n b) = n.
Proof. induction n; simpl; auto. Qed.

Lemma bits_value_app l1 l2 :
  bits_value (l1 ++ l2) = bits_value l1 * 2 ^ Z.of_nat (length l2) + bits_value l2.
Proof.
  induction l1 as [|b l1 IH]; cbn [bits_value length app]; [lia|].
  rewrite IH, length_app, Nat2Z.inj_add, Z.pow_add_r by lia. lia.
Qed.

Lemma bits_value_bound l : 0 <= bits_value l < 2 ^ Z.of_nat (length l).
Proof.
  induction l as [|b l IH]; cbn [bits_value length]; [simpl; lia|].
  rewrite Nat2Z.inj_succ, Z.pow_succ_r by lia. destruct b; cbn [Z.b2z]; lia.
Qed.

(** Splitting off the top bit of [b mod 2^(n+1)]. *)
Lemma mod_pow2_succ b n :
  0 <= n -> b mod 2 ^ (n + 1) = (b / 2 ^ n) mod 2 * 2 ^ n + b mod 2 ^ n.
Proof.
  intros Hn. assert (Hp : 0 < 2 ^ n) by (apply Z.pow_pos_nonneg; lia).
  rewrite Z.pow_add_r, Z.pow_1_r by lia.
  pose proof (Z.div_mod b (2 ^ n) ltac:(lia)) as Hb.
  pose proof (Z.mod_pos_bound b (2 ^ n) Hp) as Hr.
  pose proof (Z.div_mod (b / 2 ^ n) 2 ltac:(lia)) as Hq.
  pose proof (Z.mod_pos_bound (b / 2 ^ n) 2 ltac:(lia)) as Hs.
  set (q := b / 2 ^ n) in *. set (r := b mod 2 ^ n) in *. set (s := q mod 2) in *.
  symmetry; apply Z.mod_unique with (q := q / 2); [left; nia|].
  rewrite Hb at 1. rewrite Hq at 1. ring.
Qed.

Lemma bits_value_bits_n n b : bits_value (bits_n n b) = b mod 2 ^ Z.of_nat n.
Proof.
  induction n as [|n IH]; cbn [bits_n bits_value]; [now rewrite Z.mod_1_r|].
  rewrite bits_n_length, IH, Z.testbit_spec' by lia.
  rewrite Nat2Z.inj_succ, <- Z.add_1_r, mod_pow2_succ by lia. reflexivity.
Qed.

Lemma bits8_value b : is_byte b -> bits_value (bits8 b) = b.
Proof.
  unfold is_byte, bits8. intros Hb. rewrite bits_value_bits_n. apply Z.mod_small. simpl. lia.
Qed.

Lemma bits8_length b : length (bits8 b) = 8%nat.
Proof. apply bits_n_length. Qed.

Lemma bits8_zero : bits8 0 = repeat false 8.
Proof. reflexivity. Qed.

(** ** Six bits at a time *)

Lemma firstn_repeat {A} n (x : A) m : firstn n (repeat x m) = repeat x (Nat.min n m).
Proof. revert m; induction n as [|n IH]; intros [|m]; simpl; f_equal; auto. Qed.

Lemma firstn6_app (X Y : list bool) : (6 <= length X)%nat -> firstn 6 (X ++ Y) = firstn 6 X.
Proof.
  intros HX. rewrite firstn_app. replace (6 - length X)%nat with O by lia. apply app_nil_r.
Qed.

(** A short tail completed with enough zero bits reads the same. *)
Lemma firstn6_zeros (X : list bool) a b :
  (6 - length X <= a)%nat -> (6 - length X <= b)%nat ->
  firstn 6 (X ++ repeat false a) = firstn 6 (X ++ repeat false b).
Proof. intros Ha Hb. rewrite !firstn_app, !firstn_repeat. do 2 f_equal. lia. Qed.

(** The six bits at [j] of a list, and past its end. *)
Lemma chunk_app (L P : list bool) j :
  (j + 6 <= length L)%nat -> firstn 6 (skipn j (L ++ P)) = firstn 6 (skipn j L).
Proof. intros Hj. rewrite skipn_app, firstn6_app; [reflexivity|rewrite length_skipn; lia]. Qed.

Lemma chunk_value L j :
  (j + 6 <= length L)%nat ->
  bits_value (firstn 6 (skipn j L)) = (bits_value L / 2 ^ Z.of_nat (length L - j - 6)) mod 64.
Proof.
  intros Hj.
  set (A := firstn j L). set (B := firstn 6 (skipn j L)). set (C := skipn 6 (skipn j L)).
  assert (HB : length B = 6%nat) by (unfold B; rewrite length_firstn, length_skipn; lia).
  assert (HC : length C = (length L - j - 6)%nat) by (unfold C; rewrite !length_skipn; lia).
  assert (HV : bits_value L = (bits_value A * 64 + bits_value B) * 2 ^ Z.of_nat (length C) + bits_value C).
  { transitivity (bits_value (A ++ B ++ C)); [f_equal; unfold A, B, C; now rewrite !firstn_skipn|].
    rewrite !bits_value_app, length_app, HB, Nat2Z.inj_add, Z.pow_add_r by lia. change (2 ^ Z.of_nat 6) with 64. ring. }
  pose proof (bits_value_bound B) as Bb. pose proof (bits_value_bound C) as Cb.
  rewrite HB in Bb. change (2 ^ Z.of_nat 6) with 64 in Bb.
  rewrite HV, <- HC, Z.div_add_l, (Z.div_small (bits_value C)), Z.add_0_r by lia.
  rewrite Z.add_comm, Z.mod_add, Z.mod_small; lia.
Qed.

(** Fuel at least the number of bits is enough, and more changes nothing. *)
Lemma sextets_fuel f g bs :
  (length bs <= f)%nat -> (length bs <= g)%nat -> sextets_of_bits f bs = sextets_of_bits g bs.
Proof.
  revert g bs. induction f as [|f IH]; intros [|g] bs Hf Hg;
    destruct bs as [|x bs]; cbn [length] in *; try lia; try reflexivity.
  cbn [sextets_of_bits]. f_equal. apply IH; rewrite length_skipn; cbn [length]; lia.
Qed.

(** One group of six bits read off the front. *)
Lemma sextets_take f L R :
  (6 <= length L)%nat ->
  sextets_of_bits (S f) (L ++ R) = bits_value (firstn 6 L) :: sextets_of_bits f (skipn 6 L ++ R).
Proof.
  intros HL. destruct L as [|x L]; [cbn in HL; lia|].
  cbn [sextets_of_bits]. rewrite <- (app_assoc (x :: L)), firstn6_app by exact HL.
  rewrite skipn_app. replace (6 - length (x :: L))%nat with O by lia. reflexivity.
Qed.

(** The last, short group, completed with zero bits. *)
Lemma sextets_last f X :
  (1 <= length X <= 6)%nat -> sextets_of_bits (S f) X = [bits_value (firstn 6 (X ++ repeat false 5))].
Proof.
  intros HX. destruct X as [|x X]; [cbn in HX; lia|].
  cbn [sextets_of_bits]. rewrite skipn_all2 by lia. destruct f; reflexivity.
Qed.

Lemma chunk_zeros (L : list bool) j a b :
  (j <= length L)%nat -> (6 - (length L - j) <= a)%nat -> (6 - (length L - j) <= b)%nat ->
  firstn 6 (skipn j L ++ repeat false a) = firstn 6 (skipn j (L ++ repeat false b)).
Proof.
  intros Hj Ha Hb. rewrite skipn_app. replace (j - length L)%nat with O by lia.
  apply firstn6_zeros; rewrite length_skipn; lia.
Qed.

(** ** The reference encoder group by group *)

Lemma padding_add3 n : padding (S (S (S n))) = padding n.
Proof.
  unfold padding. replace (S (S (S n))) with (n + 1 * 3)%nat by lia. now rewrite Nat.Div0.mod_add.
Qed.

Lemma bits3_value b0 b1 b2 :
  is_byte b0 -> is_byte b1 -> is_byte b2 ->
  bits_value (bits8 b0 ++ bits8 b1 ++ bits8 b2) = group3 b0 b1 b2.
Proof.
  intros H0 H1 H2. rewrite group3_arith by assumption.
  rewrite !bits_value_app, !length_app, !bits8_length, !bits8_value by assumption.
  pow_literals. lia.
Qed.

(** A six-bit chunk of a 24-bit group is the character [sextet] cuts. *)
Lemma chunk_sextet L j :
  length L = 24%nat -> (j <= 18)%nat ->
  b64_char (bits_value (firstn 6 (skipn j L))) = sextet (bits_value L) (Z.of_nat (18 - j)).
Proof.
  intros HL Hj. unfold sextet. rewrite index_arith, chunk_value by lia.
  do 4 f_equal. lia.
Qed.

Lemma bits8_len3 b0 b1 b2 : length (bits8 b0 ++ bits8 b1 ++ bits8 b2) = 24%nat.
Proof. now rewrite !length_app, !bits8_length. Qed.

Lemma ref_encode_cons3 b0 b1 b2 rest :
  is_byte b0 -> is_byte b1 -> is_byte b2 ->
  let n := group3 b0 b1 b2 in
  ref_encode (b0 :: b1 :: b2 :: rest) =
  String (sextet n 18) (String (sextet n 12) (String (sextet n 6) (String (sextet n 0)
    (ref_encode rest)))).
Proof.
  intros H0 H1 H2 n. unfold ref_encode. cbn [flat_map length]. rewrite padding_add3.
  pose proof (bits8_len3 b0 b1 b2) as HL. rewrite !app_assoc, <- (app_assoc (bits8 b0)) in *.
  set (L := bits8 b0 ++ bits8 b1 ++ bits8 b2) in *. set (R := flat_map bits8 rest).
  rewrite length_app, HL. change (24 + length R)%nat with (S (S (S (S (20 + length R))))).
  rewrite sextets_take by lia.
  rewrite sextets_take by (rewrite length_skipn; lia).
  rewrite sextets_take by (rewrite !length_skipn; lia).
  rewrite sextets_take by (rewrite !length_skipn; lia).
  rewrite !skipn_skipn.
  replace (skipn (6 + (6 + (6 + 6))) L) with (@nil bool) by (symmetry; apply skipn_all2; lia).
  rewrite app_nil_l, (sextets_fuel (20 + length R) (length R)) by lia.
  cbn [map app string_of_list_ascii]. unfold n. rewrite <- (bits3_value b0 b1 b2) by assumption.
  fold L. change (firstn 6 L) with (firstn 6 (skipn 0 L)).
  rewrite !(chunk_sextet L) by lia. reflexivity.
Qed.

Lemma ref_encode_two b0 b1 :
  is_byte b0 -> is_byte b1 ->
  let n := group3 b0 b1 0 in
  ref_encode [b0; b1] =
  String (sextet n 18) (String (sextet n 12) (String (sextet n 6) (String pad EmptyString))).
Proof.
  intros H0 H1 n. unfold ref_encode. cbn [flat_map length]. change (padding 2) with 1%nat.
  rewrite app_nil_r. set (L := bits8 b0 ++ bits8 b1).
  assert (HL : length L = 16%nat) by (unfold L; now rewrite length_app, !bits8_length).
  assert (HV : bits_value (L ++ repeat false 8) = n).
  { unfold n, L. rewrite <- bits8_zero, <- app_assoc. apply bits3_value; unfold is_byte in *; lia. }
  rewrite HL, <- (app_nil_r L). change 16%nat with (S (S 14)).
  rewrite sextets_take by lia. rewrite sextets_take by (rewrite length_skipn; lia).
  rewrite skipn_skipn, !app_nil_r, sextets_last by (rewrite length_skipn; lia).
  change (6 + 6)%nat with 12%nat. change (firstn 6 L) with (firstn 6 (skipn 0 L)).
  rewrite (chunk_zeros L 12 5 8), <- (chunk_app L (repeat false 8) 0),
    <- (chunk_app L (repeat false 8) 6) by lia.
  cbn [map app string_of_list_ascii].
  rewrite !(chunk_sextet (L ++ repeat false 8)) by (rewrite ?length_app, ?HL; reflexivity || lia).
  now rewrite HV.
Qed.

Lemma ref_encode_one b0 :
  is_byte b0 ->
  let n := group3 b0 0 0 in
  ref_encode [b0] = String (sextet n 18) (String (sextet n 12) (String pad (String pad EmptyString))).
Proof.
  intros H0 n. unfold ref_encode. cbn [flat_map length]. change (padding 1) with 2%nat.
  rewrite app_nil_r. set (L := bits8 b0).
  assert (HL : length L = 8%nat) by apply bits8_length.
  assert (HV : bits_value (L ++ repeat false 16) = n).
  { unfold n, L. change (repeat false 16) with (bits8 0 ++ bits8 0).
    apply bits3_value; unfold is_byte in *; lia. }
  rewrite HL, <- (app_nil_r L). change 8%nat with (S 7).
  rewrite sextets_take by lia.
  rewrite !app_nil_r, sextets_last by (rewrite length_skipn; lia).
  change (firstn 6 L) with (firstn 6 (skipn 0 L)).
  rewrite (chunk_zeros L 6 5 16), <- (chunk_app L (repeat false 16) 0) by lia.
  cbn [map app string_of_list_ascii].
  rewrite !(chunk_sextet (L ++ repeat false 16)) by (rewrite ?length_app, ?HL; reflexivity || lia).
  now rewrite HV.
Qed.

Lemma encode_reference_le k bs :
  (length bs <= k)%nat -> Forall is_byte bs -> b64_encode bs = ref_encode bs.
Proof.
  revert bs. induction k as [|k IH]; intros bs Hlen Hb.
  - destruct bs; [reflexivity|cbn in Hlen; lia].
  - destruct bs as [|b0 [|b1 [|b2 rest]]]; [reflexivity| | |].
    + inversion_clear Hb as [|? ? X0 T1]. now rewrite ref_encode_one.
    + inversion_clear Hb as [|? ? X0 T1]. inversion_clear T1 as [|? ? X1 T2].
      now rewrite ref_encode_two.
    + inversion_clear Hb as [|? ? X0 T1]. inversion_clear T1 as [|? ? X1 T2].
      inversion_clear T2 as [|? ? X2 T3].
      rewrite ref_encode_cons3 by assumption. cbn [b64_encode].
      rewrite (IH rest) by (cbn in Hlen; lia || assumption). reflexivity.
Qed.

(** ** The form of the output *)

Lemma padding_spec n : padding n = ((3 - n mod 3) mod 3)%nat.
Proof.
  unfold padding. pose proof (Nat.mod_upper_bound n 3 ltac:(lia)).
  destruct (n mod 3)%nat as [|[|[|k]]]; reflexivity || lia.
Qed.

Lemma sextets_of_bits_range f bs : Forall (fun v => 0 <= v < 64) (sextets_of_bits f bs).
Proof.
  revert bs. induction f as [|f IH]; intros [|b bs]; constructor; [|apply IH].
  pose proof (bits_value_bound (firstn 6 ((b :: bs) ++ repeat false 5))) as Hv.
  rewrite length_firstn in Hv.
  assert (Hp : 2 ^ Z.of_nat (Nat.min 6 (length ((b :: bs) ++ repeat false 5))) <= 64).
  { change 64 with (2 ^ Z.of_nat 6). apply Z.pow_le_mono_r; lia. }
  lia.
Qed.

Lemma alphabet_ok_true : alphabet_ok = true.
Proof. vm_compute. reflexivity. Qed.

Lemma in_alphabet_char k : 0 <= k < 64 -> in_alphabet (b64_char k) = true.
Proof.
  intros Hk. pose proof alphabet_ok_true as Hall. unfold alphabet_ok in Hall.
  rewrite forallb_forall in Hall. apply Hall, in_map_iff. exists (Z.to_nat k).
  split; [lia|]. apply in_seq. lia.
Qed.

Lemma in_alphabet_chars vs : Forall (fun v => 0 <= v < 64) vs -> forallb in_alphabet (map b64_char vs) = true.
Proof. induction 1; cbn; [reflexivity|]. now rewrite in_alphabet_char, IHForall. Qed.

(** ** The encoder of [writeFile] *)

(** C11: equivalence with the reference.  On every list of bytes, the
  encoder of [new Buffer(fileContents).toString('base64')] (three bytes
  packed with shifts and ors, cut with shifts and masks) is the textbook
  encoder: the bytes as one stream of bits, read six at a time with zero
  bits completing the last group, then '=' up to a multiple of four. *)
Theorem b64_encode_reference bs : Forall is_byte bs -> b64_encode bs = ref_encode bs.
Proof. intros Hb. now apply (encode_reference_le (length bs)). Qed.

(** C13: the form of the content [writeFile] sends.  The encoding of [n]
  bytes is [4 * ceil(n / 3)] characters: characters of the standard
  alphabet (never '-', '_' or '=') followed by [(3 - n mod 3) mod 3]
  padding characters '='. *)
Theorem b64_encode_wellformed bs :
  Forall is_byte bs ->
  exists cs, b64_encode bs = string_of_list_ascii (cs ++ repeat pad ((3 - length bs mod 3) mod 3)) /\
             forallb in_alphabet cs = true /\
             String.length (b64_encode bs) = (4 * ((length bs + 2) / 3))%nat.
Proof.
  intros Hb. pose proof (b64_encode_length bs) as Hl.
  rewrite (encode_reference_le (length bs)) in * by auto. unfold ref_encode in *.
  eexists. split; [rewrite padding_spec; reflexivity|]. split; [|exact Hl].
  apply in_alphabet_chars, sextets_of_bits_range.
Qed.

End Base64SpecFacts.

Module Base64SpecWitnesses.
Import Base64 Base64Spec Base64SpecFacts.

Lemma sample_bytes : Forall is_byte [77; 97; 110; 105].
Proof. repeat constructor; unfold is_byte; lia. Qed.

Lemma b64_encode_reference_witness :
  Forall is_byte [77; 97; 110; 105] /\ b64_encode [77; 97; 110; 105] = ref_encode [77; 97; 110; 105].
Proof. split; [exact sample_bytes|]. apply b64_encode_reference. exact sample_bytes. Defined.

Lemma b64_encode_wellformed_witness :
  Forall is_byte [77; 97; 110; 105] /\
  exists cs, b64_encode [77; 97; 110; 105] =
               string_of_list_ascii (cs ++ repeat pad ((3 - length [77; 97; 110; 105] mod 3) mod 3)) /\
             forallb in_alphabet cs = true /\
             String.length (b64_encode [77; 97; 110; 105]) = (4 * ((length [77; 97; 110; 105] + 2) / 3))%nat.
Proof. split; [exact sample_bytes|]. apply b64_encode_wellformed. exact sample_bytes. Defined.

End Base64SpecWitnesses.
