(* ===== verification/GithubV1.v ===== *)
(** * The first GitHub client: src/src/github.js

    The module keeps one mutable object, [config] (initially [{}]), that
    [init] fills with the token, the repository, the base branch, the owner
    ([userName]) and, once the refs are fetched, the base branch's SHA.  Every
    other operation reads it and issues one [gh-got] request.

    The model threads [config] explicitly: an operation takes the current
    [config] (an ordered property list) and is a [js] program; [init]
    returns the updated [config].  (Its promise resolves to [undefined] in
    JavaScript: the model's result is the module state after [init], not a
    value the caller can observe.)  Template literals read the fields with
    [String(v)], so a field that was never set prints as "undefined", as in
    JavaScript.  The [.then] callback of [init] iterates the refs with
    [forEach] inside the [.catch]: [scan_refs] stops at the first failing
    property read, keeps what it had assigned so far, and the error is
    swallowed.

    [getFileContents] and [writeFile] (base64 transport) are in
    GithubFiles.v, over the model of Base64.v. *)

From Stdlib Require Import String Ascii List ZArith Lia Bool.
From S2P Require Import Prelude Js Http.
Import ListNotations.
Local Open Scope list_scope.
Local Open Scope string_scope.

Module GithubV1.

(** [config.k] *)
Definition field (cfg : obj) (k : string) : jval := prop_or_undef cfg k.

(** [`repos/${config.repoName}` + suffix] *)
Definition repo_path (cfg : obj) (suffix : string) : string :=
  "repos/" ++ to_string (field cfg "repoName") ++ suffix.

(** [{ token: config.token }] *)
Definition token_opts (cfg : obj) : jval := JObj [("token", field cfg "token")].

(** [{ token: config.token, body }] *)
Definition body_opts (cfg : obj) (body : jval) : jval :=
  JObj [("token", field cfg "token"); ("body", body)].

(** The [.then] callback of [init]: [res.body.forEach(...)] assigning
  [config.baseSHA = branch.object.sha] for the ref of the base branch.  A
  failing read stops the iteration; the assignments before it stay. *)
Fixpoint scan_branches (cfg : obj) (branches : list jval) : obj :=
  match branches with
  | [] => cfg
  | branch :: rest =>
      match get_prop branch "ref" with
      | inr _ => cfg
      | inl r =>
          if strict_eq r (JStr ("refs/heads/" ++ to_string (field cfg "baseBranch")))
          then match get_prop branch "object" with
               | inr _ => cfg
               | inl o => match get_prop o "sha" with
                          | inr _ => cfg
                          | inl sha => scan_branches (obj_set cfg "baseSHA" sha) rest
                          end
               end
          else scan_branches cfg rest
      end
  end.

Definition scan_refs (cfg : obj) (res : jval) : obj :=
  match get_prop res "body" with
  | inl (JArr branches) => scan_branches cfg branches
  | _ => cfg
  end.

(** [init(token, repoName, baseBranch, verbose = false)]: set the fields,
  then fetch the refs; any failure is logged and swallowed, and the
  promise resolves to [undefined]. *)
Definition init_fields (token : jval) (repoName baseBranch : string) (verbose : jval)
           (cfg : obj) : obj :=
  let cfg := obj_set cfg "token" token in
  let cfg := obj_set cfg "repoName" (JStr repoName) in
  let cfg := obj_set cfg "baseBranch" (JStr baseBranch) in
  let cfg := obj_set cfg "verbose" (match verbose with JUndef => JBool false | v => v end) in
  obj_set cfg "userName" (JStr (split_before "/" repoName)).

Definition init (token : jval) (repoName baseBranch : string) (verbose : jval) (cfg : obj)
  : js obj :=
  let cfg := init_fields token repoName baseBranch verbose cfg in
  Call (mkReq GET (repo_path cfg "/git/refs/head") (token_opts cfg))
       (fun o => match o with
                 | Resolved res => Ret (scan_refs cfg res)
                 | Rejected _ => Ret cfg
                 end).

Definition createBranch (branchName : string) (cfg : obj) : js jval :=
  gh_got POST (repo_path cfg "/git/refs")
    (body_opts cfg (JObj [("ref", JStr ("refs/heads/" ++ branchName));
                          ("sha", field cfg "baseSHA")])).

Definition createPr (branchName : string) (title body : jval) (cfg : obj) : js jval :=
  gh_got POST (repo_path cfg "/pulls")
    (body_opts cfg (JObj [("title", title); ("head", JStr branchName);
                          ("base", field cfg "baseBranch"); ("body", body)])).

(** [`${config.userName}:${branchName}`] *)
Definition head_label (cfg : obj) (branchName : string) : string :=
  to_string (field cfg "userName") ++ ":" ++ branchName.

(** [res.body.some(pr => pr.title === prTitle && pr.head.label === label)] *)
Fixpoint some_closed (prTitle : jval) (label : string) (prs : list jval) : jval + jval :=
  match prs with
  | [] => inl (JBool false)
  | pr :: rest =>
      match get_prop pr "title" with
      | inr e => inr e
      | inl t =>
          if strict_eq t prTitle then
            match get_prop pr "head" with
            | inr e => inr e
            | inl h =>
                match get_prop h "label" with
                | inr e => inr e
                | inl l => if strict_eq l (JStr label) then inl (JBool true)
                           else some_closed prTitle label rest
                end
            end
          else some_closed prTitle label rest
      end
  end.

(** [checkForClosedPr(branchName, prTitle)]: errors are logged and the
  promise resolves to [undefined]. *)
Definition checkForClosedPr (branchName : string) (prTitle : jval) (cfg : obj) : js jval :=
  catch
    (res <- gh_got GET (repo_path cfg ("/pulls?state=closed&head=" ++ head_label cfg branchName))
                   (token_opts cfg) ;;
     body <- prop res "body" ;;
     match body with
     | JArr prs => lift (some_closed prTitle (head_label cfg branchName) prs)
     | _ => Throw (type_error "res.body.some is not a function")
     end)%prog
    (fun _ => Ret JUndef).

(** [getFile(filePath, branchName)]: [branchName || config.baseBranch]. *)
Definition getFile (filePath : string) (branchName : jval) (cfg : obj) : js jval :=
  let branch := if truthy branchName then branchName else field cfg "baseBranch" in
  gh_got GET (repo_path cfg ("/contents/" ++ filePath ++ "?ref=" ++ to_string branch))
    (token_opts cfg).

(** [getPr(branchName)]: the first open PR from the branch, or [null]. *)
Definition getPr (branchName : string) (cfg : obj) : js jval :=
  (res <- gh_got GET (repo_path cfg ("/pulls?state=open&base=" ++ to_string (field cfg "baseBranch")
                                     ++ "&head=" ++ head_label cfg branchName))
                 (token_opts cfg) ;;
   body <- prop res "body" ;;
   len <- prop body "length" ;;
   if truthy len then lift (get_index body 0) else Ret JNull)%prog.

Definition updatePr (prNo : jval) (title body : jval) (cfg : obj) : js jval :=
  gh_got PATCH (repo_path cfg ("/pulls/" ++ to_string prNo))
    (body_opts cfg (JObj [("title", title); ("body", body)])).

End GithubV1.

Module GithubV1Facts.
Import GithubV1.

(** The shape of a ref in GitHub's answer: [{ ref, object: { sha } }]. *)
Definition ref_entry (rs : string * string) : jval :=
  JObj [("ref", JStr (fst rs)); ("object", JObj [("sha", JStr (snd rs))])].

(** The SHA of the last ref named [name]. *)
Fixpoint last_sha (name : string) (refs : list (string * string)) : option string :=
  match refs with
  | [] => None
  | (r, s) :: rest =>
      match last_sha name rest with
      | Some x => Some x
      | None => if String.eqb r name then Some s else None
      end
  end.

Lemma field_set_eq cfg k v : field (obj_set cfg k v) k = v.
Proof. unfold field, prop_or_undef. now rewrite obj_get_set_eq. Qed.

Lemma field_set_ne cfg k k' v : k <> k' -> field (obj_set cfg k v) k' = field cfg k'.
Proof. intros H. unfold field, prop_or_undef. now rewrite obj_get_set_ne. Qed.

#[export] Hint Rewrite field_set_eq : renovate_run.

Ltac field_simpl :=
  repeat first [ rewrite field_set_eq | rewrite field_set_ne by discriminate ].

Section InitFields.
Variables (token verbose : jval) (repoName baseBranch : string) (cfg : obj).
Let cfg5 := init_fields token repoName baseBranch verbose cfg.

Lemma init_fields_token : field cfg5 "token" = token.
Proof. unfold cfg5, init_fields. now field_simpl. Qed.

Lemma init_fields_repoName : field cfg5 "repoName" = JStr repoName.
Proof. unfold cfg5, init_fields. now field_simpl. Qed.

Lemma init_fields_baseBranch : field cfg5 "baseBranch" = JStr baseBranch.
Proof. unfold cfg5, init_fields. now field_simpl. Qed.

Lemma init_fields_userName : field cfg5 "userName" = JStr (split_before "/" repoName).
Proof. unfold cfg5, init_fields. now field_simpl. Qed.

Lemma init_fields_other k :
  k <> "token" -> k <> "repoName" -> k <> "baseBranch" -> k <> "verbose" ->
  k <> "userName" -> field cfg5 k = field cfg k.
Proof.
  intros. unfold cfg5, init_fields. rewrite !field_set_ne by congruence. reflexivity.
Qed.
End InitFields.

#[export] Hint Rewrite init_fields_token init_fields_repoName init_fields_baseBranch
  init_fields_userName : renovate_run.

(** The request [init] issues. *)
Definition init_req (token : jval) (repoName : string) : request :=
  mkReq GET ("repos/" ++ repoName ++ "/git/refs/head") (JObj [("token", token)]).

Lemma init_request token repoName baseBranch verbose cfg :
  mkReq GET (repo_path (init_fields token repoName baseBranch verbose cfg) "/git/refs/head")
        (token_opts (init_fields token repoName baseBranch verbose cfg)) =
  init_req token repoName.
Proof.
  unfold repo_path, token_opts. now rewrite init_fields_repoName, init_fields_token.
Qed.

Lemma run_init {E} `{Responder request outcome E} token repoName baseBranch verbose cfg (e : E) :
  run (init token repoName baseBranch verbose cfg) e =
    let cfg5 := init_fields token repoName baseBranch verbose cfg in
    let '(o, e1) := respond (init_req token repoName) e in
    match o with
    | Resolved res => (Done (scan_refs cfg5 res), e1, [init_req token repoName])
    | Rejected _ => (Done cfg5, e1, [init_req token repoName])
    end.
Proof.
  unfold init. cbv zeta. rewrite init_request. cbn [run].
  destruct (respond (init_req token repoName) e) as [[v|x] e1]; reflexivity.
Qed.

Lemma scan_refs_body cfg branches :
  scan_refs cfg (body_only (JArr branches)) = scan_branches cfg branches.
Proof. reflexivity. Qed.

Lemma trace_gh_got {E} `{Responder request outcome E} m url opts (e : E) :
  trace_of (gh_got m url opts) e = [mkReq m url opts].
Proof. unfold trace_of. rewrite run_gh_got. destruct (respond _ e) as [[v|x] e1]; reflexivity. Qed.

(** The shape of a pull request in GitHub's answer, as far as
  [checkForClosedPr] reads it: [{ title, head: { label } }]. *)
Definition pr_entry (tl : string * string) : jval :=
  JObj [("title", JStr (fst tl)); ("head", JObj [("label", JStr (snd tl))])].

Lemma some_closed_cons title label t l rest :
  some_closed (JStr title) label (pr_entry (t, l) :: rest) =
    if String.eqb t title then
      if String.eqb l label then inl (JBool true) else some_closed (JStr title) label rest
    else some_closed (JStr title) label rest.
Proof. reflexivity. Qed.

Lemma some_closed_entries title label prs :
  some_closed (JStr title) label (map pr_entry prs) =
    inl (JBool (existsb (fun p => String.eqb (fst p) title && String.eqb (snd p) label) prs)).
Proof.
  induction prs as [|[t l] prs IH]; [reflexivity|].
  change (some_closed (JStr title) label (pr_entry (t, l) :: map pr_entry prs) =
          inl (JBool ((String.eqb t title && String.eqb l label) ||
                      existsb (fun p => String.eqb (fst p) title && String.eqb (snd p) label) prs))).
  rewrite some_closed_cons.
  destruct (String.eqb t title); [|exact IH]. destruct (String.eqb l label); [reflexivity|exact IH].
Qed.

Lemma scan_branches_cons cfg r s rest :
  scan_branches cfg (ref_entry (r, s) :: rest) =
    if String.eqb r ("refs/heads/" ++ to_string (field cfg "baseBranch"))
    then scan_branches (obj_set cfg "baseSHA" (JStr s)) rest
    else scan_branches cfg rest.
Proof. reflexivity. Qed.

(** Scanning well-formed refs: [baseSHA] ends as the SHA of the last ref of
  the base branch, or stays as it was; no other field changes. *)
Lemma scan_branches_refs cfg base refs k :
  field cfg "baseBranch" = JStr base ->
  field (scan_branches cfg (map ref_entry refs)) k =
    if String.eqb k "baseSHA" then
      match last_sha ("refs/heads/" ++ base) refs with
      | Some s => JStr s
      | None => field cfg "baseSHA"
      end
    else field cfg k.
Proof.
  revert cfg. induction refs as [|[r s] refs IH]; intros cfg Hb.
  - simpl. destruct (String.eqb_spec k "baseSHA") as [->|]; reflexivity.
  - cbn [map]. rewrite scan_branches_cons, Hb. cbn [to_string last_sha].
    destruct (String.eqb_spec r ("refs/heads/" ++ base)) as [->|Hne].
    + rewrite IH by (rewrite field_set_ne by discriminate; exact Hb).
      destruct (String.eqb_spec k "baseSHA") as [Hk|Hk].
      * rewrite field_set_eq.
        now destruct (last_sha _ refs).
      * now rewrite field_set_ne by congruence.
    + rewrite IH by exact Hb.
      destruct (String.eqb k "baseSHA"); [now destruct (last_sha _ refs)|reflexivity].
Qed.
End GithubV1Facts.

Module GithubV1Theorems.
Import GithubV1 GithubV1Facts.

Section Client.
Context {E : Type} `{Responder request outcome E}.

(** C9: [init] fills [config] from its arguments (token, repository, base
    branch, owner = the part of the repository name before '/') and, when
    GitHub lists the refs, sets [baseSHA] to the SHA of the last ref
    [refs/heads/<baseBranch>], keeping the previous [baseSHA] when there is
    none; it issues exactly one request. *)
Theorem init_base_sha token repoName baseBranch verbose cfg refs (e e' : E) :
  respond (init_req token repoName) e = (Resolved (body_only (JArr (map ref_entry refs))), e') ->
  exists cfg', run (init token repoName baseBranch verbose cfg) e =
               (Done cfg', e', [init_req token repoName]) /\
  field cfg' "baseSHA" =
    match last_sha ("refs/heads/" ++ baseBranch) refs with
    | Some s => JStr s
    | None => field cfg "baseSHA"
    end /\
  field cfg' "token" = token /\ field cfg' "repoName" = JStr repoName /\
  field cfg' "baseBranch" = JStr baseBranch /\
  field cfg' "userName" = JStr (split_before "/" repoName).
Proof.
  intros Hr. rewrite run_init, Hr. cbv zeta. eexists. split; [reflexivity|].
  rewrite scan_refs_body.
  pose proof (init_fields_baseBranch token verbose repoName baseBranch cfg) as Hb.
  rewrite !(scan_branches_refs _ baseBranch refs) by exact Hb. cbn [String.eqb].
  rewrite init_fields_other by discriminate.
  autorewrite with renovate_run. repeat split.
Qed.

(** C25: [init] never rejects: whatever GitHub answers, it resolves after
    one request, and on a failed request [config] keeps only the fields set
    from the arguments (the error is logged and swallowed). *)
Theorem init_never_rejects token repoName baseBranch verbose cfg (e : E) :
  exists cfg' e', run (init token repoName baseBranch verbose cfg) e =
                  (Done cfg', e', [init_req token repoName]) /\
  forall x e1, respond (init_req token repoName) e = (Rejected x, e1) ->
               cfg' = init_fields token repoName baseBranch verbose cfg.
Proof.
  rewrite run_init. cbv zeta.
  destruct (respond (init_req token repoName) e) as [[v|x] e1] eqn:Hr;
  eexists _, _; (split; [reflexivity|]); intros x' e2 Hx; congruence.
Qed.

(** C26: [config] is shared between repositories: when the refs of a second
    repository have no ref for the base branch, [init] keeps the
    [baseSHA] of the previous repository, and [createBranch] then asks
    GitHub to create the branch in the second repository at that foreign
    commit. *)
Theorem init_keeps_stale_sha token repoName baseBranch verbose cfg refs branch (e e' e'' : E) :
  respond (init_req token repoName) e = (Resolved (body_only (JArr (map ref_entry refs))), e') ->
  last_sha ("refs/heads/" ++ baseBranch) refs = None ->
  exists cfg', run (init token repoName baseBranch verbose cfg) e =
               (Done cfg', e', [init_req token repoName]) /\
  trace_of (createBranch branch cfg') e'' =
    [mkReq POST ("repos/" ++ repoName ++ "/git/refs")
       (JObj [("token", token);
              ("body", JObj [("ref", JStr ("refs/heads/" ++ branch));
                             ("sha", field cfg "baseSHA")])])].
Proof.
  intros Hr Hnone.
  destruct (init_base_sha token repoName baseBranch verbose cfg refs e e' Hr)
  as (cfg' & Hrun & Hsha & Htok & Hrepo & _).
  exists cfg'. split; [exact Hrun|]. unfold createBranch. rewrite trace_gh_got.
  unfold repo_path, body_opts. rewrite Hsha, Hnone, Htok, Hrepo. reflexivity.
Qed.

(** C27: [checkForClosedPr] answers whether GitHub lists a PR with exactly
    the given title whose head label is exactly [<owner>:<branch>]. *)
Theorem checkForClosedPr_some branchName title cfg prs (e e' : E) :
  let q := mkReq GET (repo_path cfg ("/pulls?state=closed&head=" ++ head_label cfg branchName))
               (token_opts cfg) in
  respond q e = (Resolved (body_only (JArr (map pr_entry prs))), e') ->
  run (checkForClosedPr branchName (JStr title) cfg) e =
  (Done (JBool (existsb (fun p => String.eqb (fst p) title &&
                                  String.eqb (snd p) (head_label cfg branchName)) prs)),
   e', [q]).
Proof.
  intros q Hr. unfold checkForClosedPr. rewrite run_catch, run_bind, run_gh_got.
  fold q. rewrite Hr. cbn -[some_closed map head_label].
  rewrite some_closed_entries. reflexivity.
Qed.

(** C32: when the request fails, [checkForClosedPr] does not reject and
    does not answer [false]: it resolves to [undefined]. *)
Theorem checkForClosedPr_undefined_on_error branchName title cfg x (e e' : E) :
  let q := mkReq GET (repo_path cfg ("/pulls?state=closed&head=" ++ head_label cfg branchName))
               (token_opts cfg) in
  respond q e = (Rejected x, e') ->
  run (checkForClosedPr branchName title cfg) e = (Done JUndef, e', [q]).
Proof.
  intros q Hr. unfold checkForClosedPr. rewrite run_catch, run_bind, run_gh_got.
  fold q. rewrite Hr. reflexivity.
Qed.

(** [getFile] without a branch ([undefined], [null] or the empty
    string) reads the file on the base branch of [config]. *)
Theorem getFile_default_branch filePath branchName cfg (e : E) :
  branchName = JUndef \/ branchName = JNull \/ branchName = JStr "" ->
  trace_of (getFile filePath branchName cfg) e =
  [mkReq GET (repo_path cfg ("/contents/" ++ filePath ++ "?ref=" ++
                             to_string (field cfg "baseBranch")))
         (token_opts cfg)].
Proof.
  intros Hb. unfold getFile. rewrite trace_gh_got.
  destruct Hb as [->|[->| ->]]; reflexivity.
Qed.

(** C28: [getPr] resolves to the first pull request GitHub lists for the
    branch, or to [null] when the list is empty. *)
Theorem getPr_first branchName cfg prs (e e' : E) :
  let q := mkReq GET (repo_path cfg ("/pulls?state=open&base=" ++
                                    to_string (field cfg "baseBranch") ++
                                    "&head=" ++ head_label cfg branchName))
               (token_opts cfg) in
  respond q e = (Resolved (body_only (JArr prs)), e') ->
  run (getPr branchName cfg) e = (Done (match prs with [] => JNull | p :: _ => p end), e', [q]).
Proof.
  intros q Hr. unfold getPr. rewrite run_bind, run_gh_got. fold q. rewrite Hr.
  destruct prs as [|p prs]; reflexivity.
Qed.
End Client.

End GithubV1Theorems.

(** ** Witnesses *)

Module GithubV1Witnesses.
Import GithubV1 GithubV1Facts GithubV1Theorems.

Definition sample_refs : list (string * string) :=
  [("refs/heads/master", "1234"); ("refs/heads/renovate/foo", "9999")].

Lemma init_base_sha_witness :
  exists cfg', run (init (JStr "tok") "theowner/repo" "master" JUndef [])
                   (get_queue [Resolved (body_only (JArr (map ref_entry sample_refs)))]) =
                 (Done cfg', get_queue [], [init_req (JStr "tok") "theowner/repo"]) /\
    field cfg' "baseSHA" = JStr "1234" /\ field cfg' "token" = JStr "tok" /\
    field cfg' "repoName" = JStr "theowner/repo" /\ field cfg' "baseBranch" = JStr "master" /\
    field cfg' "userName" = JStr "theowner".
Proof.
  exact (init_base_sha (JStr "tok") "theowner/repo" "master" JUndef [] sample_refs
           (get_queue [Resolved (body_only (JArr (map ref_entry sample_refs)))])
           (get_queue []) eq_refl).
Defined.

Lemma init_keeps_stale_sha_witness :
  exists cfg', run (init (JStr "tok") "other/repo" "master" JUndef [("baseSHA", JStr "1234")])
                   (get_queue [Resolved (body_only (JArr (map ref_entry [("refs/heads/dev", "5678")])))]) =
                 (Done cfg', get_queue [], [init_req (JStr "tok") "other/repo"]) /\
    trace_of (createBranch "renovate/foo" cfg') no_mocks =
      [mkReq POST ("repos/" ++ "other/repo" ++ "/git/refs")
         (JObj [("token", JStr "tok");
                ("body", JObj [("ref", JStr ("refs/heads/" ++ "renovate/foo"));
                               ("sha", JStr "1234")])])].
Proof.
  exact (init_keeps_stale_sha (JStr "tok") "other/repo" "master" JUndef [("baseSHA", JStr "1234")]
           [("refs/heads/dev", "5678")] "renovate/foo" _ (get_queue []) no_mocks eq_refl eq_refl).
Defined.

Definition sample_cfg : obj :=
  Eval vm_compute in init_fields (JStr "tok") "theowner/repo" "master" JUndef [].

Lemma checkForClosedPr_some_witness :
  run (checkForClosedPr "some-branch" (JStr "foo") sample_cfg)
      (get_queue [Resolved (body_only (JArr (map pr_entry
         [("foo", "theowner:some-branch"); ("bar", "theowner:some-other-branch")])))]) =
    (Done (JBool true), get_queue [],
     [mkReq GET (repo_path sample_cfg ("/pulls?state=closed&head=" ++
                                       head_label sample_cfg "some-branch"))
            (token_opts sample_cfg)]).
Proof. exact (checkForClosedPr_some "some-branch" "foo" sample_cfg _ _ (get_queue []) eq_refl). Defined.

Lemma checkForClosedPr_undefined_on_error_witness :
  run (checkForClosedPr "some-branch" (JStr "foo") sample_cfg)
      (get_queue [Rejected (http_error 500 None)]) =
    (Done JUndef, get_queue [],
     [mkReq GET (repo_path sample_cfg ("/pulls?state=closed&head=" ++
                                       head_label sample_cfg "some-branch"))
            (token_opts sample_cfg)]).
Proof.
  exact (checkForClosedPr_undefined_on_error "some-branch" (JStr "foo") sample_cfg
           (http_error 500 None) _ (get_queue []) eq_refl).
Defined.

Lemma getFile_default_branch_witness :
  trace_of (getFile "package.json" JUndef sample_cfg) no_mocks =
    [mkReq GET (repo_path sample_cfg ("/contents/" ++ "package.json" ++ "?ref=" ++
                                      to_string (field sample_cfg "baseBranch")))
           (token_opts sample_cfg)].
Proof. apply getFile_default_branch. left. reflexivity. Defined.

Lemma getPr_first_witness :
  run (getPr "somebranch" sample_cfg)
      (get_queue [Resolved (body_only (JArr [JObj [("number", JNum 91)]]))]) =
    (Done (JObj [("number", JNum 91)]), get_queue [],
     [mkReq GET (repo_path sample_cfg ("/pulls?state=open&base=" ++
                                       to_string (field sample_cfg "baseBranch") ++
                                       "&head=" ++ head_label sample_cfg "somebranch"))
            (token_opts sample_cfg)]).
Proof. exact (getPr_first "somebranch" sample_cfg _ _ (get_queue []) eq_refl). Defined.
End GithubV1Witnesses.
