(* ===== verification/GithubFiles.v ===== *)
(** * File contents through the first GitHub client (src/src/github.js)

    [getFileContents(filePath, branchName)] reads a file with [getFile],
    decodes [res.body.content] from base64 with Node's [Buffer] and parses
    the text with [JSON.parse]; [writeFile(branchName, oldFileSHA, filePath,
    fileContents, message)] PUTs the base64 encoding of the text to the
    contents endpoint.  [buffer_from] is Node 8's [new Buffer(v,
    encoding)] on the values the client can pass it (with ['base64'] in
    [getFileContents], without an encoding in [writeFile]).  [JSON.parse]
    is an interface, the class [JsonParse]: the theorems hold for any
    parser.

    [contents_respond] (the [Responder] of [host]) is a model of GitHub's
    contents store, used as the
    environment of the round-trip theorem: a PUT stores the content under
    the file's URL and branch, wrapped at 60 columns as GitHub returns it; a
    GET answers the stored content or a 404. *)

From Stdlib Require Import String Ascii List ZArith Lia Bool.
From S2P Require Import Prelude Js Http Base64 GithubV1.
Import ListNotations.
Local Open Scope list_scope.
Local Open Scope string_scope.

(** [JSON.parse(text)]: the value, or the thrown [SyntaxError]. *)
Class JsonParse := json_parse : string -> jval + jval.

Module GithubFiles.
Import Base64 GithubV1.

(** A string between double quotes. *)
Definition quote (s : string) : string := String "034"%char (s ++ String "034"%char EmptyString).

Definition from_error_msg : string :=
  "First argument must be a string, Buffer, ArrayBuffer, Array, or array-like object.".

(** The decoder of the encoding argument: the client passes ['base64'] or
  nothing (UTF-8). *)
Definition decoder (encoding : option string) : string -> list Z :=
  match encoding with Some "base64" => b64_decode | _ => bytes_of_string end.

(** An element of an array-like stored into a [Uint8Array]: a number
  modulo 256; anything else converts to [NaN], stored as 0 (numeric
  strings, which convert to their number, are not distinguished). *)
Definition byte_of (x : jval) : Z := match x with JNum n => Z.land n 255 | _ => 0%Z end.

(** [fromArrayLike(obj)]: [obj[0] .. obj[obj.length - 1]], none when the
  length is negative. *)
Definition array_like (ps : obj) (n : Z) : list Z :=
  map (fun i => byte_of (prop_or_undef ps (string_of_nat i))) (seq 0 (Z.to_nat n)).

(** [fromObject(obj)] on a plain object: an array-like when [obj.length] is
  defined (empty when it is not a number), a serialised buffer
  [{type: 'Buffer', data: [...]}], anything else a [TypeError]. *)
Definition from_object (ps : obj) : list Z + jval :=
  match obj_get ps "length" with
  | Some (JNum n) => inl (array_like ps n)
  | None | Some JUndef =>
      match obj_get ps "type", obj_get ps "data" with
      | Some (JStr "Buffer"), Some (JArr xs) => inl (map byte_of xs)
      | _, _ => inr (type_error from_error_msg)
      end
  | Some _ => inl []
  end.

(** [new Buffer(v, encoding)] (Node 8): a number with an encoding throws;
  without one it allocates that many zero bytes ([RangeError] when
  negative); a string is decoded; an array or array-like object takes its
  elements modulo 256; [null], [undefined] and booleans throw a
  [TypeError]. *)
Definition buffer_from (encoding : option string) (v : jval) : list Z + jval :=
  match v with
  | JStr s => inl (decoder encoding s)
  | JNum n =>
      match encoding with
      | Some _ => inr (error_obj "If encoding is specified then the first argument must be a string")
      | None =>
          if (0 <=? n)%Z then inl (repeat 0%Z (Z.to_nat n))
          else inr (JObj [("name", JStr "RangeError");
                          ("message", JStr (quote "size" ++ " argument must not be negative"))])
      end
  | JArr xs => inl (map byte_of xs)
  | JObj ps => from_object ps
  | _ => inr (type_error from_error_msg)
  end.

Definition lift_buffer (r : list Z + jval) : js (list Z) :=
  match r with inl bs => Ret bs | inr e => Throw e end.

Section Files.
Context `{JsonParse}.

(** [getFileContents(filePath, branchName)] *)
Definition getFileContents (filePath : string) (branchName : jval) (cfg : obj) : js jval :=
  (res <- getFile filePath branchName cfg ;;
  body <- prop res "body" ;;
  content <- prop body "content" ;;
  bytes <- lift_buffer (buffer_from (Some "base64") content) ;;
  lift (json_parse (string_of_bytes bytes)))%prog.

End Files.

(** The body of the PUT of [writeFile]. *)
Definition write_body (branchName oldFileSHA message : jval) (b64 : string) : jval :=
  JObj [("branch", branchName); ("sha", oldFileSHA); ("message", message); ("content", JStr b64)].

(** [writeFile(branchName, oldFileSHA, filePath, fileContents, message)] *)
Definition writeFile (branchName oldFileSHA : jval) (filePath : string) (fileContents message : jval)
           (cfg : obj) : js jval :=
  (bytes <- lift_buffer (buffer_from None fileContents) ;;
   gh_got PUT (repo_path cfg ("/contents/" ++ filePath))
          (body_opts cfg (write_body branchName oldFileSHA message (b64_encode bytes))))%prog.

(** ** A model of GitHub's contents store *)

Record host : Type := mkHost { stored : list (string * string) }.

Definition not_found : jval := http_error 404 (Some "Not Found").

Fixpoint lookup (k : string) (fs : list (string * string)) : option string :=
  match fs with
  | [] => None
  | (k', c) :: rest => if String.eqb k k' then Some c else lookup k rest
  end.

(** [v.k] for the request bodies the store reads. *)
Definition field_of (v : jval) (k : string) : jval :=
  match v with JObj ps => prop_or_undef ps k | _ => JUndef end.

(** The answer of the store to one request. *)
Definition contents_respond (q : request) (h : host) : outcome * host :=
  match req_method q with
  | PUT =>
      match get_prop (req_opts q) "body" with
      | inl body =>
          match field_of body "branch", field_of body "content" with
          | JStr b, JStr c =>
              (Resolved (body_only (JObj [("content", JObj [])])),
               mkHost ((req_url q ++ "?ref=" ++ b, github_wrap c) :: stored h))
          | _, _ => (Rejected (http_error 422 (Some "Invalid request")), h)
          end
      | inr _ => (Rejected (http_error 422 (Some "Invalid request")), h)
      end
  | GET =>
      match lookup (req_url q) (stored h) with
      | Some c => (Resolved (body_only (JObj [("content", JStr c)])), h)
      | None => (Rejected not_found, h)
      end
  | _ => (Rejected not_found, h)
  end.

#[export] Instance contents_responder : Responder host := contents_respond.

End GithubFiles.

Module GithubFilesTheorems.
Import Base64 Base64Facts GithubV1 GithubFiles.
Local Open Scope prog_scope.

Lemma repo_path_app cfg a b : repo_path cfg (a ++ b) = (repo_path cfg a ++ b)%string.
Proof. unfold repo_path. now rewrite !string_app_assoc. Qed.

Lemma within_lift_buffer (r : list Z + jval) : @within request outcome jval (list Z) 0 (lift_buffer r).
Proof. destruct r; constructor. Qed.

#[local] Hint Resolve within_lift_buffer : renovate.

Section Settle.
Context {E : Type} `{Responder request outcome E} `{JsonParse}.

(** C12: every operation of the client settles.  Whatever GitHub answers,
  [init], [createBranch], [createPr], [checkForClosedPr], [getFile],
  [getFileContents], [getPr] and [updatePr] each issue exactly one request
  and then resolve or reject: nothing waits and nothing is retried.
  [writeFile] issues one request, or none when [new Buffer(fileContents)]
  throws before the request is made. *)
Theorem v1_operations_settle token repoName baseBranch verbose branch title body prTitle
    filePath branchName sha fileContents message prNo cfg (e : E) :
  calls (init token repoName baseBranch verbose cfg) e = 1%nat /\
  calls (createBranch branch cfg) e = 1%nat /\
  calls (createPr branch title body cfg) e = 1%nat /\
  calls (checkForClosedPr branch prTitle cfg) e = 1%nat /\
  calls (getFile filePath branchName cfg) e = 1%nat /\
  calls (getFileContents filePath branchName cfg) e = 1%nat /\
  calls (getPr branch cfg) e = 1%nat /\
  calls (updatePr prNo title body cfg) e = 1%nat /\
  calls (writeFile branchName sha filePath fileContents message cfg) e =
    match buffer_from None fileContents with inl _ => 1%nat | inr _ => 0%nat end.
Proof.
  unfold init, createBranch, createPr, checkForClosedPr, getFile, getFileContents, getPr,
    updatePr, writeFile, gh_got.
  repeat split; try (cbn [bind catch]; apply calls_one; intros []; within0).
  destruct (buffer_from None fileContents); [|reflexivity].
  cbn [lift_buffer bind]. apply calls_one. intros []; within0.
Qed.

(** The GET of [getFile(filePath, branchName)]. *)
Definition contents_req (cfg : obj) (p : string) (branch : jval) : request :=
  mkReq GET (repo_path cfg ("/contents/" ++ p ++ "?ref=" ++
                            to_string (if truthy branch then branch else field cfg "baseBranch")))
        (token_opts cfg).

(** C29: a file the host does not serve.  On any host that rejects the
    contents GET with an error [x] (GitHub's 404 for a missing file, or
    any other), [getFileContents] makes that one request and rejects with
    [x] unchanged: it never resolves to [null]. *)
Theorem getFileContents_missing cfg p branch (e e' : E) x :
  respond (contents_req cfg p branch) e = (Rejected x, e') ->
  run (getFileContents p branch cfg) e = (Threw x, e', [contents_req cfg p branch]).
Proof.
  intros Hr. unfold getFileContents, getFile, gh_got. cbv zeta. cbn [bind run].
  unfold contents_req in Hr. rewrite Hr. reflexivity.
Qed.

End Settle.

Section RoundTrip.
Context `{JsonParse}.

(** C8: writing a text to a branch and reading it back.  On GitHub's
    contents store, [writeFile] of a string followed by [getFileContents]
    of the same path and branch makes one PUT and one GET and yields what
    [JSON.parse] makes of the text written: the value, or its error. *)
Theorem write_then_read cfg b sha p txt msg (h : host) :
  b <> EmptyString ->
  result_of (writeFile (JStr b) sha p (JStr txt) msg cfg ;;;
           getFileContents p (JStr b) cfg) h =
  match json_parse txt with inl v => Done v | inr e => Threw e end /\
  map req_method (trace_of (writeFile (JStr b) sha p (JStr txt) msg cfg ;;;
                          getFileContents p (JStr b) cfg) h) = [PUT; GET].
Proof.
  intros Hb. unfold result_of, trace_of, writeFile, getFileContents, getFile.
  assert (Ht : truthy (JStr b) = true) by (destruct b; [congruence|reflexivity]).
  rewrite Ht. cbn [to_string]. rewrite <- string_app_assoc, (repo_path_app cfg ("/contents/" ++ p)).
  cbn -[string_of_bytes github_wrap b64_decode b64_encode bytes_of_string]. rewrite String.eqb_refl.
  cbn -[string_of_bytes github_wrap b64_decode b64_encode bytes_of_string]. rewrite transport_text.
  destruct (json_parse txt); split; reflexivity.
Qed.

End RoundTrip.
End GithubFilesTheorems.

Module GithubFilesWitnesses.
Import GithubV1 GithubFiles GithubFilesTheorems.
Local Open Scope prog_scope.

(** A parser that returns the text, enough to observe the round trip. *)
#[local] Instance text_parse : JsonParse := fun s => inl (JStr s).

Lemma write_then_read_witness :
  "renovate/lodash-4.x" <> EmptyString /\
  result_of (writeFile (JStr "renovate/lodash-4.x") (JStr "abc123") "package.json"
                       (JStr "[1, 2, 3]") (JStr "Update lodash") [("repoName", JStr "some/repo")] ;;;
             getFileContents "package.json" (JStr "renovate/lodash-4.x") [("repoName", JStr "some/repo")])
            (mkHost []) = Done (JStr "[1, 2, 3]") /\
  map req_method (trace_of (writeFile (JStr "renovate/lodash-4.x") (JStr "abc123") "package.json"
                       (JStr "[1, 2, 3]") (JStr "Update lodash") [("repoName", JStr "some/repo")] ;;;
             getFileContents "package.json" (JStr "renovate/lodash-4.x") [("repoName", JStr "some/repo")])
            (mkHost [])) = [PUT; GET].
Proof.
  split; [discriminate|].
  apply (@write_then_read text_parse [("repoName", JStr "some/repo")] "renovate/lodash-4.x" (JStr "abc123")
           "package.json" "[1, 2, 3]" (JStr "Update lodash") (mkHost [])).
  discriminate.
Defined.

Lemma getFileContents_missing_witness :
  respond (contents_req [("repoName", JStr "some/repo")] "package.json" (JStr "master")) (mkHost []) =
    (Rejected not_found, mkHost []) /\
  run (getFileContents "package.json" (JStr "master") [("repoName", JStr "some/repo")]) (mkHost []) =
    (Threw not_found, mkHost [],
     [contents_req [("repoName", JStr "some/repo")] "package.json" (JStr "master")]).
Proof.
  split; [reflexivity|].
  apply (getFileContents_missing [("repoName", JStr "some/repo")] "package.json" (JStr "master")
           (mkHost []) (mkHost []) not_found). reflexivity.
Defined.

End GithubFilesWitnesses.
