(* ===== verification/Client.v ===== *)
(** * The later GitHub client: initRepo and the merge negotiator

    The client whose tests are [src/test/api/github.spec.js]
    ([lib/api/github.js]) is not under src/: it is modelled from the
    specification (sections 4.2 and 4.4) and from the expectations of the
    tests, which settle what the specification leaves open or contradicts.
    Every request goes through the retry layer [Retry].

    - [initRepo] resolves the token (a non-empty argument, else
      [GITHUB_TOKEN]; neither is an error naming the repository), records
      it and the endpoint in the process environment, and fetches the
      repository (owner, default branch, merge-capability flags), the head
      commit of the default branch and its tree, in that order.  The first
      strategy whose flag the host reports truthy, in the order rebase,
      squash, merge, becomes the context's [mergeMethod].
    - [mergePr] is the merge negotiator.  With a known [mergeMethod] it
      makes one PUT with that method and gives up, without deleting
      anything, when the host refuses it (test "should handle merge
      error": one PUT, no DELETE).  Without one ("mergePr(prNo) -
      autodetection") it tries rebase, squash and merge in turn, falling
      back on any rejection.  After the first accepted merge it deletes
      the PR's head branch.
    - [mstep] is the negotiator's state machine of section 4.4
      (NotAttempted, Trying, Merged, ExhaustedUnmerged) over the
      strategies [attempts] of the context; [sim] matches its runs with the
      host's answers to the PUT requests. *)

From Stdlib Require Import String Ascii List ZArith Lia Bool.
From S2P Require Import Prelude Js Http Retry.
Import ListNotations.
Local Open Scope list_scope.
Local Open Scope string_scope.

Module Client.

Inductive strategy : Type := Rebase | Squash | MergeCommit.

(** The [merge_method] of the PUT request. *)
Definition merge_method (s : strategy) : string :=
  match s with Rebase => "rebase" | Squash => "squash" | MergeCommit => "merge" end.

(** The capability flags, [None] when the host does not report them. *)
Record caps : Type := mkCaps {
  allow_rebase : option bool;
  allow_squash : option bool;
  allow_merge : option bool
  }.

Definition preference : list strategy := [Rebase; Squash; MergeCommit].

(** The repository context of one session. *)
Record ctx : Type := mkCtx {
  ctx_app : bool;
  ctx_token : string;
  ctx_repo : string;
  ctx_owner : jval;
  ctx_base_branch : jval;
  ctx_base_sha : jval;
  ctx_base_tree : jval;
  ctx_caps : caps;
  ctx_merge_method : option strategy
  }.

(** The environment variables [initRepo] reads and writes. *)
Record penv : Type := mkPenv {
  GITHUB_TOKEN : option string;
  GITHUB_ENDPOINT : option string
  }.

(** A reported flag: [true]/[false], or absent. *)
Definition flag_of (v : jval) : option bool :=
  match v with JBool b => Some b | _ => None end.

(** [if (allow_rebase_merge) ... else if (allow_squash_merge) ... else if
    (allow_merge_commit) ...]: no method when no flag is truthy. *)
Definition merge_method_of (rebase squash merge : jval) : option strategy :=
  if truthy rebase then Some Rebase
  else if truthy squash then Some Squash
  else if truthy merge then Some MergeCommit
  else None.

(** [a.b.c] inside an async function. *)
Definition path2 (v : jval) (a b : string) : js jval :=
  (x <- prop v a ;; prop x b)%prog.

Definition path3 (v : jval) (a b c : string) : js jval :=
  (x <- prop v a ;; y <- prop x b ;; prop y c)%prog.

Definition auth (token : string) : jval := JObj [("token", JStr token)].

(** [token || process.env.GITHUB_TOKEN]: the empty string is falsy. *)
Definition resolve_token (token : option string) (env : penv) : option string :=
  match token with
  | Some (String _ _ as t) => Some t
  | _ => GITHUB_TOKEN env
  end.

Definition initRepo (app : bool) (repoName : string) (token endpoint : option string)
           (env : penv) : js (ctx * penv) :=
  match resolve_token token env with
  | None | Some EmptyString =>
      Throw (error_obj ("No token found for GitHub repository " ++ repoName))
  | Some t =>
      let env' := mkPenv (Some t) endpoint in
      (res <- gh_got_retry app GET ("repos/" ++ repoName) (auth t) ;;
       owner <- path3 res "body" "owner" "login" ;;
       branch <- path2 res "body" "default_branch" ;;
       rebase <- path2 res "body" "allow_rebase_merge" ;;
       squash <- path2 res "body" "allow_squash_merge" ;;
       merge <- path2 res "body" "allow_merge_commit" ;;
       commit <- gh_got_retry app GET ("repos/" ++ repoName ++ "/git/refs/heads/" ++ to_string branch)
                              (auth t) ;;
       sha <- path3 commit "body" "object" "sha" ;;
       tree <- gh_got_retry app GET ("repos/" ++ repoName ++ "/git/commits/" ++ to_string sha)
                            (auth t) ;;
       tree_sha <- path3 tree "body" "tree" "sha" ;;
       Ret (mkCtx app t repoName owner branch sha tree_sha
                  (mkCaps (flag_of rebase) (flag_of squash) (flag_of merge))
                  (merge_method_of rebase squash merge), env'))%prog
  end.

(** [DELETE repos/<repo>/git/refs/heads/<branch>] *)
Definition deleteBranch (c : ctx) (branchName : string) : js jval :=
  gh_got_retry (ctx_app c) DELETE ("repos/" ++ ctx_repo c ++ "/git/refs/heads/" ++ branchName)
               (auth (ctx_token c)).

Definition merge_url (c : ctx) (number : jval) : string :=
  "repos/" ++ ctx_repo c ++ "/pulls/" ++ to_string number ++ "/merge".

Definition merge_opts (c : ctx) (s : strategy) : jval :=
  JObj [("token", JStr (ctx_token c)); ("body", JObj [("merge_method", JStr (merge_method s))])].

(** [get.put(url, options)] with [options.body.merge_method] set to [s]. *)
Definition put_merge (c : ctx) (number : jval) (s : strategy) : js jval :=
  gh_got_retry (ctx_app c) PUT (merge_url c number) (merge_opts c s).

(** The nested [try]/[catch] of the guessing path: try the strategies in
    order; the first accepted one is returned. *)
Fixpoint try_strategies (c : ctx) (number : jval) (ss : list strategy) : js (option strategy) :=
  match ss with
  | [] => Ret None
  | s :: rest =>
      catch (_ <- put_merge c number s ;; Ret (Some s))%prog
            (fun _ => try_strategies c number rest)
  end.

(** [mergePr(pr)]: resolves to the strategy that merged, if any. *)
Definition mergePr (c : ctx) (pr : jval) : js (option strategy) :=
  (number <- prop pr "number" ;;
   merged <- match ctx_merge_method c with
             | Some s => catch (_ <- put_merge c number s ;; Ret (Some s))%prog
                               (fun _ => Ret None)
             | None => try_strategies c number preference
             end ;;
   match merged with
   | Some s => ref <- path2 pr "head" "ref" ;; _ <- deleteBranch c (to_string ref) ;; Ret (Some s)
   | None => Ret None
   end)%prog.

(** ** The negotiator as a state machine (section 4.4) *)

(** The strategies the negotiator may try in a context. *)
Definition attempts (c : ctx) : list strategy :=
  match ctx_merge_method c with Some s => [s] | None => preference end.

Inductive mstate : Type :=
| NotAttempted
| Trying (s : strategy) (rest : list strategy)
| Merged (s : strategy)
| ExhaustedUnmerged.

(** What the host answers to one merge attempt. *)
Inductive verdict : Type := Accepted | Refused.

(** One transition over the candidate strategies [cands]; attempts carry
    the host's verdict, the start does not. *)
Inductive mstep (cands : list strategy) : mstate -> option verdict -> mstate -> Prop :=
| step_start s rest :
  cands = s :: rest -> mstep cands NotAttempted None (Trying s rest)
| step_start_none :
  cands = [] -> mstep cands NotAttempted None ExhaustedUnmerged
| step_accept s rest :
  mstep cands (Trying s rest) (Some Accepted) (Merged s)
| step_fallback s s' rest :
  mstep cands (Trying s (s' :: rest)) (Some Refused) (Trying s' rest)
| step_exhaust s :
  mstep cands (Trying s []) (Some Refused) ExhaustedUnmerged.

Definition terminal (m : mstate) : bool :=
  match m with Merged _ | ExhaustedUnmerged => true | _ => false end.

Definition verdict_of {A} (o : completion jval A) : verdict :=
  match o with Done _ => Accepted | Threw _ => Refused end.

Section Sim.
Context {E : Type} `{Responder request outcome E}.

(** [sim c n m e m' e' t]: the machine goes from [m] to [m'] while the
    host goes from [e] to [e'] answering the requests [t]; each attempt
    is the retried PUT of the strategy being tried, and its verdict is the
    outcome of that PUT. *)
Inductive sim (c : ctx) (n : jval) : mstate -> E -> mstate -> E -> list request -> Prop :=
| sim_done m e : sim c n m e m e []
| sim_silent m m' e m'' e' t :
  mstep (attempts c) m None m' -> sim c n m' e m'' e' t -> sim c n m e m'' e' t
| sim_attempt s rest o e e1 t1 m' m'' e' t :
  run (put_merge c n s) e = (o, e1, t1) ->
  mstep (attempts c) (Trying s rest) (Some (verdict_of o)) m' ->
  sim c n m' e1 m'' e' t -> sim c n (Trying s rest) e m'' e' (t1 ++ t)%list.
End Sim.

End Client.

Module ClientFacts.
Import Client.

Definition merged_of (m : mstate) : option strategy :=
  match m with Merged s => Some s | _ => None end.

(** The strategies of a context are the candidates of the machine, at most
    three. *)
Lemma attempts_length c : (length (attempts c) <= 3)%nat.
Proof. unfold attempts. destruct (ctx_merge_method c); simpl; lia. Qed.

(** The guessing path is [try_strategies] over the candidates of the
    context; a known method is the one-element case. *)
Lemma mergePr_merged_phase c number :
  match ctx_merge_method c with
  | Some s => catch (_ <- put_merge c number s ;; Ret (Some s))%prog (fun _ => Ret None)
  | None => try_strategies c number preference
  end = try_strategies c number (attempts c).
Proof. unfold attempts. destruct (ctx_merge_method c); reflexivity. Qed.

(** The requests of the negotiation: one retried PUT per strategy. *)
Lemma within_try_strategies c number ss :
  within (length ss * S max_retries) (try_strategies c number ss).
Proof.
  induction ss as [|s ss IH]; cbn [try_strategies]; [constructor|].
  apply within_mono with (S max_retries + 0 + length ss * S max_retries)%nat; [|cbn; lia].
  apply within_catch; [apply within_bind; [apply within_gh_got_retry|constructor]|intros; exact IH].
Qed.

Lemma within_path2 v a b : within 0 (path2 v a b).
Proof. unfold path2. within0. Qed.

(** [mergePr] stops: the PUTs of the candidates and one DELETE, each
    retried at most [max_retries] times. *)
Lemma within_mergePr c pr :
  within ((length (attempts c) + 1) * S max_retries) (mergePr c pr).
Proof.
  unfold mergePr.
  apply within_mono with (0 + (length (attempts c) * S max_retries +
                               (0 + (S max_retries + 0))))%nat; [|lia].
  apply within_bind; [within0|intros number]. rewrite mergePr_merged_phase.
  apply within_bind; [apply within_try_strategies|intros [s|]].
  - apply within_bind; [apply within_path2|intros ref].
    apply within_bind; [apply within_gh_got_retry|constructor].
  - constructor.
Qed.

Section Negotiation.
Context {E : Type} `{Responder request outcome E}.

Lemma try_strategies_cons c number s rest :
  try_strategies c number (s :: rest) =
  catch (_ <- put_merge c number s ;; Ret (Some s))%prog
        (fun _ => try_strategies c number rest).
Proof. reflexivity. Qed.

(** One attempt, in the machine's terms: the PUT's outcome drives the
    catch. *)
Lemma run_attempt c number s rest (e : E) :
  run (try_strategies c number (s :: rest)) e =
    let '(o, e1, t1) := run (put_merge c number s) e in
    match o with
    | Done _ => (Done (Some s), e1, t1)
    | Threw _ => let '(o2, e2, t2) := run (try_strategies c number rest) e1 in (o2, e2, (t1 ++ t2)%list)
    end.
Proof.
  rewrite try_strategies_cons, run_catch, run_bind.
  destruct (run (put_merge c number s) e) as [[[v|x] e1] t1]; cbn; [now rewrite app_nil_r|].
  destruct (run (try_strategies c number rest) e1) as [[o2 e2] t2]. reflexivity.
Qed.

(** From a strategy being tried, [try_strategies] follows [sim] to a
    terminal state and resolves to the strategy the machine merged with;
    the requests are exactly those of the attempts. *)
Lemma try_strategies_sim c number rest : forall s (e : E),
  exists final e1 t1,
  sim c number (Trying s rest) e final e1 t1 /\ terminal final = true /\
  run (try_strategies c number (s :: rest)) e = (Done (merged_of final), e1, t1).
Proof.
  induction rest as [|s' rest IH]; intros s e; rewrite run_attempt;
  destruct (run (put_merge c number s) e) as [[o e1] t1] eqn:Hput; destruct o as [v|x].
  - exists (Merged s), e1, (t1 ++ [])%list.
    split; [econstructor 3; [exact Hput|constructor|constructor]|split; [reflexivity|cbn; now rewrite ?app_nil_r]].
  - exists ExhaustedUnmerged, e1, (t1 ++ [])%list.
    split; [econstructor 3; [exact Hput|constructor|constructor]|split; [reflexivity|cbn; now rewrite ?app_nil_r]].
  - exists (Merged s), e1, (t1 ++ [])%list.
    split; [econstructor 3; [exact Hput|constructor|constructor]|split; [reflexivity|cbn; now rewrite ?app_nil_r]].
  - destruct (IH s' e1) as (final & e2 & t2 & Hs & Ht & Hrun). rewrite Hrun.
    exists final, e2, (t1 ++ t2)%list.
    split; [econstructor 3; [exact Hput|constructor|exact Hs]|split; [exact Ht|reflexivity]].
Qed.

(** From the start, the merge phase of [mergePr] follows [sim] to a
    terminal state. *)
Lemma negotiation_sim c number (e : E) :
  exists final e1 t1,
  sim c number NotAttempted e final e1 t1 /\ terminal final = true /\
  run (try_strategies c number (attempts c)) e = (Done (merged_of final), e1, t1).
Proof.
  destruct (attempts c) as [|s rest] eqn:Ha.
  - exists ExhaustedUnmerged, e, [].
    split; [apply sim_silent with ExhaustedUnmerged; [now constructor|constructor]|split; reflexivity].
  - destruct (try_strategies_sim c number rest s e) as (final & e1 & t1 & Hs & Ht & Hrun).
    exists final, e1, t1.
    split; [apply sim_silent with (Trying s rest); [now constructor|exact Hs]|split; assumption].
Qed.
End Negotiation.
End ClientFacts.

(** ** The scenarios of src/test/api/github.spec.js *)

Module ClientScenarios.
Import Client ClientFacts.

(** The PR object [mergePr] receives: [{ number, head: { ref } }]. *)
Definition pr_obj (number : jval) (ref : string) : jval :=
  JObj [("number", number); ("head", JObj [("ref", JStr ref)])].

Definition put_req (c : ctx) (n : jval) (s : strategy) : request :=
  mkReq PUT (merge_url c n) (decorate (ctx_app c) (merge_opts c s)).

Definition del_req (c : ctx) (branch : string) : request :=
  mkReq DELETE ("repos/" ++ ctx_repo c ++ "/git/refs/heads/" ++ branch)
      (decorate (ctx_app c) (auth (ctx_token c))).

(** C4: the negotiator refines its state machine.  For every repository
  context, PR and host: the run of [mergePr] is matched, request for
  request, with a run of [mstep] over the context's strategies from
  [NotAttempted] to a terminal state, in which every verdict is the
  outcome of the retried PUT of the strategy being tried.  Its requests
  are exactly those PUTs, followed, if and only if the run ends [Merged],
  by the DELETE of the PR's head branch; it then resolves to the merged
  strategy (or rejects with the DELETE's error), and otherwise to [None]. *)
Theorem mergePr_refines_machine {E} `{Responder request outcome E} c n r (e : E) :
  exists final e1 t1, sim c n NotAttempted e final e1 t1 /\ terminal final = true /\
  match final with
  | Merged s => run (mergePr c (pr_obj n r)) e =
      (let '(o, e2, t2) := run (deleteBranch c r) e1 in
       (match o with Done _ => Done (Some s) | Threw x => Threw x end, e2, (t1 ++ t2)%list))
  | _ => run (mergePr c (pr_obj n r)) e = (Done None, e1, t1)
  end.
Proof.
  destruct (negotiation_sim c n e) as (final & e1 & t1 & Hs & Ht & Hrun).
  exists final, e1, t1. split; [exact Hs|]. split; [exact Ht|].
  assert (Hm : mergePr c (pr_obj n r) =
                 (merged <- try_strategies c n (attempts c) ;;
                  match merged with
                  | Some s => _ <- deleteBranch c r ;; Ret (Some s)
                  | None => Ret None
                  end)%prog)
    by (unfold mergePr; rewrite <- mergePr_merged_phase; reflexivity).
  rewrite Hm, run_bind, Hrun.
  destruct final as [| | s |]; try discriminate; cbn -[deleteBranch]; [|now rewrite app_nil_r].
  rewrite run_bind. destruct (run (deleteBranch c r) e1) as [[[v|x] e2] t2]; cbn;
    now rewrite ?app_nil_r.
Qed.

(** The repository answer of the tests' [initRepo] helper. *)
Definition test_repo_info : jval :=
  body_only (JObj [("owner", JObj [("login", JStr "theowner")]);
                   ("default_branch", JStr "master");
                   ("allow_rebase_merge", JBool true);
                   ("allow_squash_merge", JBool true);
                   ("allow_merge_commit", JBool true)]).

(** getBranchCommit *)
Definition test_branch_commit : jval :=
  body_only (JObj [("object", JObj [("sha", JStr "1234")])]).

(** getCommitTree *)
Definition test_commit_tree : jval :=
  body_only (JObj [("tree", JObj [("sha", JStr "5678")])]).

(** The three GET answers the [initRepo] helper queues. *)
Definition test_init_mocks : mocks :=
  get_queue [Resolved test_repo_info; Resolved test_branch_commit; Resolved test_commit_tree].

(** The repository answer of "mergePr(prNo) - autodetection": no flags. *)
Definition autodetect_repo_info : jval :=
  body_only (JObj [("owner", JObj [("login", JStr "theowner")]);
                   ("default_branch", JStr "master")]).

Definition autodetect_init_mocks : mocks :=
  get_queue [Resolved autodetect_repo_info; Resolved test_branch_commit; Resolved test_commit_tree].

(** The PR of "mergePr(prNo)": [{ number: 1234, head: { ref: 'someref' } }]. *)
Definition test_pr : jval := pr_obj (JNum 1234) "someref".

Definition no_penv : penv := mkPenv None None.

Definition empty_ctx : ctx :=
  mkCtx false "" "" JUndef JUndef JUndef JUndef (mkCaps None None None) None.

Definition test_ctx : ctx :=
  Eval vm_compute in
    match result_of (initRepo false "some/repo" (Some "token") None no_penv) test_init_mocks with
    | Done (c, _) => c
    | Threw _ => empty_ctx
    end.

Lemma test_ctx_init :
  result_of (initRepo false "some/repo" (Some "token") None no_penv) test_init_mocks =
    Done (test_ctx, mkPenv (Some "token") None).
Proof. reflexivity. Qed.

(** The context of "mergePr(prNo) - autodetection": no flags, no method. *)
Definition autodetect_ctx : ctx :=
  Eval vm_compute in
    match result_of (initRepo false "some/repo" (Some "token") None no_penv)
                    autodetect_init_mocks with
    | Done (c, _) => c
    | Threw _ => empty_ctx
    end.

Lemma autodetect_ctx_init :
  result_of (initRepo false "some/repo" (Some "token") None no_penv) autodetect_init_mocks =
    Done (autodetect_ctx, mkPenv (Some "token") None) /\
  ctx_merge_method autodetect_ctx = None /\ ctx_merge_method test_ctx = Some Rebase.
Proof. repeat split. Qed.

(** C18: [initRepo] on the answers of the tests' helper: with a token
  from the argument or from [GITHUB_TOKEN], it makes the three requests
  (repository, branch commit, commit tree), records the token and the
  endpoint in the environment, and the context holds the token, the
  default branch, the commit and tree SHAs, and the three capability
  flags as reported. *)
Theorem initRepo_test_context token endpoint envtok t :
  match token with Some x => Some x | None => envtok end = Some t -> t <> "" ->
  exists c, result_of (initRepo false "some/repo" token endpoint (mkPenv envtok None))
                      test_init_mocks = Done (c, mkPenv (Some t) endpoint) /\
    calls (initRepo false "some/repo" token endpoint (mkPenv envtok None)) test_init_mocks = 3 /\
    ctx_token c = t /\ ctx_base_branch c = JStr "master" /\ ctx_base_sha c = JStr "1234" /\
    ctx_base_tree c = JStr "5678" /\ ctx_caps c = mkCaps (Some true) (Some true) (Some true).
Proof.
  intros Ht Hne.
  assert (Hr : resolve_token token (mkPenv envtok None) = Some t)
    by (destruct token as [[|a x]|]; cbn in *; congruence).
  unfold initRepo. rewrite Hr. destruct t as [|a t']; [congruence|].
  eexists. split; [reflexivity|]. repeat split.
Qed.

(** C7: the two paths of the negotiator, as the tests exercise them, for
  every context and any errors the retry layer does not retry.  With a
  known merge method (a flag reported true), a refused PUT ends the
  negotiation: one PUT with that method, no DELETE, [mergePr] resolves to
  [None] (test "should handle merge error").  Without one, the
  strategies are tried in turn: with the first two refused and the third
  accepted, three PUTs (rebase, squash, merge) then exactly one DELETE of
  the head branch; with all three refused, three PUTs, no DELETE, and
  [mergePr] resolves to [None]. *)
Theorem mergePr_fallback c x1 x2 x3 v :
  retryable x1 = false -> retryable x2 = false -> retryable x3 = false ->
  (forall s, ctx_merge_method c = Some s ->
     run (mergePr c test_pr) (mkMocks [] [] [Rejected x1] [] []) =
       (Done None, no_mocks, [put_req c (JNum 1234) s])) /\
  (ctx_merge_method c = None ->
     run (mergePr c test_pr) (mkMocks [] [] [Rejected x1; Rejected x2; Resolved v] [] []) =
       (Done (Some MergeCommit), no_mocks,
        [put_req c (JNum 1234) Rebase; put_req c (JNum 1234) Squash;
         put_req c (JNum 1234) MergeCommit; del_req c "someref"]) /\
     run (mergePr c test_pr) (mkMocks [] [] [Rejected x1; Rejected x2; Rejected x3] [] []) =
       (Done None, no_mocks,
        [put_req c (JNum 1234) Rebase; put_req c (JNum 1234) Squash;
         put_req c (JNum 1234) MergeCommit])).
Proof.
  intros H1 H2 H3. unfold test_pr.
  split; [intros s Hm|intros Hm; split]; unfold mergePr; rewrite Hm;
    repeat progress (cbn; rewrite ?H1, ?H2, ?H3); reflexivity.
Qed.

(** The six mergePr tests: the model makes the PUT and DELETE calls they
  expect ("should merge the PR", "should handle merge error", and the
  four autodetection tests). *)
Example mergePr_tests :
  let count c m q := length (calls_with m (trace_of (mergePr c test_pr) q)) in
  let no s := Rejected (error_obj s) in
  (count test_ctx PUT no_mocks, count test_ctx DELETE no_mocks) = (1, 1) /\
  (count test_ctx PUT (mkMocks [] [] [no "merge error"] [] []),
   count test_ctx DELETE (mkMocks [] [] [no "merge error"] [] [])) = (1, 0) /\
  (count autodetect_ctx PUT no_mocks, count autodetect_ctx DELETE no_mocks) = (1, 1) /\
  (count autodetect_ctx PUT (mkMocks [] [] [no "no rebasing allowed"] [] []),
   count autodetect_ctx DELETE (mkMocks [] [] [no "no rebasing allowed"] [] [])) = (2, 1) /\
  (count autodetect_ctx PUT (mkMocks [] [] [no "no rebasing allowed"; no "no squashing allowed"] [] []),
   count autodetect_ctx DELETE
     (mkMocks [] [] [no "no rebasing allowed"; no "no squashing allowed"] [] [])) = (3, 1) /\
  (count autodetect_ctx PUT (mkMocks [] [] [no "no rebasing allowed"; no "no squashing allowed";
                                           no "no merging allowed"] [] []),
   count autodetect_ctx DELETE (mkMocks [] [] [no "no rebasing allowed"; no "no squashing allowed";
                                              no "no merging allowed"] [] [])) = (3, 0).
Proof. vm_compute. repeat split. Qed.

(** Witnesses. *)

Lemma initRepo_test_context_witness :
  exists c, result_of (initRepo false "some/repo" None (Some "https://my.custom.endpoint/")
                                (mkPenv (Some "myenvtoken") None)) test_init_mocks =
              Done (c, mkPenv (Some "myenvtoken") (Some "https://my.custom.endpoint/")) /\
    calls (initRepo false "some/repo" None (Some "https://my.custom.endpoint/")
                    (mkPenv (Some "myenvtoken") None)) test_init_mocks = 3 /\
    ctx_token c = "myenvtoken" /\ ctx_base_branch c = JStr "master" /\
    ctx_base_sha c = JStr "1234" /\ ctx_base_tree c = JStr "5678" /\
    ctx_caps c = mkCaps (Some true) (Some true) (Some true).
Proof.
  apply (initRepo_test_context None (Some "https://my.custom.endpoint/") (Some "myenvtoken")).
  - reflexivity.
  - discriminate.
Defined.

Lemma mergePr_fallback_witness :
  run (mergePr test_ctx test_pr) (mkMocks [] [] [Rejected (error_obj "merge error")] [] []) =
    (Done None, no_mocks, [put_req test_ctx (JNum 1234) Rebase]) /\
  run (mergePr autodetect_ctx test_pr)
      (mkMocks [] [] [Rejected (error_obj "no rebasing allowed");
                      Rejected (error_obj "no squashing allowed"); Resolved JUndef] [] []) =
    (Done (Some MergeCommit), no_mocks,
     [put_req autodetect_ctx (JNum 1234) Rebase; put_req autodetect_ctx (JNum 1234) Squash;
      put_req autodetect_ctx (JNum 1234) MergeCommit; del_req autodetect_ctx "someref"]) /\
  run (mergePr autodetect_ctx test_pr)
      (mkMocks [] [] [Rejected (error_obj "no rebasing allowed");
                      Rejected (error_obj "no squashing allowed");
                      Rejected (error_obj "no merging allowed")] [] []) =
    (Done None, no_mocks,
     [put_req autodetect_ctx (JNum 1234) Rebase; put_req autodetect_ctx (JNum 1234) Squash;
      put_req autodetect_ctx (JNum 1234) MergeCommit]).
Proof.
  destruct (mergePr_fallback test_ctx (error_obj "merge error") (error_obj "merge error")
              (error_obj "merge error") JUndef eq_refl eq_refl eq_refl) as [Ha _].
  destruct (mergePr_fallback autodetect_ctx (error_obj "no rebasing allowed")
              (error_obj "no squashing allowed") (error_obj "no merging allowed") JUndef
              eq_refl eq_refl eq_refl) as [_ Hb].
  split; [apply (Ha Rebase); reflexivity | apply Hb; reflexivity].
Defined.
End ClientScenarios.
