(* ===== verification/Commit.v ===== *)
(** * The commit builder and branchExists (spec sections 4.2 and 4.3)

    [commitFilesToBranch(branchName, files, message, parentBranch)] of the
    client builds one commit from several file changes with the host's
    object primitives: the parent branch's head commit and its tree (step
    1), one blob per file (step 2), one tree over the parent tree (step 3),
    one commit (step 4), and last the ref of the branch, updated with a
    PATCH when [branchExists] says it exists and created with a POST
    otherwise (step 5).  Every request goes through the retry layer.

    The client is not under src/: the definitions follow the spec, the
    scenarios the tests of src/test/api/github.spec.js.  [build_commit] is
    steps 1 to 4; [commitFilesToBranch] composes it with step 5, so the
    atomicity invariant of the spec (the ref is touched last, and only when
    steps 1 to 4 succeeded) is a theorem about the composition. *)

From Stdlib Require Import String Ascii List ZArith Lia Bool.
From S2P Require Import Prelude Js Http Retry Base64 GithubV1 GithubFiles Client.
Import ListNotations.
Local Open Scope list_scope.
Local Open Scope string_scope.

Module Commit.
Import Client Base64 GithubFiles.
Local Open Scope prog_scope.

Definition git_url (c : ctx) (suffix : string) : string :=
  "repos/" ++ ctx_repo c ++ "/git/" ++ suffix.

Definition ref_url (c : ctx) (branchName : string) : string :=
  git_url c ("refs/heads/" ++ branchName).

(** [{ token, body }] *)
Definition with_body (c : ctx) (body : jval) : jval :=
  JObj [("token", JStr (ctx_token c)); ("body", body)].

Definition request_of (c : ctx) (m : method) (url : string) (opts : jval) : js jval :=
  gh_got_retry (ctx_app c) m url opts.

(** [getBranchCommit(branchName)]: [res.body.object.sha] *)
Definition getBranchCommit (c : ctx) (branchName : string) : js jval :=
  res <- request_of c GET (ref_url c branchName) (auth (ctx_token c)) ;;
  path3 res "body" "object" "sha".

(** [getCommitTree(commit)]: [res.body.tree.sha] *)
Definition getCommitTree (c : ctx) (commit : jval) : js jval :=
  res <- request_of c GET (git_url c ("commits/" ++ to_string commit)) (auth (ctx_token c)) ;;
  path3 res "body" "tree" "sha".

(** [createBlob(fileContents)]: POST the base64 content, [res.body.sha] *)
Definition createBlob (c : ctx) (fileContents : jval) : js jval :=
  bytes <- lift_buffer (buffer_from None fileContents) ;;
  res <- request_of c POST (git_url c "blobs")
           (with_body c (JObj [("encoding", JStr "base64"); ("content", JStr (b64_encode bytes))])) ;;
  path2 res "body" "sha".

(** [for (const file of files) fileBlobs.push({ name: file.name, blob: await createBlob(file.contents) })] *)
Fixpoint createBlobs (c : ctx) (files : list jval) : js (list (jval * jval)) :=
  match files with
  | [] => Ret []
  | file :: rest =>
      name <- prop file "name" ;;
      contents <- prop file "contents" ;;
      blob <- createBlob c contents ;;
      blobs <- createBlobs c rest ;;
      Ret ((name, blob) :: blobs)
  end.

Definition tree_entry (nb : jval * jval) : jval :=
  JObj [("path", fst nb); ("mode", JStr "100644"); ("type", JStr "blob"); ("sha", snd nb)].

(** [createTree(baseTree, files)] *)
Definition createTree (c : ctx) (baseTree : jval) (blobs : list (jval * jval)) : js jval :=
  res <- request_of c POST (git_url c "trees")
           (with_body c (JObj [("base_tree", baseTree); ("tree", JArr (map tree_entry blobs))])) ;;
  path2 res "body" "sha".

(** [createCommit(parent, tree, message)] *)
Definition createCommit (c : ctx) (parent tree message : jval) : js jval :=
  res <- request_of c POST (git_url c "commits")
           (with_body c (JObj [("message", message); ("parents", JArr [parent]); ("tree", tree)])) ;;
  path2 res "body" "sha".

(** [res.body.some(branch => branch.ref === `refs/heads/${branchName}`)] *)
Fixpoint some_ref (branchName : string) (refs : list jval) : js bool :=
  match refs with
  | [] => Ret false
  | r :: rest =>
      name <- prop r "ref" ;;
      if strict_eq name (JStr ("refs/heads/" ++ branchName)) then Ret true
      else some_ref branchName rest
  end.

(** [branchExists(branchName)]: a 200 answer is searched for the ref; any
  other status is [false]; a rejection with status 404 is [false]; any
  other rejection propagates. *)
Definition branchExists (c : ctx) (branchName : string) : js bool :=
  catch
    (res <- request_of c GET (ref_url c branchName) (auth (ctx_token c)) ;;
     status <- prop res "statusCode" ;;
     if strict_eq status (JNum 200) then
       body <- prop res "body" ;;
       match body with
       | JArr refs => some_ref branchName refs
       | _ => name <- prop body "ref" ;; Ret (strict_eq name (JStr ("refs/heads/" ++ branchName)))
       end
     else Ret false)
    (fun err =>
       status <- prop err "statusCode" ;;
       if strict_eq status (JNum 404) then Ret false else Throw err).

(** [updateBranch(branchName, commit)]: PATCH the ref. *)
Definition updateBranch (c : ctx) (branchName : string) (commit : jval) : js jval :=
  request_of c PATCH (ref_url c branchName)
    (with_body c (JObj [("sha", commit); ("force", JBool true)])).

(** [createBranch(branchName, commit)]: POST a new ref. *)
Definition createBranch (c : ctx) (branchName : string) (commit : jval) : js jval :=
  request_of c POST (git_url c "refs")
    (with_body c (JObj [("ref", JStr ("refs/heads/" ++ branchName)); ("sha", commit)])).

(** Steps 1 to 4: the SHA of the new commit. *)
Definition build_commit (c : ctx) (files : list jval) (message : jval) (parentBranch : string)
  : js jval :=
  parentCommit <- getBranchCommit c parentBranch ;;
  parentTree <- getCommitTree c parentCommit ;;
  blobs <- createBlobs c files ;;
  tree <- createTree c parentTree blobs ;;
  createCommit c parentCommit tree message.

(** [commitFilesToBranch(branchName, files, message, parentBranch = config.baseBranch)] *)
Definition commitFilesToBranch (c : ctx) (branchName : string) (files : list jval) (message : jval)
           (parentBranch : option string) : js jval :=
  let parent := match parentBranch with Some p => p | None => to_string (ctx_base_branch c) end in
  commit <- build_commit c files message parent ;;
  isBranchExisting <- branchExists c branchName ;;
  if isBranchExisting then updateBranch c branchName commit
  else createBranch c branchName commit.

End Commit.

Module CommitFacts.
Import Client Base64 GithubFiles Commit.
Local Open Scope prog_scope.

(** A request that moves a branch: a PATCH, or the POST that creates a ref. *)
Definition touches_ref (c : ctx) (q : request) : bool :=
  method_eqb (req_method q) PATCH ||
  (method_eqb (req_method q) POST && String.eqb (req_url q) (git_url c "refs")).

Definition exists_req (c : ctx) (b : string) : request :=
  mkReq GET (ref_url c b) (decorate (ctx_app c) (auth (ctx_token c))).

Definition update_req (c : ctx) (b : string) (sha : jval) : request :=
  mkReq PATCH (ref_url c b) (decorate (ctx_app c) (with_body c (JObj [("sha", sha); ("force", JBool true)]))).

Definition create_req (c : ctx) (b : string) (sha : jval) : request :=
  mkReq POST (git_url c "refs")
        (decorate (ctx_app c) (with_body c (JObj [("ref", JStr ("refs/heads/" ++ b)); ("sha", sha)]))).

Lemma string_eqb_app_l a x y : String.eqb (a ++ x) (a ++ y) = String.eqb x y.
Proof.
  induction a as [|ch a IH]; [reflexivity|]. simpl.
  rewrite Ascii.eqb_refl. exact IH.
Qed.

Lemma only_lift P (r : jval + jval) : only P (lift r).
Proof. destruct r; constructor. Qed.

Lemma only_lift_buffer P r : only P (lift_buffer r).
Proof. destruct r; constructor. Qed.

#[local] Hint Resolve only_lift only_lift_buffer : renovate.

Lemma only_retry_loop P n q : P q -> only P (retry_loop n q).
Proof.
  intros Hq. induction n as [|n IH]; apply only_call; auto; intros [v|x]; simpl; try constructor.
  destruct (retryable x); [exact IH|constructor].
Qed.

Lemma only_request P c m url opts :
  P (mkReq m url (decorate (ctx_app c) opts)) -> only P (request_of c m url opts).
Proof. apply only_retry_loop. Qed.

(** The POST of steps 2 to 4 goes to an object endpoint, not to the refs. *)
Lemma quiet_post c suffix opts :
  String.eqb suffix "refs" = false ->
  touches_ref c (mkReq POST (git_url c suffix) opts) = false.
Proof.
  intros H. unfold touches_ref, git_url. cbn [req_method req_url method_eqb orb andb].
  rewrite !string_eqb_app_l. exact H.
Qed.

Ltac quiet :=
  repeat first
    [ apply only_bind; [|intros ?]
    | apply only_request; first [reflexivity | apply quiet_post; reflexivity]
    | apply only_lift
    | apply only_lift_buffer
    | constructor ].

Lemma createBlobs_quiet c files : only (fun q => touches_ref c q = false) (createBlobs c files).
Proof.
  induction files as [|file rest IH]; simpl; [constructor|].
  unfold prop, createBlob, path2. quiet. exact IH.
Qed.

(** Steps 1 to 4 never touch a ref. *)
Lemma build_commit_quiet c files msg parent :
  only (fun q => touches_ref c q = false) (build_commit c files msg parent).
Proof.
  unfold build_commit, getBranchCommit, getCommitTree, createTree, createCommit, path2, path3, prop.
  quiet. apply createBlobs_quiet.
Qed.

Lemma some_ref_silent P b refs : only P (some_ref b refs).
Proof. induction refs as [|r rest IH]; simpl; unfold prop; quiet; destruct strict_eq; auto with renovate. Qed.

Lemma branchExists_only c b : only (fun q => q = exists_req c b) (branchExists c b).
Proof.
  unfold branchExists, prop. apply only_catch; [|intros x; quiet; destruct strict_eq; constructor].
  quiet. destruct strict_eq; [|constructor]. quiet.
  match goal with |- only _ (match ?body with _ => _ end) => destruct body end;
    quiet; apply some_ref_silent.
Qed.

Lemma request_trace_nonempty {E} `{Responder request outcome E} c m url opts (e : E) :
  trace_of (request_of c m url opts) e <> [].
Proof.
  unfold trace_of, request_of, gh_got_retry. destruct max_retries; simpl;
    destruct (respond _ e) as [r e1]; destruct (run _ e1) as [[? ?] ?]; discriminate.
Qed.

(** One retried request: every request of its trace is that request, and
    there is at least one. *)
Lemma request_trace {E} `{Responder request outcome E} c m url opts (e : E) :
  let '(r, e', t) := run (request_of c m url opts) e in
  Forall (fun q => q = mkReq m url (decorate (ctx_app c) opts)) t /\ t <> [].
Proof.
  pose proof (only_trace _ _ e (only_request (fun q => q = mkReq m url (decorate (ctx_app c) opts))
                                  c m url opts eq_refl)) as Hall.
  pose proof (request_trace_nonempty c m url opts e) as Hne.
  unfold trace_of in *. destruct (run _ e) as [[r e'] t]. now split.
Qed.

End CommitFacts.

Module CommitTheorems.
Import Client ClientScenarios Base64 GithubFiles Commit CommitFacts.
Local Open Scope prog_scope.

Section Atomicity.
Context {E : Type} `{Responder request outcome E}.

(** Atomicity of the commit builder (spec section 4.3), for any context. *)
Lemma commit_ref_last_any c b files msg parentBranch (e : E) :
  let parent := match parentBranch with Some p => p | None => to_string (ctx_base_branch c) end in
  let '(r1, e1, t1) := run (build_commit c files msg parent) e in
  Forall (fun q => touches_ref c q = false) t1 /\
  match r1 with
  | Threw x => run (commitFilesToBranch c b files msg parentBranch) e = (Threw x, e1, t1)
  | Done sha =>
    exists r2 e2 tb tu,
      run (commitFilesToBranch c b files msg parentBranch) e = (r2, e2, (t1 ++ tb ++ tu)%list) /\
      Forall (fun q => q = exists_req c b) tb /\
      (Forall (fun q => q = update_req c b sha) tu \/ Forall (fun q => q = create_req c b sha) tu) /\
      (tu = [] -> exists x, r2 = Threw x)
  end.
Proof.
  cbv zeta. unfold commitFilesToBranch.
  set (parent := match parentBranch with Some p => p | None => _ end).
  pose proof (only_trace _ _ e (build_commit_quiet c files msg parent)) as Hq.
  unfold trace_of in Hq. rewrite run_bind.
  destruct (run (build_commit c files msg parent) e) as [[[sha|x] e1] t1]; split; auto.
  rewrite run_bind.
  pose proof (only_trace _ _ e1 (branchExists_only c b)) as Hb. unfold trace_of in Hb.
  destruct (run (branchExists c b) e1) as [[[ex|x] e2] tb].
  - destruct ex; [unfold updateBranch | unfold createBranch];
      match goal with |- context [run (request_of c ?m ?url ?opts) e2] =>
        pose proof (request_trace c m url opts e2) as Hu;
        destruct (run (request_of c m url opts) e2) as [[r2 e3] tu]; destruct Hu as [Hu Hne]
      end;
      exists r2, e3, tb, tu; rewrite app_assoc; repeat split; auto; intros ->; now destruct Hne.
  - exists (Threw x), e2, tb, []. rewrite app_nil_r. repeat split; eauto.
Qed.

(** C3: atomicity of the commit builder (spec section 4.3).  For the
    repository [initRepo] sets up from the tests' answers, whatever the host
    answers: steps 1 to 4 issue no request that moves a ref; if one of them
    fails, [commitFilesToBranch] fails with its error and the ref is never
    touched; if they succeed with commit [sha], the remaining requests are
    the [branchExists] GETs, then the requests of one ref update (a PATCH
    of the branch, or the POST creating it), all carrying [sha], and there
    is at least one of them unless [branchExists] failed. *)
Theorem commit_ref_last :
  result_of (initRepo false "some/repo" (Some "token") None no_penv) test_init_mocks =
    Done (test_ctx, mkPenv (Some "token") None) /\
  forall b files msg parentBranch (e : E),
  let parent := match parentBranch with Some p => p | None => to_string (ctx_base_branch test_ctx) end in
  let '(r1, e1, t1) := run (build_commit test_ctx files msg parent) e in
  Forall (fun q => touches_ref test_ctx q = false) t1 /\
  match r1 with
  | Threw x => run (commitFilesToBranch test_ctx b files msg parentBranch) e = (Threw x, e1, t1)
  | Done sha =>
      exists r2 e2 tb tu,
        run (commitFilesToBranch test_ctx b files msg parentBranch) e =
          (r2, e2, (t1 ++ tb ++ tu)%list) /\
        Forall (fun q => q = exists_req test_ctx b) tb /\
        (Forall (fun q => q = update_req test_ctx b sha) tu \/
         Forall (fun q => q = create_req test_ctx b sha) tu) /\
        (tu = [] -> exists x, r2 = Threw x)
  end.
Proof. split; [exact test_ctx_init | intros; apply commit_ref_last_any]. Qed.

End Atomicity.

(** ** The scenarios of src/test/api/github.spec.js *)

(** The answers queued by the [beforeEach] of the commitFilesToBranch
  tests after [initRepo]: two GETs (parent commit, its tree), three POSTs
  (blob, tree, commit), then the test's own answer to [branchExists]. *)
Definition commit_mocks (branch_answer : outcome) : mocks :=
  mkMocks [Resolved (body_only (JObj [("object", JObj [("sha", JStr "1111")])]));
           Resolved (body_only (JObj [("tree", JObj [("sha", JStr "2222")])]));
           branch_answer]
          [Resolved (body_only (JObj [("sha", JStr "3333")]));
           Resolved (body_only (JObj [("sha", JStr "4444")]));
           Resolved (body_only (JObj [("sha", JStr "5555")]))] [] [] [].

Definition existing_branch : outcome :=
  Resolved (response 200 (JObj [("ref", JStr "refs/heads/package.json")])).

Definition missing_branch : outcome := Resolved (JObj [("statusCode", JNum 404)]).

Definition test_files : list jval :=
  [JObj [("name", JStr "package.json"); ("contents", JStr "hello world")]].

Definition token_only : jval := JObj [("token", JStr "token")].

Definition post_body (url : string) (body : jval) : request :=
  mkReq POST url (JObj [("token", JStr "token"); ("body", body)]).

(** The requests of steps 1 to 4 in the tests: the base branch's commit
  and tree, the blob of "hello world" (base64 "aGVsbG8gd29ybGQ="), the
  tree over "2222" with the blob "3333", the commit of tree "4444" on
  parent "1111". *)
Definition test_build_requests (message : string) : list request :=
  [mkReq GET "repos/some/repo/git/refs/heads/master" token_only;
   mkReq GET "repos/some/repo/git/commits/1111" token_only;
   post_body "repos/some/repo/git/blobs"
     (JObj [("encoding", JStr "base64"); ("content", JStr "aGVsbG8gd29ybGQ=")]);
   post_body "repos/some/repo/git/trees"
     (JObj [("base_tree", JStr "2222");
            ("tree", JArr [JObj [("path", JStr "package.json"); ("mode", JStr "100644");
                                 ("type", JStr "blob"); ("sha", JStr "3333")]])]);
   post_body "repos/some/repo/git/commits"
     (JObj [("message", JStr message); ("parents", JArr [JStr "1111"]); ("tree", JStr "4444")])].

(** The two commitFilesToBranch tests.  On the tests' answers the model
  issues exactly the requests above, in order, then the [branchExists]
  GET, then a PATCH of the existing branch to commit "5555", or the POST
  creating the missing branch at "5555"; the tree references the blob SHA
  the blob creation returned and the commit the tree SHA. *)
Example commit_tests :
  run (commitFilesToBranch test_ctx "package.json" test_files (JStr "my commit message") None)
      (commit_mocks existing_branch) =
    (Done JUndef, no_mocks,
     test_build_requests "my commit message" ++
     [mkReq GET "repos/some/repo/git/refs/heads/package.json" token_only;
      mkReq PATCH "repos/some/repo/git/refs/heads/package.json"
            (JObj [("token", JStr "token"); ("body", JObj [("sha", JStr "5555"); ("force", JBool true)])])])%list /\
  run (commitFilesToBranch test_ctx "package.json" test_files (JStr "my other commit message") None)
      (commit_mocks missing_branch) =
    (Done JUndef, no_mocks,
     test_build_requests "my other commit message" ++
     [mkReq GET "repos/some/repo/git/refs/heads/package.json" token_only;
      post_body "repos/some/repo/git/refs"
        (JObj [("ref", JStr "refs/heads/package.json"); ("sha", JStr "5555")])])%list.
Proof. split; vm_compute; reflexivity. Qed.

(** The answers of the seven branchExists tests. *)
Definition branch_answers : list outcome :=
  [Resolved (response 200 (JObj [("ref", JStr "refs/heads/thebranchname")]));
   Resolved (response 200 (JArr [JObj [("ref", JStr "refs/heads/notthebranchname")];
                                 JObj [("ref", JStr "refs/heads/thebranchname")]]));
   Resolved (response 200 (JObj [("ref", JStr "refs/heads/notthebranchname")]));
   Resolved (response 200 (JArr [JObj [("ref", JStr "refs/heads/notthebranchname")];
                                 JObj [("ref", JStr "refs/heads/alsonotthebranchname")]]));
   Resolved (JObj [("statusCode", JNum 123)]);
   Rejected (JObj [("statusCode", JNum 404)]);
   Rejected (error_obj "Something went wrong")].

(** [branchExists] on the answers of its seven tests: true for the
  single and the listed matching ref, false for non-matching refs, for a
  non-200 status and for a 404 rejection; any other error propagates
  unchanged; each test makes exactly one request. *)
Theorem branchExists_tests :
  map (fun o => run (branchExists test_ctx "thebranchname") (get_queue [o])) branch_answers =
  map (fun r => (r, no_mocks, [mkReq GET "repos/some/repo/git/refs/heads/thebranchname" token_only]))
      [Done true; Done true; Done false; Done false; Done false; Done false;
       Threw (error_obj "Something went wrong")].
Proof. vm_compute. reflexivity. Qed.

End CommitTheorems.
