(* ===== verification/Pr.v ===== *)
(** * Reading a pull request: getPr (spec section 4.2)

    [getPr(number)] of the client resolves to [null] when the number is
    falsy or the host returns no body; otherwise it normalises the PR: a
    closed PR is marked [isClosed]; an open PR with a single commit is
    marked [canRebase]; for an open PR with several commits the client
    fetches the commit list and marks it [canRebase] when the commits have
    exactly one distinct author (the authors are collected with
    [reduce] and [indexOf], keeping the first occurrence of each).

    The client is not under src/: the definitions follow the spec, the
    scenarios the tests "getPr(prNo)" of src/test/api/github.spec.js. *)

From Stdlib Require Import String List ZArith Lia Bool.
From S2P Require Import Prelude Js Http Retry Client Commit.
Import ListNotations.
Local Open Scope list_scope.
Local Open Scope string_scope.

Module Pr.
Import Client Commit.
Local Open Scope prog_scope.

Definition pr_url (c : ctx) (prNo : jval) : string :=
  "repos/" ++ ctx_repo c ++ "/pulls/" ++ to_string prNo.

(** [arr.indexOf(author) === -1] *)
Definition seen (author : jval) (arr : list jval) : bool := existsb (strict_eq author) arr.

(** [prCommits.reduce((arr, commit) => { const author = commit.author.login;
    if (arr.indexOf(author) === -1) arr.push(author); return arr; }, [])] *)
Fixpoint commit_authors (commits : list jval) (arr : list jval) : js (list jval) :=
  match commits with
  | [] => Ret arr
  | commit :: rest =>
      author <- path2 commit "author" "login" ;;
      commit_authors rest (if seen author arr then arr else arr ++ [author])
  end.

(** [pr.k = true]; a write to a primitive value is lost. *)
Definition mark (pr : jval) (k : string) : jval :=
  match pr with JObj ps => JObj (obj_set ps k (JBool true)) | _ => pr end.

Definition getPr (c : ctx) (prNo : jval) : js jval :=
  if negb (truthy prNo) then Ret JNull else
  res <- request_of c GET (pr_url c prNo) (auth (ctx_token c)) ;;
  pr <- prop res "body" ;;
  if negb (truthy pr) then Ret JNull else
  state <- prop pr "state" ;;
  if strict_eq state (JStr "closed") then Ret (mark pr "isClosed") else
  commits <- prop pr "commits" ;;
  if strict_eq commits (JNum 1) then Ret (mark pr "canRebase") else
  res2 <- request_of c GET (pr_url c prNo ++ "/commits") (auth (ctx_token c)) ;;
  prCommits <- prop res2 "body" ;;
  match prCommits with
  | JArr cs =>
      authors <- commit_authors cs [] ;;
      Ret (if Nat.eqb (length authors) 1 then mark pr "canRebase" else pr)
  | _ => Throw (type_error "prCommits.reduce is not a function")
  end.

End Pr.

Module PrFacts.
Import Client Commit Pr.
Local Open Scope prog_scope.
Local Open Scope list_scope.

(** A commit of the commit list, [{ author: { login } }]. *)
Definition author_commit (login : string) : jval :=
  JObj [("author", JObj [("login", JStr login)])].

Definition add_author (arr : list jval) (a : jval) : list jval :=
  if seen a arr then arr else arr ++ [a].

Definition pr_req (c : ctx) (prNo : jval) : request :=
  mkReq GET (pr_url c prNo) (decorate (ctx_app c) (auth (ctx_token c))).

Definition commits_req (c : ctx) (prNo : jval) : request :=
  mkReq GET (pr_url c prNo ++ "/commits") (decorate (ctx_app c) (auth (ctx_token c))).

Lemma commit_authors_logins ls arr :
  commit_authors (map author_commit ls) arr = Ret (fold_left add_author (map JStr ls) arr).
Proof. revert arr. induction ls as [|l ls IH]; intros arr; [reflexivity|]. exact (IH _). Qed.

Lemma seen_str x arr : seen (JStr x) arr = true <-> In (JStr x) arr.
Proof.
  unfold seen. rewrite existsb_exists. split.
  - intros [y [Hy Heq]]. destruct y; try discriminate. apply String.eqb_eq in Heq. now subst.
  - intros H. exists (JStr x). split; [exact H|apply String.eqb_refl].
Qed.

Lemma fold_add_prefix ls arr : exists extra, fold_left add_author ls arr = (arr ++ extra)%list.
Proof.
  revert arr. induction ls as [|a ls IH]; intros arr; [exists []; now rewrite app_nil_r|].
  simpl. unfold add_author at 2. destruct (seen a arr).
  - apply IH.
  - destruct (IH (arr ++ [a])) as [extra ->]. exists (a :: extra). now rewrite <- app_assoc.
Qed.

Lemma fold_add_same x ls :
  Forall (fun l => l = x) ls -> fold_left add_author (map JStr ls) [JStr x] = [JStr x].
Proof.
  induction 1 as [|l ls -> _ IH]; [reflexivity|]. simpl.
  unfold add_author at 2. cbn [seen existsb strict_eq]. rewrite String.eqb_refl. exact IH.
Qed.

Lemma fold_add_grows x ls arr :
  In (JStr x) arr -> (exists y, In y ls /\ y <> x) ->
  2 <= length (fold_left add_author (map JStr ls) arr).
Proof.
  revert arr. induction ls as [|l ls IH]; intros arr Hx [y [Hy Hne]]; [destruct Hy|].
  simpl. unfold add_author at 2.
  destruct Hy as [->|Hy].
  - destruct (seen (JStr y) arr) eqn:Hs.
    + apply seen_str in Hs. assert (2 <= length arr).
      { destruct arr as [|a [|b arr]]; simpl in *; try tauto; [|lia].
        destruct Hx as [Hx|[]]; destruct Hs as [Hs|[]]; congruence. }
      destruct (fold_add_prefix (map JStr ls) arr) as [extra ->]. rewrite length_app. lia.
    + destruct (fold_add_prefix (map JStr ls) (arr ++ [JStr y])) as [extra ->].
      rewrite !length_app. destruct arr; [destruct Hx|]. simpl. lia.
  - apply IH; [|eauto].
    destruct (seen (JStr l) arr); [exact Hx|apply in_or_app; now left].
Qed.

(** The commits have exactly one distinct author iff there is at least one
    commit and every author is the first one. *)
Lemma one_author_iff ls :
  length (fold_left add_author (map JStr ls) []) = 1 <->
  ls <> [] /\ Forall (fun l => l = hd EmptyString ls) ls.
Proof.
  destruct ls as [|x ls]; simpl; [split; [discriminate|tauto]|].
  unfold add_author at 2. cbn [seen existsb app]. split.
  - intros Hlen. split; [discriminate|]. constructor; [reflexivity|].
    destruct (Forall_Exists_dec (fun l => l = x) (fun l => string_dec l x) ls) as [Hall|Hex];
      [exact Hall|].
    apply Exists_exists in Hex as [y [Hy Hne]].
    pose proof (fold_add_grows x ls [JStr x] (or_introl eq_refl) (ex_intro _ y (conj Hy Hne))).
    lia.
  - intros [_ Hall]. inversion Hall as [|? ? _ Hrest]. now rewrite fold_add_same.
Qed.

End PrFacts.

Module PrTheorems.
Import Client ClientScenarios Commit Pr PrFacts.
Local Open Scope prog_scope.

Section Eligibility.
Context {E : Type} `{Responder request outcome E}.

(** Eligibility for any context: an open PR with several commits is
    [canRebase] iff its commits have one author. *)
Lemma getPr_rebase_any c prNo ps ls (e e1 e2 : E) :
  truthy prNo = true ->
  strict_eq (prop_or_undef ps "state") (JStr "closed") = false ->
  strict_eq (prop_or_undef ps "commits") (JNum 1) = false ->
  respond (pr_req c prNo) e = (Resolved (body_only (JObj ps)), e1) ->
  respond (commits_req c prNo) e1 = (Resolved (body_only (JArr (map author_commit ls))), e2) ->
  exists v, run (getPr c prNo) e = (Done v, e2, [pr_req c prNo; commits_req c prNo]) /\
    ((ls <> [] /\ Forall (fun l => l = hd EmptyString ls) ls) -> v = mark (JObj ps) "canRebase") /\
    (~ (ls <> [] /\ Forall (fun l => l = hd EmptyString ls) ls) -> v = JObj ps).
Proof.
  intros Hno Hopen Hmulti H1 H2. unfold pr_req, commits_req in *. unfold getPr. rewrite Hno. cbn [negb].
  unfold request_of, gh_got_retry, max_retries.
  cbn [retry_loop bind run]. rewrite H1. cbn [bind run prop lift get_prop prop_or_undef obj_get
    body_only String.eqb truthy negb Ascii.eqb Bool.eqb andb].
  rewrite Hopen, Hmulti. cbn [retry_loop bind run]. rewrite H2.
  cbn [bind run prop lift get_prop prop_or_undef obj_get body_only String.eqb Ascii.eqb Bool.eqb andb].
  rewrite commit_authors_logins. cbn [bind run].
  eexists. split; [reflexivity|].
  split; intros Hc; [apply one_author_iff in Hc; now rewrite Hc|].
  destruct (Nat.eqb_spec (length (fold_left add_author (map JStr ls) [])) 1) as [Hl|]; [|reflexivity].
  apply one_author_iff in Hl. contradiction.
Qed.

(** C17: rebase eligibility (spec section 4.2).  For the repository
    [initRepo] sets up from the tests' answers and any host: when an open
    PR with a commit count other than 1 is returned, [getPr] fetches its
    commit list (two requests in all) and marks the PR [canRebase] exactly
    when there is at least one commit and every commit has the first
    commit's author; otherwise it returns the PR unchanged. *)
Theorem getPr_rebase_eligibility :
  result_of (initRepo false "some/repo" (Some "token") None no_penv) test_init_mocks =
    Done (test_ctx, mkPenv (Some "token") None) /\
  forall prNo ps ls (e e1 e2 : E),
  truthy prNo = true ->
  strict_eq (prop_or_undef ps "state") (JStr "closed") = false ->
  strict_eq (prop_or_undef ps "commits") (JNum 1) = false ->
  respond (pr_req test_ctx prNo) e = (Resolved (body_only (JObj ps)), e1) ->
  respond (commits_req test_ctx prNo) e1 =
    (Resolved (body_only (JArr (map author_commit ls))), e2) ->
  exists v, run (getPr test_ctx prNo) e = (Done v, e2, [pr_req test_ctx prNo; commits_req test_ctx prNo]) /\
    ((ls <> [] /\ Forall (fun l => l = hd EmptyString ls) ls) -> v = mark (JObj ps) "canRebase") /\
    (~ (ls <> [] /\ Forall (fun l => l = hd EmptyString ls) ls) -> v = JObj ps).
Proof. split; [exact test_ctx_init | intros; eapply getPr_rebase_any; eassumption]. Qed.

End Eligibility.

(** ** The scenarios of the tests "getPr(prNo)" *)

(** The PR bodies the tests return. *)
Definition pr_body (n : Z) (state : string) (dirty : bool) (base : string) (commits : option Z) : jval :=
  JObj ([("number", JNum n); ("state", JStr state)] ++
        (if dirty then [("mergeable_state", JStr "dirty")] else []) ++
        [("base", JObj [("sha", JStr base)])] ++
        match commits with Some k => [("commits", JNum k)] | None => [] end)%list.

(** The PR number and the GET answers of each of the seven tests. *)
Definition getPr_scenarios : list (jval * mocks) :=
  [(JNull, get_queue []);
   (JNum 1234, get_queue [Resolved (body_only JNull)]);
   (JNum 1234, get_queue [Resolved (body_only (pr_body 1 "closed" false "1234" None))]);
   (JNum 1234, get_queue [Resolved (body_only (pr_body 1 "open" true "1234" (Some 1%Z)))]);
   (JNum 1234, get_queue [Resolved (body_only (pr_body 1 "open" false "5678" (Some 1%Z)))]);
   (JNum 1234, get_queue [Resolved (body_only (pr_body 1 "open" true "1234" (Some 2%Z)));
                          Resolved (body_only (JArr [author_commit "foo"]))]);
   (JNum 1234, get_queue [Resolved (body_only (pr_body 1 "open" true "1234" (Some 2%Z)));
                          Resolved (body_only (JArr [author_commit "foo"; author_commit "bar"]))])]%list.

(** The seven getPr tests: [null] without a number (no request) and
    for an empty body; a closed PR is marked [isClosed] after one request;
    an open single-commit PR is [canRebase] after one request; an open
    two-commit PR is [canRebase] with one author and not with two, after
    two requests. *)
Example getPr_tests :
  map (fun nm => let '(r, _, t) := run (getPr test_ctx (fst nm)) (snd nm) in (r, length t))
      getPr_scenarios =
  [(Done JNull, 0); (Done JNull, 1);
   (Done (mark (pr_body 1 "closed" false "1234" None) "isClosed"), 1);
   (Done (mark (pr_body 1 "open" true "1234" (Some 1%Z)) "canRebase"), 1);
   (Done (mark (pr_body 1 "open" false "5678" (Some 1%Z)) "canRebase"), 1);
   (Done (mark (pr_body 1 "open" true "1234" (Some 2%Z)) "canRebase"), 2);
   (Done (pr_body 1 "open" true "1234" (Some 2%Z)), 2)]%nat.
Proof. vm_compute. reflexivity. Qed.

Lemma getPr_rebase_eligibility_witness :
  exists v, run (getPr test_ctx (JNum 1234))
                (get_queue [Resolved (body_only (pr_body 1 "open" true "1234" (Some 2%Z)));
                            Resolved (body_only (JArr [author_commit "foo"; author_commit "foo"]))]) =
    (Done v, no_mocks, [pr_req test_ctx (JNum 1234); commits_req test_ctx (JNum 1234)]) /\
    (["foo"; "foo"] <> [] /\ Forall (fun l => l = hd EmptyString ["foo"; "foo"]) ["foo"; "foo"] ->
       v = mark (pr_body 1 "open" true "1234" (Some 2%Z)) "canRebase") /\
    (~ (["foo"; "foo"] <> [] /\ Forall (fun l => l = hd EmptyString ["foo"; "foo"]) ["foo"; "foo"]) ->
       v = pr_body 1 "open" true "1234" (Some 2%Z)).
Proof.
  apply (proj2 (@getPr_rebase_eligibility mocks _) (JNum 1234)
           [("number", JNum 1); ("state", JStr "open"); ("mergeable_state", JStr "dirty");
            ("base", JObj [("sha", JStr "1234")]); ("commits", JNum 2)]
           ["foo"; "foo"] _
           (get_queue [Resolved (body_only (JArr [author_commit "foo"; author_commit "foo"]))])
           no_mocks); reflexivity.
Defined.

End PrTheorems.
