(* ===== verification/Repo.v ===== *)
(** * Repository reads of the client (spec section 4.2)

    The read operations of lib/api/github.js that the tests exercise,
    besides [branchExists] (Commit.v) and [getPr] (Pr.v):
    - [getFile(path, branch?)]: the [content] of the contents endpoint,
      still base64-encoded; [getFileContent] decodes it to text and
      [getFileJson] parses that text; [getFileContent] resolves to [null]
      when the host answers 404 ([getFileJson] then parses "null") and
      both propagate any other error unchanged;
    - [getBranchPr(branch)]: the open PRs of the branch against the base
      branch; [null] if there is none, otherwise [getPr] of the first;
    - [findPr(branch, title?, state)]: the first PR of the branch whose
      title matches (any title when none is given), marked [isClosed] when
      closed, or [null];
    - [checkForClosedPr(branch, title)]: whether a closed PR has exactly
      that title and exactly that head branch.

    The client is not under src/: the definitions follow the spec, the
    scenarios the tests of src/test/api/github.spec.js. *)

From Stdlib Require Import String Ascii List ZArith Lia Bool.
From S2P Require Import Prelude Js Http Retry Base64 GithubFiles Client Commit Pr.
Import ListNotations.
Local Open Scope list_scope.
Local Open Scope string_scope.

Module Repo.
Import Client Commit Pr Base64 GithubFiles.
Local Open Scope prog_scope.

Definition repo_url (c : ctx) (suffix : string) : string := "repos/" ++ ctx_repo c ++ suffix.

Definition get (c : ctx) (url : string) : js jval := request_of c GET url (auth (ctx_token c)).

(** [branchName || config.baseBranch] *)
Definition branch_or_base (c : ctx) (branchName : option string) : string :=
  match branchName with
  | Some b => if String.eqb b "" then to_string (ctx_base_branch c) else b
  | None => to_string (ctx_base_branch c)
  end.

(** [getFile(filePath, branchName)]: [res.body.content] *)
Definition getFile (c : ctx) (filePath : string) (branchName : option string) : js jval :=
  res <- get c (repo_url c ("/contents/" ++ filePath ++ "?ref=" ++ branch_or_base c branchName)) ;;
  path2 res "body" "content".

(** [catch (error) { if (error.statusCode === 404) return null; throw error; }] *)
Definition null_on_404 (error : jval) : js jval :=
  status <- prop error "statusCode" ;;
  if strict_eq status (JNum 404) then Ret JNull else Throw error.

(** [new Buffer(file, 'base64').toString()] *)
Definition decode_text (file : jval) : js jval :=
  bytes <- lift_buffer (buffer_from (Some "base64") file) ;;
  Ret (JStr (string_of_bytes bytes)).

Definition getFileContent (c : ctx) (filePath : string) (branchName : option string) : js jval :=
  catch (file <- getFile c filePath branchName ;; decode_text file) null_on_404.

Section Json.
Context `{JsonParse}.

(** [JSON.parse(await getFileContent(filePath, branchName))]; on a 404 the
    content is [null], and [JSON.parse(null)] parses the text "null". *)
Definition getFileJson (c : ctx) (filePath : string) (branchName : option string) : js jval :=
  text <- getFileContent c filePath branchName ;;
  lift (json_parse (to_string text)).

End Json.

(** [getBranchPr(branchName)] *)
Definition getBranchPr (c : ctx) (branchName : string) : js jval :=
  res <- get c (repo_url c ("/pulls?state=open&base=" ++ to_string (ctx_base_branch c) ++
                            "&head=" ++ to_string (ctx_owner c) ++ ":" ++ branchName)) ;;
  prs <- prop res "body" ;;
  len <- prop prs "length" ;;
  if negb (truthy len) then Ret JNull else
  first <- lift (get_index prs 0) ;;
  number <- prop first "number" ;;
  getPr c number.

(** The first PR of a list whose title matches, if any. *)
Fixpoint first_match (prTitle : option string) (prs : list jval) : js jval :=
  match prs with
  | [] => Ret JNull
  | pr :: rest =>
      title <- prop pr "title" ;;
      let matches := match prTitle with
                     | None => true
                     | Some t => strict_eq title (JStr t)
                     end in
      if matches then
        state <- prop pr "state" ;;
        Ret (if strict_eq state (JStr "closed") then mark pr "isClosed" else pr)
      else first_match prTitle rest
  end.

(** [findPr(branchName, prTitle, state = 'all')] *)
Definition findPr (c : ctx) (branchName : string) (prTitle : option string) (state : string)
  : js jval :=
  res <- get c (repo_url c ("/pulls?head=" ++ to_string (ctx_owner c) ++ ":" ++ branchName ++
                            "&state=" ++ state)) ;;
  prs <- prop res "body" ;;
  match prs with
  | JArr xs => first_match prTitle xs
  | _ => Throw (type_error "res.body.forEach is not a function")
  end.

(** [pr.title === prTitle && pr.head.label === `${config.owner}:${branchName}`] *)
Fixpoint some_closed_match (title label : string) (prs : list jval) : js bool :=
  match prs with
  | [] => Ret false
  | pr :: rest =>
      t <- prop pr "title" ;;
      l <- path2 pr "head" "label" ;;
      if strict_eq t (JStr title) && strict_eq l (JStr label) then Ret true
      else some_closed_match title label rest
  end.

(** [checkForClosedPr(branchName, prTitle)] *)
Definition checkForClosedPr (c : ctx) (branchName prTitle : string) : js bool :=
  let label := to_string (ctx_owner c) ++ ":" ++ branchName in
  res <- get c (repo_url c ("/pulls?state=closed&head=" ++ label)) ;;
  prs <- prop res "body" ;;
  match prs with
  | JArr xs => some_closed_match prTitle label xs
  | _ => Throw (type_error "res.body.some is not a function")
  end.

End Repo.

Module RepoTheorems.
Import Client ClientScenarios Commit Pr Base64 Base64Facts GithubFiles Repo.
Local Open Scope prog_scope.

Section Host.
Context {E : Type} `{Responder request outcome E}.

(** The GET of [getFile]. *)
Definition file_req (c : ctx) (filePath : string) (branchName : option string) : request :=
  mkReq GET (repo_url c ("/contents/" ++ filePath ++ "?ref=" ++ branch_or_base c branchName))
        (decorate (ctx_app c) (auth (ctx_token c))).

Lemma status_404_not_retryable ps :
  obj_get ps "statusCode" = Some (JNum 404) -> retryable (JObj ps) = false.
Proof. intros Hs. unfold retryable, status_of. now rewrite Hs. Qed.

Lemma run_get_once c url (e e1 : E) o :
  respond (mkReq GET url (decorate (ctx_app c) (auth (ctx_token c)))) e = (o, e1) ->
  (forall x, o = Rejected x -> retryable x = false) ->
  run (get c url) e =
    match o with
    | Resolved v => (Done v, e1, [mkReq GET url (decorate (ctx_app c) (auth (ctx_token c)))])
    | Rejected x => (Threw x, e1, [mkReq GET url (decorate (ctx_app c) (auth (ctx_token c)))])
    end.
Proof.
  intros Hr Hnr. unfold get, request_of, gh_got_retry, max_retries. cbn [retry_loop run].
  rewrite Hr. destruct o as [v|x]; [reflexivity|]. rewrite (Hnr x eq_refl). reflexivity.
Qed.

(** [getFileContent] for any context. *)
Lemma getFileContent_any c filePath branchName (e e1 : E) :
  (forall t,
     respond (file_req c filePath branchName) e =
       (Resolved (body_only (JObj [("content", JStr (github_wrap (b64_encode (bytes_of_string t))))])), e1) ->
     run (getFileContent c filePath branchName) e = (Done (JStr t), e1, [file_req c filePath branchName])) /\
  (forall ps,
     obj_get ps "statusCode" = Some (JNum 404) ->
     respond (file_req c filePath branchName) e = (Rejected (JObj ps), e1) ->
     run (getFileContent c filePath branchName) e = (Done JNull, e1, [file_req c filePath branchName])) /\
  (forall x s,
     retryable x = false -> get_prop x "statusCode" = inl s -> strict_eq s (JNum 404) = false ->
     respond (file_req c filePath branchName) e = (Rejected x, e1) ->
     run (getFileContent c filePath branchName) e = (Threw x, e1, [file_req c filePath branchName])).
Proof.
  unfold getFileContent, getFile, file_req. repeat split.
  - intros t Hr. rewrite run_catch, run_bind, run_bind.
    rewrite (run_get_once _ _ _ _ _ Hr) by discriminate.
    cbn -[string_of_bytes github_wrap b64_decode b64_encode bytes_of_string].
    rewrite transport_text. reflexivity.
  - intros ps Hs Hr. rewrite run_catch, run_bind, run_bind.
    rewrite (run_get_once _ _ _ _ _ Hr) by (intros x Hx; injection Hx as <-; now apply status_404_not_retryable).
    cbn [run bind]. unfold null_on_404, prop, lift. rewrite run_bind. cbn [get_prop].
    unfold prop_or_undef. rewrite Hs. reflexivity.
  - intros x st Hnr Hs H404 Hr. rewrite run_catch, run_bind, run_bind.
    rewrite (run_get_once _ _ _ _ _ Hr) by (intros y Hy; injection Hy as <-; exact Hnr).
    cbn [run bind]. unfold null_on_404, prop, lift. rewrite run_bind, Hs.
    cbn [run]. now rewrite H404.
Qed.

(** The GET of [getBranchPr]. *)
Definition branch_pr_req (c : ctx) (b : string) : request :=
  mkReq GET (repo_url c ("/pulls?state=open&base=" ++ to_string (ctx_base_branch c) ++
                         "&head=" ++ to_string (ctx_owner c) ++ ":" ++ b))
        (decorate (ctx_app c) (auth (ctx_token c))).

(** [getBranchPr] for any context: [null] on an empty list, otherwise the
    list request followed by [getPr] of the first PR's number. *)
Lemma getBranchPr_any c b prs (e e1 : E) :
  respond (branch_pr_req c b) e = (Resolved (body_only (JArr prs)), e1) ->
  (prs = [] -> run (getBranchPr c b) e = (Done JNull, e1, [branch_pr_req c b])) /\
  (forall first rest n, prs = first :: rest -> get_prop first "number" = inl n ->
     run (getBranchPr c b) e =
       let '(r, e2, t) := run (getPr c n) e1 in (r, e2, branch_pr_req c b :: t)).
Proof.
  unfold branch_pr_req. intros Hr. unfold getBranchPr.
  split; [intros ->|intros first rest n -> Hn];
    rewrite run_bind, (run_get_once _ _ _ _ _ Hr) by discriminate; cbn [run bind prop lift].
  - reflexivity.
  - unfold prop, lift, get_index. rewrite !run_bind. simpl.
    replace (prop_or_undef _ (string_of_nat 0)) with first by reflexivity.
    rewrite Hn. simpl. destruct (run (getPr c n) e1) as [[r e2] t]. reflexivity.
Qed.

End Host.

Section Claims.
Context {E : Type} `{Responder request outcome E}.

(** C19: reading file contents (spec section 4.2).  For the repository
    [initRepo] sets up from the tests' answers and any host, with one GET
    of the contents URL: content that is the base64 encoding of a text, in
    the 60-column form GitHub sends, is decoded back to the text; a 404
    rejection resolves to [null]; any other non-retryable rejection whose
    status can be read propagates unchanged. *)
Theorem getFileContent_null_on_404 :
  result_of (initRepo false "some/repo" (Some "token") None no_penv) test_init_mocks =
    Done (test_ctx, mkPenv (Some "token") None) /\
  forall filePath branchName (e e1 : E),
  (forall t,
     respond (file_req test_ctx filePath branchName) e =
       (Resolved (body_only (JObj [("content", JStr (github_wrap (b64_encode (bytes_of_string t))))])), e1) ->
     run (getFileContent test_ctx filePath branchName) e =
       (Done (JStr t), e1, [file_req test_ctx filePath branchName])) /\
  (forall ps,
     obj_get ps "statusCode" = Some (JNum 404) ->
     respond (file_req test_ctx filePath branchName) e = (Rejected (JObj ps), e1) ->
     run (getFileContent test_ctx filePath branchName) e =
       (Done JNull, e1, [file_req test_ctx filePath branchName])) /\
  (forall x s,
     retryable x = false -> get_prop x "statusCode" = inl s -> strict_eq s (JNum 404) = false ->
     respond (file_req test_ctx filePath branchName) e = (Rejected x, e1) ->
     run (getFileContent test_ctx filePath branchName) e =
       (Threw x, e1, [file_req test_ctx filePath branchName])).
Proof. split; [exact test_ctx_init | intros; apply getFileContent_any]. Qed.

End Claims.

(** ** The scenarios of src/test/api/github.spec.js *)

Definition quote : string := String "034"%char EmptyString.

(** The text ['{"hello": "world"}'] of the getFileJson test. *)
Definition hello_json : string :=
  "{" ++ quote ++ "hello" ++ quote ++ ": " ++ quote ++ "world" ++ quote ++ "}".

(** [{ body: { content: Buffer.from(text).toString('base64') } }] *)
Definition content_answer (text : string) : outcome :=
  Resolved (body_only (JObj [("content", JStr (b64_encode (bytes_of_string text)))])).

(** The error of "should return null if GitHub returns a 404". *)
Definition error_404 : jval := JObj [("message", JStr ""); ("statusCode", JNum 404)].

(** The PR of "getBranchPr: should return the PR object". *)
Definition branch_pr_body : jval :=
  JObj [("number", JNum 91); ("additions", JNum 1); ("deletions", JNum 1); ("commits", JNum 1);
        ("base", JObj [("sha", JStr "1234")])].

(** The closed PRs of the checkForClosedPr tests. *)
Definition closed_prs : jval :=
  JArr [JObj [("title", JStr "foo"); ("head", JObj [("label", JStr "theowner:some-branch")])];
        JObj [("title", JStr "bar"); ("head", JObj [("label", JStr "theowner:some-other-branch")])];
        JObj [("title", JStr "baz"); ("head", JObj [("label", JStr "theowner:some-branch")])]].

Definition pr_42 (state : string) : jval :=
  JObj [("title", JStr "PR Title"); ("state", JStr state); ("number", JNum 42)].

Definition outcome_of {A} (r : completion jval A * mocks * list request) : completion jval A * nat :=
  let '(c, _, t) := r in (c, length t).

Section Tests.
Context {jp : JsonParse}.

(** The tests of getFile, getFileContent, getFileJson, getBranchPr,
    findPr and checkForClosedPr, each with its number of requests:
    the raw content; the decoded text "hello world"; [null] on 404; the
    unknown error propagated; [JSON.parse] of the decoded text; [null] for
    no open PR, otherwise [getPr] of the first (two requests, a
    single-commit PR is rebaseable); the PR found by title, [null] for no
    PR, a closed PR marked [isClosed]; a closed PR with title "foo" on
    "some-branch" is found, "bar" (another branch) and "bop" are not. *)
Theorem repo_read_tests :
  outcome_of (run (getFile test_ctx "package.json" None)
                  (get_queue [Resolved (body_only (JObj [("content", JStr "hello")]))])) =
    (Done (JStr "hello"), 1%nat) /\
  outcome_of (run (getFileContent test_ctx "package.json" None)
                  (get_queue [content_answer "hello world"])) = (Done (JStr "hello world"), 1%nat) /\
  outcome_of (run (getFileContent test_ctx "package.json" None) (get_queue [Rejected error_404])) =
    (Done JNull, 1%nat) /\
  outcome_of (run (getFileContent test_ctx "package.json" None)
                  (get_queue [Rejected (error_obj "Something went wrong")])) =
    (Threw (error_obj "Something went wrong"), 1%nat) /\
  outcome_of (run (getFileJson test_ctx "package.json" None) (get_queue [content_answer hello_json])) =
    (match json_parse hello_json with inl v => Done v | inr x => Threw x end, 1%nat) /\
  outcome_of (run (getBranchPr test_ctx "somebranch") (get_queue [Resolved (body_only (JArr []))])) =
    (Done JNull, 1%nat) /\
  outcome_of (run (getBranchPr test_ctx "somebranch")
                  (get_queue [Resolved (body_only (JArr [JObj [("number", JNum 91)]]));
                              Resolved (body_only branch_pr_body)])) =
    (Done (mark branch_pr_body "canRebase"), 2%nat) /\
  outcome_of (run (findPr test_ctx "master" (Some "PR Title") "all")
                  (get_queue [Resolved (body_only (JArr [pr_42 "open"]))])) = (Done (pr_42 "open"), 1%nat) /\
  outcome_of (run (findPr test_ctx "master" (Some "PR Title") "all")
                  (get_queue [Resolved (body_only (JArr []))])) = (Done JNull, 1%nat) /\
  outcome_of (run (findPr test_ctx "master" None "all")
                  (get_queue [Resolved (body_only (JArr [pr_42 "closed"]))])) =
    (Done (mark (pr_42 "closed") "isClosed"), 1%nat) /\
  map (fun title => outcome_of (run (checkForClosedPr test_ctx "some-branch" title)
                                    (get_queue [Resolved (body_only closed_prs)])))
      ["foo"; "bar"; "bop"] =
    [(Done true, 1%nat); (Done false, 1%nat); (Done false, 1%nat)].
Proof.
  vm_compute. repeat split.
  let t := eval vm_compute in hello_json in destruct (jp t); reflexivity.
Qed.

End Tests.

Lemma getFileContent_null_on_404_witness :
  obj_get [("message", JStr ""); ("statusCode", JNum 404)] "statusCode" = Some (JNum 404) /\
  run (getFileContent test_ctx "package.json" None) (get_queue [Rejected error_404]) =
    (Done JNull, no_mocks, [file_req test_ctx "package.json" None]).
Proof.
  split; [reflexivity|].
  apply (proj1 (proj2 (proj2 (@getFileContent_null_on_404 mocks _) "package.json" None
                        (get_queue [Rejected error_404]) no_mocks))
           [("message", JStr ""); ("statusCode", JNum 404)]); reflexivity.
Defined.

End RepoTheorems.
